(** * Kenya E-Campaign backend: request handlers over a relational store

    The repository is an Express application whose routes are thin
    workflows over a hosted relational database.  The source listing holds
    two builds of the server: the ES-module build (verification codes,
    admin gate) and an older CommonJS build.  Both are embedded here, the
    first as [Esm], the second as [Cjs].

    Modelling conventions.
    - A table is the list of its rows, oldest first.  The query builder
      (`from(t).select().eq()`, `.single()`, `.update().eq()`, `.insert()`,
      `.upsert()`) is the [Table] interface below.
    - A handler is a computation in the state monad [Db] that returns what
      it hands to Express: a JSON response, or an exception that escapes
      the handler.
    - Store calls succeed: transport failures of the hosted service are
      outside the model.
    - A request field that the handler tests with `!field` is an option
      (absent is [None]) read with JavaScript truthiness; a field used
      without such a test is taken to be present.
    - Generated keys and rating values are integers; `created_at` and the
      columns that no handler below reads or writes are left out.
    - Random codes, the clock and mail delivery are inputs of the handlers
      that use them. *)

From Stdlib Require Import ZArith List String Ascii Bool Lia DecimalString.
From Stdlib Require Import Floats Uint63.
Import ListNotations.

#[local] Open Scope string_scope.
#[local] Open Scope Z_scope.

(* ================================================================= *)
(** ** JavaScript values at the handler boundary *)

(** `!s` for a string-or-undefined field. *)
Definition truthy_str (v : option string) : bool :=
  match v with
  | Some s => negb (s =? "")%string
  | None => false
  end.

(** `!n` for a number-or-undefined field. *)
Definition truthy_num (v : option Z) : bool :=
  match v with
  | Some n => negb (n =? 0)%Z
  | None => false
  end.

Definition str_of (v : option string) : string :=
  match v with Some s => s | None => "" end.

Definition num_of (v : option Z) : Z :=
  match v with Some n => n | None => 0 end.

(** `a !== b` where [a] is a nullable text column and [b] a string. *)
Definition strict_neq (a : option string) (b : string) : bool :=
  match a with
  | Some s => negb (s =? b)%string
  | None => true
  end.

(** `new Date(col).getTime()` for a nullable timestamp column, in
    milliseconds: `new Date(null)` is the epoch. *)
Definition date_ms (col : option Z) : Z :=
  match col with Some t => t | None => 0 end.

(** `text.includes(word)`. *)
Definition includes (text word : string) : bool :=
  match String.index 0 word text with
  | Some _ => true
  | None => false
  end.

(* ================================================================= *)
(** ** Rows *)

Module User.
Record t := mk {
  id : Z;
  username : string;
  email : string;
  password_hash : string;
  role : string;
  is_active : bool;
  email_verified : bool;
  verify_code : option string;
  verify_code_expires : option Z;
  verification_code_expires : option Z;
  reset_code : option string;
  reset_code_expires : option Z
}.

Definition set_id (i : Z) (u : t) : t :=
  mk i (username u) (email u) (password_hash u) (role u) (is_active u)
     (email_verified u) (verify_code u) (verify_code_expires u)
     (verification_code_expires u) (reset_code u) (reset_code_expires u).

(** `update({ role })` *)
Definition set_role (r : string) (u : t) : t :=
  mk (id u) (username u) (email u) (password_hash u) r (is_active u)
     (email_verified u) (verify_code u) (verify_code_expires u)
     (verification_code_expires u) (reset_code u) (reset_code_expires u).

(** `update({ email_verified: true, verify_code: null,
    verification_code_expires: null })` *)
Definition set_verified (u : t) : t :=
  mk (id u) (username u) (email u) (password_hash u) (role u) (is_active u)
     true None (verify_code_expires u)
     None (reset_code u) (reset_code_expires u).

(** `update({ reset_code: code, reset_code_expires })` *)
Definition set_reset (code : string) (expires : Z) (u : t) : t :=
  mk (id u) (username u) (email u) (password_hash u) (role u) (is_active u)
     (email_verified u) (verify_code u) (verify_code_expires u)
     (verification_code_expires u) (Some code) (Some expires).

(** `update({ password_hash: hash, reset_code: null,
    reset_code_expires: null })` *)
Definition set_password (h : string) (u : t) : t :=
  mk (id u) (username u) (email u) h (role u) (is_active u)
     (email_verified u) (verify_code u) (verify_code_expires u)
     (verification_code_expires u) None None.
End User.

Module Application.
Record t := mk {
  id : Z;
  user_id : Z;
  full_name : string;
  seat : string;
  county : option string;
  constituency : option string;
  party : option string;
  motivation : string;
  fee : Z;
  status : string
}.

Definition set_id (i : Z) (a : t) : t :=
  mk i (user_id a) (full_name a) (seat a) (county a) (constituency a)
     (party a) (motivation a) (fee a) (status a).

(** `update({ status })` *)
Definition set_status (s : string) (a : t) : t :=
  mk (id a) (user_id a) (full_name a) (seat a) (county a) (constituency a)
     (party a) (motivation a) (fee a) s.
End Application.

Module Profile.
Record t := mk {
  id : Z;
  user_id : Z;
  full_name : string;
  seat : string;
  county : option string;
  constituency : option string;
  party : option string;
  bio : string;
  is_verified : bool
}.

Definition set_id (i : Z) (p : t) : t :=
  mk i (user_id p) (full_name p) (seat p) (county p) (constituency p)
     (party p) (bio p) (is_verified p).
End Profile.

Module Comment.
Record t := mk {
  id : Z;
  user_id : Z;
  target_type : string;
  target_id : Z;
  content : string
}.

Definition set_id (i : Z) (c : t) : t :=
  mk i (user_id c) (target_type c) (target_id c) (content c).
End Comment.

Module Rating.
Record t := mk {
  id : Z;
  user_id : Z;
  target_type : string;
  target_id : Z;
  rating : Z
}.

Definition set_id (i : Z) (r : t) : t :=
  mk i (user_id r) (target_type r) (target_id r) (rating r).
End Rating.

Module GroundUpdate.
Record t := mk {
  id : Z;
  user_id : Z;
  location : string;
  category : string;
  content : string;
  repost_of : option Z
}.

Definition set_id (i : Z) (g : t) : t :=
  mk i (user_id g) (location g) (category g) (content g) (repost_of g).
End GroundUpdate.

(* ================================================================= *)
(** ** The store and the query gateway *)

Record Store := mkStore {
  users : list User.t;
  politician_applications : list Application.t;
  politician_profiles : list Profile.t;
  comments : list Comment.t;
  ratings : list Rating.t;
  ground_updates : list GroundUpdate.t
}.

Definition empty_store : Store := mkStore [] [] [] [] [] [].

(** `supabase.from(name)`: where a table lives in the store and how its
    generated primary key is read and written. *)
Class Table (R : Type) := {
  rows : Store -> list R;
  put : list R -> Store -> Store;
  pk : R -> Z;
  set_pk : Z -> R -> R
}.

#[export] Instance users_table : Table User.t := {|
  rows := users;
  put l s := mkStore l (politician_applications s) (politician_profiles s)
                     (comments s) (ratings s) (ground_updates s);
  pk := User.id;
  set_pk := User.set_id
|}.

#[export] Instance applications_table : Table Application.t := {|
  rows := politician_applications;
  put l s := mkStore (users s) l (politician_profiles s)
                     (comments s) (ratings s) (ground_updates s);
  pk := Application.id;
  set_pk := Application.set_id
|}.

#[export] Instance profiles_table : Table Profile.t := {|
  rows := politician_profiles;
  put l s := mkStore (users s) (politician_applications s) l
                     (comments s) (ratings s) (ground_updates s);
  pk := Profile.id;
  set_pk := Profile.set_id
|}.

#[export] Instance comments_table : Table Comment.t := {|
  rows := comments;
  put l s := mkStore (users s) (politician_applications s)
                     (politician_profiles s) l (ratings s) (ground_updates s);
  pk := Comment.id;
  set_pk := Comment.set_id
|}.

#[export] Instance ratings_table : Table Rating.t := {|
  rows := ratings;
  put l s := mkStore (users s) (politician_applications s)
                     (politician_profiles s) (comments s) l (ground_updates s);
  pk := Rating.id;
  set_pk := Rating.set_id
|}.

#[export] Instance ground_updates_table : Table GroundUpdate.t := {|
  rows := ground_updates;
  put l s := mkStore (users s) (politician_applications s)
                     (politician_profiles s) (comments s) (ratings s) l;
  pk := GroundUpdate.id;
  set_pk := GroundUpdate.set_id
|}.

(** `.single()`: the data is the row when the query matched exactly one
    row, and null otherwise. *)
Definition single {R : Type} (matched : list R) : option R :=
  match matched with
  | [r] => Some r
  | _ => None
  end.

(** `.update(f).eq(...)` on the rows of a table. *)
Definition update_rows {R : Type} (p : R -> bool) (f : R -> R)
    (l : list R) : list R :=
  map (fun r => if p r then f r else r) l.

(** The key the store generates for the next inserted row. *)
Definition next_id {R : Type} `{Table R} (l : list R) : Z :=
  1 + fold_right Z.max 0 (map pk l).

(** `.insert([r])`: the row is appended under a fresh key. *)
Definition insert_row {R : Type} `{Table R} (r : R) (l : list R) : list R :=
  (l ++ [set_pk (next_id l) r])%list.

(** Modelled from the spec: the conflict target of `.upsert` is part of the
    table declarations, which are not in the sources; the spec gives it
    (a profile is keyed by user_id, a rating by user_id, target_type and
    target_id).  A row that conflicts on the key takes the new columns and
    keeps its primary key; without a conflict the row is inserted. *)
Definition upsert_row {R : Type} `{Table R} (same_key : R -> R -> bool)
    (r : R) (l : list R) : list R :=
  if existsb (same_key r) l
  then update_rows (same_key r) (fun old => set_pk (pk old) r) l
  else insert_row r l.

(** Handlers thread the store. *)
Definition Db (A : Type) : Type := Store -> A * Store.

Definition ret {A : Type} (a : A) : Db A := fun st => (a, st).

Definition bind {A B : Type} (m : Db A) (k : A -> Db B) : Db B :=
  fun st => let (a, st') := m st in k a st'.

Notation "x <- m ;; k" := (bind m (fun x => k))
  (at level 61, m at next level, right associativity).
Notation "m ;;; k" := (bind m (fun _ => k))
  (at level 61, right associativity).

Definition from_select {R : Type} `{Table R} (p : R -> bool) : Db (list R) :=
  fun st => (filter p (rows st), st).

Definition from_single {R : Type} `{Table R} (p : R -> bool) : Db (option R) :=
  fun st => (single (filter p (rows st)), st).

Definition from_update {R : Type} `{Table R} (p : R -> bool) (f : R -> R)
    : Db unit :=
  fun st => (tt, put (update_rows p f (rows st)) st).

Definition from_insert {R : Type} `{Table R} (r : R) : Db unit :=
  fun st => (tt, put (insert_row r (rows st)) st).

Definition from_upsert {R : Type} `{Table R} (same_key : R -> R -> bool)
    (r : R) : Db unit :=
  fun st => (tt, put (upsert_row same_key r (rows st)) st).

(** Modelled from the spec: the uniqueness constraints of `users` are part
    of the table declarations, which are not in the sources; the spec gives
    the one on email (email unique, a duplicate registration is a conflict).
    An insert of a row whose email a row of the table has returns an error
    and writes nothing; any other insert returns no error.  The result
    tells whether `error` is set. *)
Definition from_insert_user (r : User.t) : Db bool :=
  fun st =>
    if existsb (fun u => (User.email u =? User.email r)%string) (users st)
    then (true, st)
    else (false, put (insert_row r (rows st)) st).

(* ================================================================= *)
(** ** Responses *)

Inductive JsValue :=
| JNum (n : Z)
| JStr (s : string).

Inductive Body :=
| JError (error : string)
| JMessage (message : string)
| JSuccess
| JLogin (id : Z) (username email role : string)
| JSummary (average : JsValue) (count : Z).

Record Response := mkResponse { status : Z; body : Body }.

(** What a handler leaves to Express: a response it sent, or an exception
    that escaped it before any response was sent. *)
Inductive Outcome :=
| Sent (r : Response)
| Uncaught (exn : string).

(** `res.status(code).json(body)`, and `res.json(body)` with code 200. *)
Definition json (code : Z) (b : Body) : Db Outcome :=
  ret (Sent (mkResponse code b)).

Definition is_error (o : Outcome) : bool :=
  match o with
  | Sent (mkResponse _ (JError _)) => true
  | _ => false
  end.

(* ================================================================= *)
(** ** JavaScript numbers in the rating summary

    `total / data.length` divides two integers that binary64 holds exactly
    (below 2^53) and rounds the quotient to the nearest binary64, ties to
    even; `.toFixed(1)` then prints the decimal with one fractional digit
    nearest to that binary64, the larger one on a tie.  Both are written
    out on integers. *)

(** A finite binary64: sign and magnitude [mant / 2^scale]
    (or [mant * 2^(-scale)] when the scale is negative). *)
Record Double := mkDouble { neg : bool; mant : Z; scale : Z }.

(** [n * 2^s / d] as a fraction of integers. *)
Definition scaled (n d s : Z) : Z * Z :=
  if 0 <=? s then (n * 2 ^ s, d) else (n, d * 2 ^ (- s)).

(** The integer nearest to [n / d], the even one on a tie. *)
Definition round_half_even (n d : Z) : Z :=
  let q := n / d in
  let r := n mod d in
  if 2 * r <? d then q
  else if d <? 2 * r then q + 1
  else if Z.even q then q else q + 1.

(** `a / b` for integers [a] and [b > 0]: the scale is chosen so that the
    truncated significand has 53 bits, then the significand is rounded. *)
Definition js_div (a b : Z) : Double :=
  let n := Z.abs a in
  if n =? 0 then mkDouble false 0 0
  else
    let s1 := 52 - (Z.log2 n - Z.log2 b) in
    let s := if 2 ^ 52 <=? fst (scaled n b s1) / snd (scaled n b s1)
             then s1 else s1 + 1 in
    mkDouble (a <? 0) (round_half_even (fst (scaled n b s)) (snd (scaled n b s))) s.

(** The integer [n] for which [n / 10] is nearest to the magnitude of [x],
    the larger one on a tie. *)
Definition tenths (x : Double) : Z :=
  let (num, den) := scaled (mant x) 1 (- scale x) in
  (20 * num + den) / (2 * den).

Definition digits (n : Z) : string := NilZero.string_of_uint (N.to_uint (Z.to_N n)).

(** [n] tenths printed with one fractional digit. *)
Definition one_decimal (n : Z) : string :=
  (digits (n / 10) ++ "." ++ digits (n mod 10))%string.

(** `x.toFixed(1)` *)
Definition toFixed1 (x : Double) : string :=
  ((if neg x then "-" else "") ++ one_decimal (tenths x))%string.

(* ================================================================= *)
(** ** Request bodies *)

Module RegisterReq.
Record t := mk { username : string; email : string; password : string;
                 role : string }.
End RegisterReq.

Module LoginReq.
Record t := mk { email : option string; password : option string }.
End LoginReq.

Module VerifyEmailReq.
Record t := mk { email : string; code : string }.
End VerifyEmailReq.

Module ResetPasswordReq.
Record t := mk { email : string; code : string; password : string }.
End ResetPasswordReq.

Module ApplyReq.
Record t := mk {
  user_id : option Z;
  full_name : option string;
  seat : option string;
  county : option string;
  constituency : option string;
  party : option string;
  motivation : option string;
  fee : option Z
}.
End ApplyReq.

Module AdminReq.
Record t := mk { application_id : Z; admin_id : Z }.
End AdminReq.

(** [target_type] is whatever the caller chooses to send under that name;
    neither handler destructures it from the body. *)
Module CommentReq.
Record t := mk {
  user_id : option Z;
  target_id : option Z;
  content : option string;
  target_type : option string
}.
End CommentReq.

Module RateReq.
Record t := mk {
  user_id : option Z;
  target_id : option Z;
  rating : option Z;
  target_type : option string
}.
End RateReq.

Module GroundUpdateReq.
Record t := mk {
  user_id : option Z;
  location : option string;
  category : option string;
  content : option string
}.
End GroundUpdateReq.

Module RepostReq.
Record t := mk { user_id : option Z; ground_id : option Z }.
End RepostReq.

(** Conflict targets of the two upserts. *)
Definition same_profile_key (a b : Profile.t) : bool :=
  Profile.user_id a =? Profile.user_id b.

Definition same_rating_key (a b : Rating.t) : bool :=
  (Rating.user_id a =? Rating.user_id b)
  && (Rating.target_type a =? Rating.target_type b)%string
  && (Rating.target_id a =? Rating.target_id b).

Definition bannedWords : list string := ["kill"; "hate"; "tribe"; "idiot"].

(* ================================================================= *)
(** ** The ES-module build *)

Module Esm.
Section Handlers.

(** bcryptjs and `String.prototype.toLowerCase` are library code. *)
Variable bcrypt_hash : string -> string.
Variable bcrypt_compare : string -> string -> bool.
Variable toLowerCase : string -> string.

(** The table declarations are not in the sources.  [verify_email] writes
    a column it calls `verification_code_expires`, while the expiry it
    reads is `verify_code_expires`; whether `users` has a column of the
    first name decides whether the store accepts that update.  The
    handler does not look at the result of the update. *)
Variable users_has_verification_code_expires : bool.

Definition requireAdmin (admin_id : Z) : Db bool :=
  data <- from_single (fun u : User.t => User.id u =? admin_id) ;;
  ret (match data with
       | Some u => (User.role u =? "admin")%string
       | None => false
       end).

(** The default of `users.is_active`, which register leaves to the store,
    and the message of the error the store returns for an insert that
    breaks the uniqueness of `users.email`. *)
Variable users_is_active_default : bool.
Variable users_email_taken : string.

(** `Date.now() + 15 * 60 * 1000` *)
Definition in_15_minutes (now : Z) : Z := now + 15 * 60 * 1000.

(** POST /register, at time [now], with [code] the six digits drawn and
    [delivered] telling whether `sendEmail` returns or throws.  The handler
    answers an insert error with its message, and has no try/catch around
    the mail. *)
Definition register (now : Z) (code : string) (delivered : bool)
    (req : RegisterReq.t) : Db Outcome :=
  let password_hash := bcrypt_hash (RegisterReq.password req) in
  error <- from_insert_user
             (User.mk 0 (RegisterReq.username req) (RegisterReq.email req)
                password_hash (RegisterReq.role req) users_is_active_default
                false (Some code) (Some (in_15_minutes now)) None None None) ;;
  if error then json 400 (JError users_email_taken)
  else if delivered then json 200 JSuccess
  else ret (Uncaught "Error: Email failed").

(** POST /forgot-password, with the same inputs. *)
Definition forgot_password (now : Z) (code : string) (delivered : bool)
    (email : string) : Db Outcome :=
  user <- from_single (fun u : User.t => (User.email u =? email)%string) ;;
  match user with
  | None => json 200 (JError "Email not found")
  | Some _ =>
      from_update (fun u : User.t => (User.email u =? email)%string)
                  (User.set_reset code (in_15_minutes now)) ;;;
      if delivered then json 200 JSuccess
      else ret (Uncaught "Error: Email failed")
  end.

(** POST /verify-email, at time [now] (milliseconds). *)
Definition verify_email (now : Z) (req : VerifyEmailReq.t) : Db Outcome :=
  user <- from_single
            (fun u : User.t => (User.email u =? VerifyEmailReq.email req)%string) ;;
  match user with
  | None => json 400 (JError "Invalid or expired code")
  | Some user =>
      if strict_neq (User.verify_code user) (VerifyEmailReq.code req)
         || (date_ms (User.verify_code_expires user) <? now)
      then json 400 (JError "Invalid or expired code")
      else
        (if users_has_verification_code_expires
         then from_update
                (fun u : User.t => (User.email u =? VerifyEmailReq.email req)%string)
                User.set_verified
         else ret tt) ;;;
        json 200 JSuccess
  end.

(** POST /login *)
Definition login (req : LoginReq.t) : Db Outcome :=
  if negb (truthy_str (LoginReq.email req))
     || negb (truthy_str (LoginReq.password req))
  then json 400 (JError "Email and password are required")
  else
    user <- from_single
              (fun u : User.t =>
                 (User.email u =? str_of (LoginReq.email req))%string) ;;
    match user with
    | None => json 401 (JError "Invalid email or password")
    | Some user =>
        if negb (User.is_active user)
        then json 403 (JError "Account is suspended")
        else if negb (bcrypt_compare (str_of (LoginReq.password req))
                                     (User.password_hash user))
        then json 401 (JError "Invalid email or password")
        else if negb (User.email_verified user)
        then json 200 (JError "Please verify your email first")
        else json 200 (JLogin (User.id user) (User.username user)
                              (User.email user) (User.role user))
    end.

(** POST /reset-password, at time [now]. *)
Definition reset_password (now : Z) (req : ResetPasswordReq.t) : Db Outcome :=
  data <- from_single
            (fun u : User.t => (User.email u =? ResetPasswordReq.email req)%string) ;;
  match data with
  | None => json 200 (JError "Invalid or expired code")
  | Some data =>
      if strict_neq (User.reset_code data) (ResetPasswordReq.code req)
         || (date_ms (User.reset_code_expires data) <? now)
      then json 200 (JError "Invalid or expired code")
      else
        let hash := bcrypt_hash (ResetPasswordReq.password req) in
        from_update
          (fun u : User.t => (User.email u =? ResetPasswordReq.email req)%string)
          (User.set_password hash) ;;;
        json 200 JSuccess
  end.

(** POST /apply-politician *)
Definition apply_politician (req : ApplyReq.t) : Db Outcome :=
  if negb (truthy_num (ApplyReq.user_id req))
     || negb (truthy_str (ApplyReq.full_name req))
     || negb (truthy_str (ApplyReq.seat req))
     || negb (truthy_str (ApplyReq.motivation req))
     || negb (truthy_num (ApplyReq.fee req))
  then json 400 (JError "Missing required fields")
  else if negb (str_of (ApplyReq.seat req) =? "President")%string
          && negb (truthy_str (ApplyReq.county req))
  then json 400 (JError "County is required for this seat")
  else
    existing <- from_single
                  (fun a : Application.t =>
                     Application.user_id a =? num_of (ApplyReq.user_id req)) ;;
    match existing with
    | Some _ => json 400 (JError "You have already submitted an application")
    | None =>
        from_insert
          (Application.mk 0 (num_of (ApplyReq.user_id req))
             (str_of (ApplyReq.full_name req)) (str_of (ApplyReq.seat req))
             (ApplyReq.county req) (ApplyReq.constituency req)
             (ApplyReq.party req) (str_of (ApplyReq.motivation req))
             (num_of (ApplyReq.fee req)) "pending") ;;;
        json 200 (JMessage "Application submitted. Please wait for admin approval.")
    end.

(** POST /admin/approve-politician *)
Definition approve_politician (req : AdminReq.t) : Db Outcome :=
  admin <- requireAdmin (AdminReq.admin_id req) ;;
  if negb admin then json 403 (JError "Admin only")
  else
    appData <- from_single
                 (fun a : Application.t =>
                    Application.id a =? AdminReq.application_id req) ;;
    match appData with
    | None => json 400 (JError "Invalid application")
    | Some appData =>
        if negb (Application.status appData =? "pending")%string
        then json 400 (JError "Invalid application")
        else
          from_update
            (fun u : User.t => User.id u =? Application.user_id appData)
            (User.set_role "politician") ;;;
          from_upsert same_profile_key
            (Profile.mk 0 (Application.user_id appData)
               (Application.full_name appData) (Application.seat appData)
               (Application.county appData) (Application.constituency appData)
               (Application.party appData) (Application.motivation appData)
               true) ;;;
          from_update
            (fun a : Application.t =>
               Application.id a =? AdminReq.application_id req)
            (Application.set_status "approved") ;;;
          json 200 (JMessage "Approved")
    end.

(** POST /admin/reject-politician *)
Definition reject_politician (req : AdminReq.t) : Db Outcome :=
  admin <- requireAdmin (AdminReq.admin_id req) ;;
  if negb admin then json 403 (JError "Admin only")
  else
    from_update
      (fun a : Application.t =>
         Application.id a =? AdminReq.application_id req)
      (Application.set_status "rejected") ;;;
    json 200 (JMessage "Rejected").

(** POST /comment *)
Definition comment (req : CommentReq.t) : Db Outcome :=
  if negb (truthy_num (CommentReq.user_id req))
     || negb (truthy_num (CommentReq.target_id req))
     || negb (truthy_str (CommentReq.content req))
  then json 400 (JError "All fields required")
  else
    let text := toLowerCase (str_of (CommentReq.content req)) in
    if existsb (fun word => includes text word) bannedWords
    then json 400 (JError "Comment violates community rules")
    else
      user <- from_single
                (fun u : User.t => User.id u =? num_of (CommentReq.user_id req)) ;;
      match user with
      | None => json 404 (JError "User not found")
      | Some _ =>
          from_insert
            (Comment.mk 0 (num_of (CommentReq.user_id req)) "manifesto"
               (num_of (CommentReq.target_id req))
               (str_of (CommentReq.content req))) ;;;
          json 200 (JMessage "Comment posted successfully")
      end.

(** POST /rate *)
Definition rate (req : RateReq.t) : Db Outcome :=
  if negb (truthy_num (RateReq.user_id req))
     || negb (truthy_num (RateReq.target_id req))
     || negb (truthy_num (RateReq.rating req))
  then json 400 (JError "Missing fields")
  else if (num_of (RateReq.rating req) <? 1)
          || (5 <? num_of (RateReq.rating req))
  then json 400 (JError "Rating must be between 1 and 5")
  else
    from_upsert same_rating_key
      (Rating.mk 0 (num_of (RateReq.user_id req)) "manifesto"
         (num_of (RateReq.target_id req)) (num_of (RateReq.rating req))) ;;;
    json 200 (JMessage "Rating saved").

(** GET /ratings/:target_id *)
Definition ratings_summary (target_id : Z) : Db Outcome :=
  data <- from_select
            (fun r : Rating.t =>
               (Rating.target_type r =? "manifesto")%string
               && (Rating.target_id r =? target_id)) ;;
  if Z.of_nat (List.length data) =? 0
  then json 200 (JSummary (JNum 0) 0)
  else
    let total := fold_left (fun sum r => sum + Rating.rating r) data 0 in
    let avg := toFixed1 (js_div total (Z.of_nat (List.length data))) in
    json 200 (JSummary (JStr avg) (Z.of_nat (List.length data))).

(** POST /ground-updates *)
Definition post_ground_update (req : GroundUpdateReq.t) : Db Outcome :=
  if negb (truthy_num (GroundUpdateReq.user_id req))
     || negb (truthy_str (GroundUpdateReq.location req))
     || negb (truthy_str (GroundUpdateReq.category req))
     || negb (truthy_str (GroundUpdateReq.content req))
  then json 400 (JError "All fields required")
  else
    from_insert
      (GroundUpdate.mk 0 (num_of (GroundUpdateReq.user_id req))
         (str_of (GroundUpdateReq.location req))
         (str_of (GroundUpdateReq.category req))
         (str_of (GroundUpdateReq.content req)) None) ;;;
    json 200 (JMessage "Update posted").

(** POST /ground-repost.  The handler has no try/catch: reading
    `original.location` when the lookup gave null throws out of it. *)
Definition ground_repost (req : RepostReq.t) : Db Outcome :=
  if negb (truthy_num (RepostReq.user_id req))
     || negb (truthy_num (RepostReq.ground_id req))
  then json 400 (JError "Missing fields")
  else
    original <- from_single
                  (fun g : GroundUpdate.t =>
                     GroundUpdate.id g =? num_of (RepostReq.ground_id req)) ;;
    match original with
    | None => ret (Uncaught "TypeError")
    | Some original =>
        from_insert
          (GroundUpdate.mk 0 (num_of (RepostReq.user_id req))
             (GroundUpdate.location original)
             (GroundUpdate.category original)
             (GroundUpdate.content original)
             (Some (num_of (RepostReq.ground_id req)))) ;;;
        json 200 (JMessage "Reposted")
    end.

End Handlers.
End Esm.

(* ================================================================= *)
(** ** The CommonJS build

    Only the handlers that differ from the ES-module build are repeated:
    login has no email verification, the application form always requires a
    county, and the two admin routes take no `admin_id`. *)

Module Cjs.

Module ApproveReq.
Record t := mk { application_id : option Z }.
End ApproveReq.

Section Handlers.

Variable bcrypt_compare : string -> string -> bool.

(** POST /login *)
Definition login (req : LoginReq.t) : Db Outcome :=
  if negb (truthy_str (LoginReq.email req))
     || negb (truthy_str (LoginReq.password req))
  then json 400 (JError "Email and password are required")
  else
    user <- from_single
              (fun u : User.t =>
                 (User.email u =? str_of (LoginReq.email req))%string) ;;
    match user with
    | None => json 401 (JError "Invalid email or password")
    | Some user =>
        if negb (User.is_active user)
        then json 403 (JError "Account is suspended")
        else if negb (bcrypt_compare (str_of (LoginReq.password req))
                                     (User.password_hash user))
        then json 401 (JError "Invalid email or password")
        else json 200 (JLogin (User.id user) (User.username user)
                              (User.email user) (User.role user))
    end.

(** POST /apply-politician *)
Definition apply_politician (req : ApplyReq.t) : Db Outcome :=
  if negb (truthy_num (ApplyReq.user_id req))
     || negb (truthy_str (ApplyReq.full_name req))
     || negb (truthy_str (ApplyReq.seat req))
     || negb (truthy_str (ApplyReq.county req))
     || negb (truthy_str (ApplyReq.motivation req))
     || negb (truthy_num (ApplyReq.fee req))
  then json 400 (JError "Missing required fields")
  else
    existing <- from_single
                  (fun a : Application.t =>
                     Application.user_id a =? num_of (ApplyReq.user_id req)) ;;
    match existing with
    | Some _ => json 400 (JError "You have already submitted an application")
    | None =>
        from_insert
          (Application.mk 0 (num_of (ApplyReq.user_id req))
             (str_of (ApplyReq.full_name req)) (str_of (ApplyReq.seat req))
             (ApplyReq.county req) (ApplyReq.constituency req)
             (ApplyReq.party req) (str_of (ApplyReq.motivation req))
             (num_of (ApplyReq.fee req)) "pending") ;;;
        json 200 (JMessage "Application submitted. Please wait for admin approval.")
    end.

(** POST /admin/approve-politician *)
Definition approve_politician (req : ApproveReq.t) : Db Outcome :=
  if negb (truthy_num (ApproveReq.application_id req))
  then json 400 (JError "Application ID required")
  else
    appData <- from_single
                 (fun a : Application.t =>
                    Application.id a =? num_of (ApproveReq.application_id req)) ;;
    match appData with
    | None => json 404 (JError "Application not found")
    | Some appData =>
        from_update
          (fun u : User.t => User.id u =? Application.user_id appData)
          (User.set_role "politician") ;;;
        from_insert
          (Profile.mk 0 (Application.user_id appData)
             (Application.full_name appData) (Application.seat appData)
             (Application.county appData) (Application.constituency appData)
             (Application.party appData) (Application.motivation appData)
             true) ;;;
        from_update
          (fun a : Application.t =>
             Application.id a =? num_of (ApproveReq.application_id req))
          (Application.set_status "approved") ;;;
        json 200 (JMessage "Politician approved successfully")
    end.

(** POST /admin/reject-politician *)
Definition reject_politician (application_id : Z) : Db Outcome :=
  from_update
    (fun a : Application.t => Application.id a =? application_id)
    (Application.set_status "rejected") ;;;
  json 200 (JMessage "Application rejected").

End Handlers.
End Cjs.


(* ================================================================= *)
(** ** Vocabulary of the properties *)

Definition response_of {A : Type} (r : A * Store) : A := fst r.
Definition store_of {A : Type} (r : A * Store) : Store := snd r.

(** *** Responses the properties name *)

Definition credential_failure : Outcome :=
  Sent (mkResponse 401 (JError "Invalid email or password")).

Definition account_suspended : Outcome :=
  Sent (mkResponse 403 (JError "Account is suspended")).

Definition success : Outcome := Sent (mkResponse 200 JSuccess).

Definition invalid_code (status : Z) : Outcome :=
  Sent (mkResponse status (JError "Invalid or expired code")).

Definition approved : Outcome := Sent (mkResponse 200 (JMessage "Approved")).

Definition already_applied : Outcome :=
  Sent (mkResponse 400 (JError "You have already submitted an application")).

Definition reposted : Outcome := Sent (mkResponse 200 (JMessage "Reposted")).


Definition summary (average : JsValue) (count : Z) : Outcome :=
  Sent (mkResponse 200 (JSummary average count)).

(** *** Looking rows up the way the handlers do *)

Definition account_by_email (st : Store) (email : string) : option User.t :=
  single (filter (fun u => (User.email u =? email)%string) (users st)).

(** The account a login request names. *)
Definition account_of (st : Store) (req : LoginReq.t) : option User.t :=
  account_by_email st (str_of (LoginReq.email req)).

Definition user_of (st : Store) (id : Z) : option User.t :=
  single (filter (fun u => User.id u =? id) (users st)).

Definition application_of (st : Store) (id : Z) : option Application.t :=
  single (filter (fun a => Application.id a =? id) (politician_applications st)).

Definition ground_update_of (st : Store) (id : Z) : option GroundUpdate.t :=
  single (filter (fun g => GroundUpdate.id g =? id) (ground_updates st)).

Definition profiles_of (st : Store) (user_id : Z) : list Profile.t :=
  filter (fun p => Profile.user_id p =? user_id) (politician_profiles st).

Definition applications_by (st : Store) (user_id : Z) : list Application.t :=
  filter (fun a => Application.user_id a =? user_id) (politician_applications st).

(** The rating rows of a target, and the sum of their values. *)
Definition ratings_for (st : Store) (target_id : Z) : list Rating.t :=
  filter (fun r => Rating.target_id r =? target_id) (ratings st).

Definition total_rating (l : list Rating.t) : Z :=
  fold_right (fun r acc => Rating.rating r + acc) 0 l.

(** *** Login *)

(** The login claim as the specification words it: a password that does
    not verify is answered by the credential failure, whatever the flags
    of the account. *)
Definition wrong_password_is_credential_failure
    (login : (string -> string -> bool) -> LoginReq.t -> Db Outcome) : Prop :=
  forall (compare : string -> string -> bool) st req u,
    truthy_str (LoginReq.email req) = true ->
    truthy_str (LoginReq.password req) = true ->
    account_of st req = Some u ->
    compare (str_of (LoginReq.password req)) (User.password_hash u) = false ->
    response_of (login compare req st) = credential_failure.

(** *** Applications and approval *)

Definition is_admin (st : Store) (admin_id : Z) : Prop :=
  exists u, user_of st admin_id = Some u /\ User.role u = "admin".

(** The profile an approval writes for application [a], under key [i]. *)
Definition profile_from (i : Z) (a : Application.t) : Profile.t :=
  Profile.mk i (Application.user_id a) (Application.full_name a)
    (Application.seat a) (Application.county a) (Application.constituency a)
    (Application.party a) (Application.motivation a) true.

Definition terminal (status : string) : Prop :=
  status = "approved" \/ status = "rejected".

(** The two guards of the application form: user_id, full_name, seat,
    motivation and fee are supplied, and county too unless the seat is
    'President'. *)
Definition application_fields_valid (req : ApplyReq.t) : bool :=
  truthy_num (ApplyReq.user_id req)
  && truthy_str (ApplyReq.full_name req)
  && truthy_str (ApplyReq.seat req)
  && truthy_str (ApplyReq.motivation req)
  && truthy_num (ApplyReq.fee req)
  && ((str_of (ApplyReq.seat req) =? "President")%string
      || truthy_str (ApplyReq.county req)).

(** *** Reposts *)

(** The row a repost of [x] by [user_id] adds to table [l]. *)
Definition repost_row (l : list GroundUpdate.t) (user_id : Z)
    (x : GroundUpdate.t) : GroundUpdate.t :=
  GroundUpdate.mk (next_id l) user_id (GroundUpdate.location x)
    (GroundUpdate.category x) (GroundUpdate.content x)
    (Some (GroundUpdate.id x)).

(** A later edit of the row with key [id]: `.update(edit).eq('id', id)`. *)
Definition edit_ground_update (id : Z) (edit : GroundUpdate.t -> GroundUpdate.t)
    (l : list GroundUpdate.t) : list GroundUpdate.t :=
  update_rows (fun g => GroundUpdate.id g =? id) edit l.

(** *** Rating summary *)

(** [n / 10] is a one-decimal number nearest to [total / count]. *)
Definition nearest_tenths (n total count : Z) : Prop :=
  2 * Z.abs (10 * total - n * count) <= count.

(** *** Invariants of the store *)

Definition one_application_per_user (st : Store) : Prop :=
  forall user_id, (List.length (applications_by st user_id) <= 1)%nat.

(** The uniqueness the profile upsert is keyed on. *)
Definition one_profile_per_user (st : Store) : Prop :=
  NoDup (map Profile.user_id (politician_profiles st)).

(** What POST /rate keeps true of the table: every row annotates a
    manifesto with a value from 1 to 5. *)
Definition rating_row_valid (r : Rating.t) : Prop :=
  Rating.target_type r = "manifesto" /\ 1 <= Rating.rating r <= 5.

Definition ratings_valid (st : Store) : Prop :=
  Forall rating_row_valid (ratings st).

Record campaign_invariant (st : Store) : Prop := {
  inv_applications : one_application_per_user st;
  inv_profiles : one_profile_per_user st;
  inv_ratings : ratings_valid st
}.

(** *** Runs of the service

    One step is one call of a writing handler of the ES-module build,
    calls being served one after the other.  (The routes left out write
    tables or columns that are not in [Store].)  A run starts from a store
    that holds accounts only, the empty store among them. *)

Definition only_accounts (st : Store) : Prop :=
  politician_applications st = [] /\ politician_profiles st = []
  /\ comments st = [] /\ ratings st = [] /\ ground_updates st = [].

Inductive step : Store -> Store -> Prop :=
| step_register hash active taken now code delivered req st :
    step st (store_of (Esm.register hash active taken now code delivered req
                         st))
| step_forgot_password now code delivered email st :
    step st (store_of (Esm.forgot_password now code delivered email st))
| step_verify_email has_column now req st :
    step st (store_of (Esm.verify_email has_column now req st))
| step_reset_password hash now req st :
    step st (store_of (Esm.reset_password hash now req st))
| step_apply req st :
    step st (store_of (Esm.apply_politician req st))
| step_approve req st :
    step st (store_of (Esm.approve_politician req st))
| step_reject req st :
    step st (store_of (Esm.reject_politician req st))
| step_comment toLowerCase req st :
    step st (store_of (Esm.comment toLowerCase req st))
| step_rate req st :
    step st (store_of (Esm.rate req st))
| step_ground_update req st :
    step st (store_of (Esm.post_ground_update req st))
| step_repost req st :
    step st (store_of (Esm.ground_repost req st)).

Inductive reachable : Store -> Prop :=
| reach_start st : only_accounts st -> reachable st
| reach_step st st' : reachable st -> step st st' -> reachable st'.

(* ================================================================= *)
(** ** Sample data *)

Definition never_matches : string -> string -> bool := fun _ _ => false.

Definition sample_hash : string -> string :=
  fun password => ("$2a$10$" ++ password)%string.

Definition sample_compare : string -> string -> bool :=
  fun password digest => (sample_hash password =? digest)%string.

(** ASCII lower-casing, to run the comment filter on sample text. *)
Definition ascii_lower (c : ascii) : ascii :=
  if ((65 <=? nat_of_ascii c) && (nat_of_ascii c <=? 90))%nat
  then ascii_of_nat (nat_of_ascii c + 32)
  else c.

Definition lower (s : string) : string :=
  string_of_list_ascii (map ascii_lower (list_ascii_of_string s)).

Definition store_with_users (us : list User.t) : Store :=
  mkStore us [] [] [] [] [].

(** Alice, once suspended and once active with her email unverified. *)
Definition alice_suspended : User.t :=
  User.mk 1 "alice" "a@x.com" "$2a$10$digest" "voter" false true
          None None None None None.

Definition alice_unverified : User.t :=
  User.mk 1 "alice" "a@x.com" "$2a$10$digest" "voter" true false
          None None None None None.

Definition alice_wrong_password : LoginReq.t :=
  LoginReq.mk (Some "a@x.com") (Some "guess").

(** Carol registers at time 0 and is sent the code 483920. *)
Definition carol_registers : RegisterReq.t :=
  RegisterReq.mk "carol" "c@x.com" "pw1" "voter".

(** The message of the store for an email that is taken. *)
Definition email_taken : string :=
  "duplicate key value violates unique constraint".

Definition carol_registered : Store :=
  store_of (Esm.register sample_hash true email_taken 0 "483920" true
              carol_registers empty_store).

(** The row her registration leaves: the code expires 15 minutes later. *)
Definition carol : User.t :=
  User.mk 1 "carol" "c@x.com" "$2a$10$pw1" "voter" true false
          (Some "483920") (Some 900000) None None None.

Definition carol_verifies : VerifyEmailReq.t :=
  VerifyEmailReq.mk "c@x.com" "483920".

Definition carol_logs_in : LoginReq.t :=
  LoginReq.mk (Some "c@x.com") (Some "pw1").

(** Dan asked for a password reset at time 0. *)
Definition dan : User.t :=
  User.mk 4 "dan" "d@x.com" "$2a$10$dandigest" "voter" true true
          None None None (Some "275001") (Some 900000).

Definition dan_resets : ResetPasswordReq.t :=
  ResetPasswordReq.mk "d@x.com" "275001" "new-password".

(** An admin, and Bob with his application for governor. *)
Definition root : User.t :=
  User.mk 9 "root" "root@x.com" "$2a$10$rootdigest" "admin" true true
          None None None None None.

Definition bob : User.t :=
  User.mk 2 "bob" "b@x.com" "$2a$10$bobdigest" "voter" true true
          None None None None None.

Definition bob_applies : ApplyReq.t :=
  ApplyReq.mk (Some 2) (Some "Bob Otieno") (Some "Governor") (Some "Kisumu")
              None (Some "ODM") (Some "Roads and water") (Some 5000).

Definition bob_application (status : string) : Application.t :=
  Application.mk 1 2 "Bob Otieno" "Governor" (Some "Kisumu") None
                 (Some "ODM") "Roads and water" 5000 status.

Definition campaign_store (status : string) : Store :=
  mkStore [root; bob] [bob_application status] [] [] [] [].

(** The state the ES-module build reaches by approving Bob's pending
    application in [campaign_store "pending"]. *)
Definition approved_store : Store :=
  mkStore [root; User.set_role "politician" bob]
          [bob_application "approved"]
          [profile_from 1 (bob_application "pending")] [] [] [].

(** Bob applies a second time, in full and with the motivation left out. *)
Definition bob_applies_in_full : ApplyReq.t :=
  ApplyReq.mk (Some 2) (Some "Bob Otieno") (Some "Senator") (Some "Kisumu")
              None None (Some "Schools") (Some 5000).

Definition bob_applies_again : ApplyReq.t :=
  ApplyReq.mk (Some 2) (Some "Bob Otieno") (Some "Senator") (Some "Kisumu")
              None None None (Some 5000).

(** A table in which Bob already has two rows. *)
Definition doubled_store : Store :=
  mkStore [root; bob]
          [bob_application "rejected";
           Application.set_id 2 (bob_application "pending")] [] [] [] [].

(** A feed with one ground update, and an edit of its content. *)
Definition flood_report : GroundUpdate.t :=
  GroundUpdate.mk 1 2 "Kisumu" "Infrastructure" "Bridge flooded" None.

Definition feed_store : Store :=
  mkStore [root; bob] [] [] [] [] [flood_report].

Definition retract (g : GroundUpdate.t) : GroundUpdate.t :=
  GroundUpdate.mk (GroundUpdate.id g) (GroundUpdate.user_id g)
                  (GroundUpdate.location g) (GroundUpdate.category g)
                  "Retracted" (GroundUpdate.repost_of g).

(** A comment and a rating whose bodies name another target type. *)
Definition comment_on_event : CommentReq.t :=
  CommentReq.mk (Some 2) (Some 5) (Some "Good plan") (Some "event").

Definition rate_event : RateReq.t :=
  RateReq.mk (Some 2) (Some 5) (Some 4) (Some "event").

Definition ratings_store (l : list Rating.t) : Store :=
  mkStore [] [] [] [] l [].

Definition three_ratings : list Rating.t :=
  [Rating.mk 1 2 "manifesto" 5 4;
   Rating.mk 2 3 "manifesto" 5 5;
   Rating.mk 3 4 "manifesto" 6 1;
   Rating.mk 4 9 "manifesto" 5 4].

(** Twenty ratings of manifesto 8 that sum to 29: nine of value 2 and
    eleven of value 1. *)
Definition twenty_ratings : list Rating.t :=
  map (fun i => Rating.mk i i "manifesto" 8 (if i <=? 9 then 2 else 1))
      (map Z.of_nat (seq 1 20)).

(** Four ratings of manifesto 9 that sum to 5. *)
Definition four_ratings : list Rating.t :=
  [Rating.mk 1 1 "manifesto" 9 1;
   Rating.mk 2 2 "manifesto" 9 1;
   Rating.mk 3 3 "manifesto" 9 1;
   Rating.mk 4 4 "manifesto" 9 2].

(** *** Checking [js_div] against the machine

    The division of Rocq's primitive floats is binary64 division; a
    quotient is read back as sign, significand and exponent. *)

Definition binary64_div (a b : Z) : spec_float :=
  Prim2SF (PrimFloat.div (PrimFloat.of_uint63 (Uint63.of_Z a))
                         (PrimFloat.of_uint63 (Uint63.of_Z b))).

Definition same_binary64 (x : Double) (f : spec_float) : bool :=
  match f with
  | S754_zero s => (mant x =? 0) && Bool.eqb s (neg x)
  | S754_finite s m e =>
      Bool.eqb s (neg x)
      && (((Z.pos m =? mant x) && (e =? - scale x))
          || ((2 * Z.pos m =? mant x) && (e =? 1 - scale x)))
  | _ => false
  end.

Definition upto (n : nat) : list Z := map Z.of_nat (seq 1 n).

(* ================================================================= *)
(** ** Proof automation *)

(** Unfolding a handler down to list operations on the tables. *)
Ltac run_handler :=
  cbv beta iota zeta delta
    [response_of store_of bind ret json
     from_single from_select from_update from_insert from_upsert
     fst snd rows put pk set_pk users_table applications_table
     profiles_table comments_table ratings_table ground_updates_table
     negb orb andb].


(* ================================================================= *)
(** ** Content, counters and listings

    The remaining tables of the site and the routes over them.  A [Site]
    is a [Store] with those tables; a handler that uses the tables of the
    store only runs on a site through [lift].  A listing ordered by
    `created_at` ascending is the table as it stands, one ordered
    descending is the table reversed. *)

Module Manifesto.
Record t := mk {
  id : Z;
  politician_id : Z;
  category : string;
  content : string
}.

Definition set_id (i : Z) (m : t) : t :=
  mk i (politician_id m) (category m) (content m).
End Manifesto.

Module Achievement.
Record t := mk {
  id : Z;
  politician_id : Z;
  title : option string;
  description : option string
}.

Definition set_id (i : Z) (a : t) : t :=
  mk i (politician_id a) (title a) (description a).
End Achievement.

Module Promise.
Record t := mk {
  id : Z;
  politician_id : Z;
  content : option string
}.

Definition set_id (i : Z) (p : t) : t := mk i (politician_id p) (content p).
End Promise.

Module GroundLike.
Record t := mk { user_id : Z; ground_id : Z }.
End GroundLike.

Module GroundComment.
Record t := mk { user_id : Z; ground_id : Z; content : string }.
End GroundComment.

Module GroundRepost.
Record t := mk { ground_id : Z }.
End GroundRepost.

Record Site := mkSite {
  store : Store;
  manifestos : list Manifesto.t;
  achievements : list Achievement.t;
  promises : list Promise.t;
  ground_likes : list GroundLike.t;
  ground_comments : list GroundComment.t;
  ground_reposts : list GroundRepost.t
}.

Definition site_of_store (st : Store) : Site := mkSite st [] [] [] [] [] [].

Definition set_store (st : Store) (s : Site) : Site :=
  mkSite st (manifestos s) (achievements s) (promises s) (ground_likes s)
         (ground_comments s) (ground_reposts s).

Definition set_manifestos (l : list Manifesto.t) (s : Site) : Site :=
  mkSite (store s) l (achievements s) (promises s) (ground_likes s)
         (ground_comments s) (ground_reposts s).

Definition set_achievements (l : list Achievement.t) (s : Site) : Site :=
  mkSite (store s) (manifestos s) l (promises s) (ground_likes s)
         (ground_comments s) (ground_reposts s).

Definition set_promises (l : list Promise.t) (s : Site) : Site :=
  mkSite (store s) (manifestos s) (achievements s) l (ground_likes s)
         (ground_comments s) (ground_reposts s).

Definition set_ground_likes (l : list GroundLike.t) (s : Site) : Site :=
  mkSite (store s) (manifestos s) (achievements s) (promises s) l
         (ground_comments s) (ground_reposts s).

(** Handlers over the site thread it as [Db] threads the store. *)
Definition Web (A : Type) : Type := Site -> A * Site.

Definition answer {A : Type} (a : A) : Web A := fun s => (a, s).

Definition and_then {A B : Type} (m : Web A) (k : A -> Web B) : Web B :=
  fun s => let (a, s') := m s in k a s'.

Notation "x <~ m ;; k" := (and_then m (fun x => k))
  (at level 61, m at next level, right associativity).
Notation "m ;;~ k" := (and_then m (fun _ => k))
  (at level 61, right associativity).

(** A store computation, run on the store of the site. *)
Definition lift {A : Type} (m : Db A) : Web A :=
  fun s => let (a, st) := m (store s) in (a, set_store st s).

(** The key the store generates for the next row of a keyed table. *)
Definition fresh_key {R : Type} (key : R -> Z) (l : list R) : Z :=
  1 + fold_right Z.max 0 (map key l).

(** `.insert(r)` into a table of the site. *)
Definition insert_manifesto (m : Manifesto.t) : Web unit :=
  fun s => (tt, set_manifestos
                  (manifestos s
                   ++ [Manifesto.set_id (fresh_key Manifesto.id (manifestos s)) m])%list
                  s).

Definition insert_achievement (a : Achievement.t) : Web unit :=
  fun s => (tt, set_achievements
                  (achievements s
                   ++ [Achievement.set_id
                         (fresh_key Achievement.id (achievements s)) a])%list
                  s).

Definition insert_promise (p : Promise.t) : Web unit :=
  fun s => (tt, set_promises
                  (promises s
                   ++ [Promise.set_id (fresh_key Promise.id (promises s)) p])%list
                  s).

Definition same_like (a b : GroundLike.t) : bool :=
  (GroundLike.user_id a =? GroundLike.user_id b)
  && (GroundLike.ground_id a =? GroundLike.ground_id b).

(** Modelled from the spec: the conflict target of the like upsert is in
    the table declarations, which are not in the sources; the spec has a
    like unique per user_id and ground_id.  The row carries no other
    column, so a conflicting upsert leaves the table as it is. *)
Definition upsert_like (r : GroundLike.t) : Web unit :=
  fun s => (tt, if existsb (same_like r) (ground_likes s)
                then s
                else set_ground_likes (ground_likes s ++ [r])%list s).

(** What a reading route hands to Express. *)
Inductive Reply (A : Type) :=
| Data (code : Z) (payload : A)
| Refused (code : Z) (error : string).

Arguments Data {A} code payload.
Arguments Refused {A} code error.

Definition sent (code : Z) (b : Body) : Web Outcome :=
  answer (Sent (mkResponse code b)).

(** *** Request bodies and views *)

Module ManifestoReq.
Record t := mk {
  user_id : option Z;
  category : option string;
  content : option string
}.
End ManifestoReq.

Module AchievementReq.
Record t := mk {
  user_id : Z;
  title : option string;
  description : option string
}.
End AchievementReq.

Module PromiseReq.
Record t := mk { user_id : Z; content : option string }.
End PromiseReq.

Module LikeReq.
Record t := mk { user_id : option Z; ground_id : option Z }.
End LikeReq.

(** `id, content, created_at, users (username, role)` *)
Module CommentView.
Record t := mk {
  id : Z;
  content : string;
  users : option (string * string)
}.
End CommentView.

(** `id, location, category, content, created_at, users(username)` *)
Module FeedView.
Record t := mk {
  id : Z;
  location : string;
  category : string;
  content : string;
  users : option string
}.
End FeedView.

(** `id, user_id, full_name, seat, county, constituency, party, status`
    with the attached `profile_id`. *)
Module ApplicationView.
Record t := mk {
  id : Z;
  user_id : Z;
  full_name : string;
  seat : string;
  county : option string;
  constituency : option string;
  party : option string;
  status : string;
  profile_id : option Z
}.
End ApplicationView.

(** `{ profile, manifestos, average }` of the CommonJS profile page;
    manifestos are `id, content`. *)
Module RatedPage.
Record t := mk {
  profile : option Profile.t;
  manifestos : list (Z * string);
  average : JsValue
}.
End RatedPage.

Definition allowedCategories : list string :=
  ["Youth & Jobs"; "Education"; "Health"; "Economy"; "Governance"].

(** `list.includes(s)` on an array of strings. *)
Definition array_includes (l : list string) (s : string) : bool :=
  existsb (fun x => (x =? s)%string) l.

(** The embedded `users(...)` of a row: the row its user_id refers to. *)
Definition embedded_user (us : list User.t) (user_id : Z) : option User.t :=
  single (filter (fun u => User.id u =? user_id) us).

(* ================================================================= *)
(** ** The ES-module build, continued *)

Module EsmSite.

(** POST /manifesto *)
Definition post_manifesto (req : ManifestoReq.t) : Web Outcome :=
  if negb (truthy_num (ManifestoReq.user_id req))
     || negb (truthy_str (ManifestoReq.category req))
     || negb (truthy_str (ManifestoReq.content req))
  then sent 400 (JError "All fields are required")
  else if negb (array_includes allowedCategories
                  (str_of (ManifestoReq.category req)))
  then sent 400 (JError "Invalid manifesto category")
  else
    user <~ lift (from_single
                    (fun u : User.t =>
                       User.id u =? num_of (ManifestoReq.user_id req))) ;;
    match user with
    | None => sent 403 (JError "Only politicians can post manifestos")
    | Some user =>
        if negb (User.role user =? "politician")%string
        then sent 403 (JError "Only politicians can post manifestos")
        else
          profile <~ lift (from_single
                             (fun p : Profile.t =>
                                Profile.user_id p
                                =? num_of (ManifestoReq.user_id req))) ;;
          match profile with
          | None => sent 404 (JError "Politician profile not found")
          | Some profile =>
              insert_manifesto
                (Manifesto.mk 0 (Profile.id profile)
                   (str_of (ManifestoReq.category req))
                   (str_of (ManifestoReq.content req))) ;;~
              sent 200 (JMessage "Manifesto posted successfully")
          end
    end.

(** POST /politician/add-achievement.  No try/catch and no test of the
    lookup: `profile.id` on null throws out of the handler. *)
Definition add_achievement (req : AchievementReq.t) : Web Outcome :=
  profile <~ lift (from_single
                     (fun p : Profile.t =>
                        Profile.user_id p =? AchievementReq.user_id req)) ;;
  match profile with
  | None => answer (Uncaught "TypeError")
  | Some profile =>
      insert_achievement
        (Achievement.mk 0 (Profile.id profile) (AchievementReq.title req)
           (AchievementReq.description req)) ;;~
      sent 200 (JMessage "Achievement added")
  end.

(** POST /ground-like *)
Definition ground_like (req : LikeReq.t) : Web Outcome :=
  if negb (truthy_num (LikeReq.user_id req))
     || negb (truthy_num (LikeReq.ground_id req))
  then sent 400 (JError "Missing fields")
  else
    upsert_like (GroundLike.mk (num_of (LikeReq.user_id req))
                               (num_of (LikeReq.ground_id req))) ;;~
    sent 200 (JMessage "Liked").

(** GET /ground-likes/:id, /ground-comments-count/:id and
    /ground-reposts-count/:id: `{ count }` of the rows with that
    ground_id. *)
Definition ground_likes_count (id : Z) (s : Site) : Z :=
  Z.of_nat (List.length
              (filter (fun l => GroundLike.ground_id l =? id) (ground_likes s))).

Definition ground_comments_count (id : Z) (s : Site) : Z :=
  Z.of_nat (List.length
              (filter (fun c => GroundComment.ground_id c =? id)
                      (ground_comments s))).

Definition ground_reposts_count (id : Z) (s : Site) : Z :=
  Z.of_nat (List.length
              (filter (fun r => GroundRepost.ground_id r =? id)
                      (ground_reposts s))).

(** GET /comments/:target_id *)
Definition get_comments (target_id : Z) (st : Store) : Reply (list CommentView.t) :=
  Data 200
    (map (fun c =>
            CommentView.mk (Comment.id c) (Comment.content c)
              (option_map (fun u => (User.username u, User.role u))
                          (embedded_user (users st) (Comment.user_id c))))
         (filter (fun c => (Comment.target_type c =? "manifesto")%string
                           && (Comment.target_id c =? target_id))
                 (comments st))).

(** GET /ground-updates *)
Definition get_ground_updates (st : Store) : Reply (list FeedView.t) :=
  Data 200
    (map (fun g =>
            FeedView.mk (GroundUpdate.id g) (GroundUpdate.location g)
              (GroundUpdate.category g) (GroundUpdate.content g)
              (option_map User.username
                          (embedded_user (users st) (GroundUpdate.user_id g))))
         (rev (ground_updates st))).

(** GET /my-politician-profile/:user_id *)
Definition my_politician_profile (user_id : Z) (st : Store) : Reply Profile.t :=
  match single (filter (fun p => Profile.user_id p =? user_id)
                       (politician_profiles st)) with
  | Some data => Data 200 data
  | None => Refused 404 "Profile not found"
  end.

(** GET /politicians/all: `profile?.id || null` is null for a missing
    profile and for a falsy id. *)
Definition politicians_all (st : Store) : Reply (list ApplicationView.t) :=
  Data 200
    (map (fun app =>
            ApplicationView.mk (Application.id app) (Application.user_id app)
              (Application.full_name app) (Application.seat app)
              (Application.county app) (Application.constituency app)
              (Application.party app) (Application.status app)
              (if negb (Application.status app =? "approved")%string
               then None
               else match single (filter (fun p => Profile.user_id p
                                                   =? Application.user_id app)
                                         (politician_profiles st)) with
                    | Some profile =>
                        if Profile.id profile =? 0 then None
                        else Some (Profile.id profile)
                    | None => None
                    end))
         (rev (politician_applications st))).

End EsmSite.

(* ================================================================= *)
(** ** The CommonJS build, continued *)

Module CjsSite.

(** POST /politician/add-promise.  No try/catch: `user.role` and
    `profile.id` on null throw out of the handler. *)
Definition add_promise (req : PromiseReq.t) : Web Outcome :=
  user <~ lift (from_single
                  (fun u : User.t => User.id u =? PromiseReq.user_id req)) ;;
  match user with
  | None => answer (Uncaught "TypeError")
  | Some user =>
      if negb (User.role user =? "politician")%string
      then sent 403 (JError "Access denied")
      else
        profile <~ lift (from_single
                           (fun p : Profile.t =>
                              Profile.user_id p =? PromiseReq.user_id req)) ;;
        match profile with
        | None => answer (Uncaught "TypeError")
        | Some profile =>
            insert_promise
              (Promise.mk 0 (Profile.id profile) (PromiseReq.content req)) ;;~
            sent 200 (JMessage "Promise added")
        end
  end.

(** GET /politician/:id: the profile, its manifestos and the average of
    the ratings of those manifestos. *)
Definition politician_page (id : Z) (s : Site) : Reply RatedPage.t :=
  let profile := single (filter (fun p => Profile.id p =? id)
                                (politician_profiles (store s))) in
  let manifestos := filter (fun m => Manifesto.politician_id m =? id)
                           (manifestos s) in
  let ratings :=
    filter (fun r => (Rating.target_type r =? "manifesto")%string
                     && existsb (fun m => Manifesto.id m =? Rating.target_id r)
                                manifestos)
           (ratings (store s)) in
  let average :=
    if Z.of_nat (List.length ratings) =? 0 then JNum 0
    else JStr (toFixed1
                 (js_div (fold_left (fun sum r => sum + Rating.rating r) ratings 0)
                         (Z.of_nat (List.length ratings)))) in
  Data 200
    (RatedPage.mk profile
       (map (fun m => (Manifesto.id m, Manifesto.content m)) manifestos)
       average).

End CjsSite.


(* ================================================================= *)
(** ** Vocabulary of the further properties *)

Definition admin_only : Outcome := Sent (mkResponse 403 (JError "Admin only")).

Definition verify_first : Outcome :=
  Sent (mkResponse 200 (JError "Please verify your email first")).

Definition logged_in (u : User.t) : Outcome :=
  Sent (mkResponse 200 (JLogin (User.id u) (User.username u) (User.email u)
                               (User.role u))).

(** The row POST /register inserts into table [l]. *)
Definition registered_row (hash : string -> string) (active : bool) (now : Z)
    (code : string) (req : RegisterReq.t) (l : list User.t) : User.t :=
  User.mk (next_id l) (RegisterReq.username req) (RegisterReq.email req)
          (hash (RegisterReq.password req)) (RegisterReq.role req) active
          false (Some code) (Some (now + 900000)) None None None.

(** The store with its users table replaced. *)
Definition with_users (l : list User.t) (st : Store) : Store :=
  mkStore l (politician_applications st) (politician_profiles st)
          (comments st) (ratings st) (ground_updates st).

Definition email_unused (st : Store) (email : string) : Prop :=
  forall u, In u (users st) -> User.email u <> email.

(** Sample data *)

Definition bob_approves : AdminReq.t := AdminReq.mk 1 2.

Definition carol_verified : Store :=
  store_of (Esm.verify_email true 60000 carol_verifies carol_registered).

Definition eve_registers_as_admin : RegisterReq.t :=
  RegisterReq.mk "eve" "e@x.com" "pw" "admin".

Definition email_not_found : Outcome :=
  Sent (mkResponse 200 (JError "Email not found")).

Definition rating_saved : Outcome :=
  Sent (mkResponse 200 (JMessage "Rating saved")).

(** The rating rows of one user for one target. *)
Definition ratings_by (st : Store) (user_id target_id : Z) : list Rating.t :=
  filter (fun r => (Rating.user_id r =? user_id)
                   && (Rating.target_type r =? "manifesto")%string
                   && (Rating.target_id r =? target_id))
         (ratings st).

Definition one_rating_per_user (st : Store) : Prop :=
  forall user_id target_id,
    (List.length (ratings_by st user_id target_id) <= 1)%nat.

(** The fields of a rating request are supplied and the value is 1..5. *)
Definition rating_request_valid (req : RateReq.t) : bool :=
  truthy_num (RateReq.user_id req) && truthy_num (RateReq.target_id req)
  && (1 <=? num_of (RateReq.rating req)) && (num_of (RateReq.rating req) <=? 5).

Definition dan_forgets : Store :=
  store_of (Esm.forgot_password 0 "275001" true "d@x.com"
              (store_with_users [dan])).

Definition dan_logs_in : LoginReq.t :=
  LoginReq.mk (Some "d@x.com") (Some "new-password").

Definition rate_out_of_range : RateReq.t :=
  RateReq.mk (Some 2) (Some 5) (Some 6) None.

Definition bob_rates (value : Z) : RateReq.t :=
  RateReq.mk (Some 2) (Some 5) (Some value) None.

Definition known_status (status : string) : Prop :=
  status = "pending" \/ status = "approved" \/ status = "rejected".

(** What every store of a run satisfies besides [campaign_invariant]. *)
Record audit_invariant (st : Store) : Prop := {
  audit_statuses :
    forall a, In a (politician_applications st) ->
              known_status (Application.status a);
  audit_verified :
    forall p, In p (politician_profiles st) -> Profile.is_verified p = true;
  audit_decided :
    forall p, In p (politician_profiles st) ->
              exists a, In a (politician_applications st)
                        /\ Application.user_id a = Profile.user_id p
                        /\ Application.status a <> "pending";
  audit_ratings : one_rating_per_user st
}.

(** What identifies an account. *)
Definition identity (u : User.t) : Z * string * string :=
  (User.id u, User.username u, User.email u).

Definition bob_rated : Store := store_of (Esm.rate (bob_rates 4) feed_store).

(** Closing a goal [l' = l ++ ?x] for a table that was kept or appended to. *)
Ltac appended :=
  first [ exists []; rewrite app_nil_r; reflexivity
        | eexists; unfold insert_row; reflexivity ].

(** *** Runs of the site *)

Definition response_of_site {A : Type} (r : A * Site) : A := fst r.
Definition site_after {A : Type} (r : A * Site) : Site := snd r.

(** One step of the site: a step of the store, or a call of one of the
    writing handlers over the other tables. *)
Inductive site_step : Site -> Site -> Prop :=
| site_store_step s st' :
    step (store s) st' -> site_step s (set_store st' s)
| site_post_manifesto req s :
    site_step s (site_after (EsmSite.post_manifesto req s))
| site_add_achievement req s :
    site_step s (site_after (EsmSite.add_achievement req s))
| site_ground_like req s :
    site_step s (site_after (EsmSite.ground_like req s)).

Inductive site_reachable : Site -> Prop :=
| site_start st : only_accounts st -> site_reachable (site_of_store st)
| site_next s s' : site_reachable s -> site_step s s' -> site_reachable s'.

Definition manifesto_posted : Outcome :=
  Sent (mkResponse 200 (JMessage "Manifesto posted successfully")).

Definition comment_posted : Outcome :=
  Sent (mkResponse 200 (JMessage "Comment posted successfully")).

Definition liked : Outcome := Sent (mkResponse 200 (JMessage "Liked")).

(** The row POST /manifesto adds to table [l] for profile [p]. *)
Definition manifesto_row (l : list Manifesto.t) (p : Profile.t)
    (req : ManifestoReq.t) : Manifesto.t :=
  Manifesto.mk (fresh_key Manifesto.id l) (Profile.id p)
               (str_of (ManifestoReq.category req))
               (str_of (ManifestoReq.content req)).

Definition profile_of_user (st : Store) (user_id : Z) : option Profile.t :=
  single (profiles_of st user_id).

(** Every manifesto is in an allowed category and belongs to a profile
    of the store. *)
Definition manifestos_owned (s : Site) : Prop :=
  forall m, In m (manifestos s) ->
            array_includes allowedCategories (Manifesto.category m) = true
            /\ In (Manifesto.politician_id m)
                  (map Profile.id (politician_profiles (store s))).

(** Sample data *)

Definition campaign_site : Site := site_of_store (campaign_store "pending").

Definition approved_site : Site := site_of_store approved_store.

Definition bob_posts : ManifestoReq.t :=
  ManifestoReq.mk (Some 2) (Some "Health") (Some "A clinic in every ward").

Definition bob_likes : LikeReq.t := LikeReq.mk (Some 2) (Some 1).

Definition feed_site : Site := site_of_store feed_store.

Definition posted_site : Site :=
  site_after (EsmSite.post_manifesto bob_posts approved_site).

Definition achievement_added : Outcome :=
  Sent (mkResponse 200 (JMessage "Achievement added")).

Definition bob_achievement : AchievementReq.t :=
  AchievementReq.mk 2 (Some "Borehole") (Some "Drilled in 2024").

Definition bob_reports : GroundUpdateReq.t :=
  GroundUpdateReq.mk (Some 2) (Some "Kisumu") (Some "Infrastructure")
                     (Some "Bridge flooded").

(** The site after the admin has reposted Bob's report. *)
Definition reposted_site : Site :=
  site_after (lift (Esm.ground_repost (RepostReq.mk (Some 9) (Some 1)))
                   feed_site).

(** The rating rows whose target is a manifesto of politician [id]. *)
Definition page_ratings (s : Site) (id : Z) : list Rating.t :=
  filter (fun r => existsb (fun m => (Manifesto.politician_id m =? id)
                                     && (Manifesto.id m =? Rating.target_id r))
                           (manifestos s))
         (ratings (store s)).

Definition rated_site : Site :=
  mkSite (ratings_store three_ratings)
         [Manifesto.mk 5 1 "Health" "A clinic in every ward";
          Manifesto.mk 6 1 "Economy" "Markets";
          Manifesto.mk 7 2 "Education" "Schools"]
         [] [] [] [] [].

Definition bob_comments : CommentReq.t :=
  CommentReq.mk (Some 2) (Some 5) (Some "Good plan") None.

Definition promise_added : Outcome :=
  Sent (mkResponse 200 (JMessage "Promise added")).

Definition bob_promises : PromiseReq.t := PromiseReq.mk 2 (Some "Tarmac the road").

(** The entry of GET /politicians/all for application [a]. *)
Definition application_view (a : Application.t) (profile_id : option Z)
    : ApplicationView.t :=
  ApplicationView.mk (Application.id a) (Application.user_id a)
    (Application.full_name a) (Application.seat a) (Application.county a)
    (Application.constituency a) (Application.party a) (Application.status a)
    profile_id.

(** Approved applications have their profile, and profile ids are
    generated keys. *)
Record listing_invariant (st : Store) : Prop := {
  listing_approved :
    forall a, In a (politician_applications st) ->
              Application.status a = "approved" ->
              In (Application.user_id a)
                 (map Profile.user_id (politician_profiles st));
  listing_ids :
    forall p, In p (politician_profiles st) -> 1 <= Profile.id p
}.

(* ================================================================= *)
(** * Properties *)

(* ----------------------------------------------------------------- *)
(** ** Login *)

Section Login.
Variable compare : string -> string -> bool.

Lemma esm_login_by_status st req u :
  truthy_str (LoginReq.email req) = true ->
  truthy_str (LoginReq.password req) = true ->
  account_of st req = Some u ->
  compare (str_of (LoginReq.password req)) (User.password_hash u) = false ->
  response_of (Esm.login compare req st)
  = if User.is_active u then credential_failure else account_suspended.
Proof.
  intros He Hp Hu Hc. unfold Esm.login, account_of, account_by_email in *.
  rewrite He, Hp. run_handler. rewrite Hu.
  destruct (User.is_active u); cbn; [rewrite Hc|]; reflexivity.
Qed.

Lemma cjs_login_by_status st req u :
  truthy_str (LoginReq.email req) = true ->
  truthy_str (LoginReq.password req) = true ->
  account_of st req = Some u ->
  compare (str_of (LoginReq.password req)) (User.password_hash u) = false ->
  response_of (Cjs.login compare req st)
  = if User.is_active u then credential_failure else account_suspended.
Proof.
  intros He Hp Hu Hc. unfold Cjs.login, account_of, account_by_email in *.
  rewrite He, Hp. run_handler. rewrite Hu.
  destruct (User.is_active u); cbn; [rewrite Hc|]; reflexivity.
Qed.

(** Login never writes. *)
Lemma esm_login_reads_only st req :
  store_of (Esm.login compare req st) = st.
Proof.
  unfold Esm.login. run_handler.
  repeat match goal with
         | |- context [if ?b then _ else _] => destruct b; cbn
         | |- context [match ?o with Some _ => _ | None => _ end] =>
             destruct o; cbn
         end; reflexivity.
Qed.
End Login.

(** C1, as amended.  When email and password are supplied, the email names
    one account and the password does not verify against its hash, both
    builds answer by the account's [is_active] flag alone: the credential
    failure 'Invalid email or password' for an active account, whatever
    its [email_verified] flag, and 'Account is suspended' otherwise. *)
Theorem login_wrong_password_response :
  forall (compare : string -> string -> bool) st req u,
    truthy_str (LoginReq.email req) = true ->
    truthy_str (LoginReq.password req) = true ->
    account_of st req = Some u ->
    compare (str_of (LoginReq.password req)) (User.password_hash u) = false ->
    response_of (Esm.login compare req st)
    = (if User.is_active u then credential_failure else account_suspended)
    /\ response_of (Cjs.login compare req st)
       = (if User.is_active u then credential_failure else account_suspended).
Proof.
  intros; split;
    [apply esm_login_by_status | apply cjs_login_by_status]; assumption.
Qed.

Lemma login_wrong_password_response_witness :
  response_of (Esm.login never_matches alice_wrong_password
                 (store_with_users [alice_unverified]))
  = credential_failure
  /\ response_of (Cjs.login never_matches alice_wrong_password
                    (store_with_users [alice_unverified]))
     = credential_failure.
Proof.
  apply (login_wrong_password_response never_matches
           (store_with_users [alice_unverified]) alice_wrong_password
           alice_unverified); reflexivity.
Defined.

(** C1, as the specification states it, fails: a suspended account answers
    a wrong password with 'Account is suspended', because [is_active] is
    tested before the password is compared. *)
Lemma login_suspended_wrong_password :
  ~ wrong_password_is_credential_failure Esm.login.
Proof.
  intro H.
  specialize (H never_matches (store_with_users [alice_suspended])
                alice_wrong_password alice_suspended
                eq_refl eq_refl eq_refl eq_refl).
  discriminate H.
Qed.

(** The older build has the same order of checks. *)
Lemma cjs_login_suspended_wrong_password :
  ~ wrong_password_is_credential_failure Cjs.login.
Proof.
  intro H.
  specialize (H never_matches (store_with_users [alice_suspended])
                alice_wrong_password alice_suspended
                eq_refl eq_refl eq_refl eq_refl).
  discriminate H.
Qed.

(** Two stores whose named accounts differ only in [email_verified] answer
    a wrong password alike. *)
Corollary login_wrong_password_ignores_email_verified :
  forall (compare : string -> string -> bool) st1 st2 req u1 u2,
    truthy_str (LoginReq.email req) = true ->
    truthy_str (LoginReq.password req) = true ->
    account_of st1 req = Some u1 ->
    account_of st2 req = Some u2 ->
    User.password_hash u1 = User.password_hash u2 ->
    User.is_active u1 = User.is_active u2 ->
    compare (str_of (LoginReq.password req)) (User.password_hash u1) = false ->
    response_of (Esm.login compare req st1)
    = response_of (Esm.login compare req st2).
Proof.
  intros compare st1 st2 req u1 u2 He Hp H1 H2 Hh Ha Hc.
  rewrite (esm_login_by_status compare st1 req u1),
          (esm_login_by_status compare st2 req u2); try assumption.
  - rewrite Ha. reflexivity.
  - rewrite <- Hh. assumption.
Qed.

(* ----------------------------------------------------------------- *)
(** ** Facts about the query gateway *)

Section Gateway.
Context {R : Type}.

Lemma single_Some (l : list R) (r : R) : single l = Some r <-> l = [r].
Proof.
  destruct l as [|x [|y l]]; cbn; split; intro H;
    try discriminate; inversion H; reflexivity.
Qed.

Lemma single_filter_In (p : R -> bool) (l : list R) (r : R) :
  single (filter p l) = Some r -> In r l /\ p r = true.
Proof.
  intro H. apply single_Some in H.
  apply filter_In. rewrite H. left. reflexivity.
Qed.

Lemma update_rows_id (p : R -> bool) (f : R -> R) (l : list R) :
  (forall r, In r l -> p r = false) -> update_rows p f l = l.
Proof.
  unfold update_rows. induction l as [|x l IH]; intro H; cbn; [reflexivity|].
  rewrite (H x (or_introl eq_refl)), IH; [reflexivity|].
  intros r Hr. apply H. right. assumption.
Qed.

Lemma In_update_rows (p : R -> bool) (f : R -> R) (l : list R) (r : R) :
  In r (update_rows p f l) <->
  exists x, In x l /\ r = if p x then f x else x.
Proof.
  unfold update_rows. rewrite in_map_iff. split.
  - intros [x [E Hx]]. exists x. split; [assumption | symmetry; assumption].
  - intros [x [Hx E]]. exists x. split; [symmetry; assumption | assumption].
Qed.

(** Rewriting the rows selected by [p] with an [f] that keeps them
    selected by [q], where [p] and [q] select the same rows. *)
Lemma filter_update_rows (p q : R -> bool) (f : R -> R) (l : list R) :
  (forall x, p x = q x) -> (forall x, q x = true -> q (f x) = true) ->
  filter q (update_rows p f l) = map f (filter q l).
Proof.
  intros Hpq Hf. unfold update_rows.
  induction l as [|x l IH]; cbn; [reflexivity|].
  rewrite Hpq. destruct (q x) eqn:E.
  - rewrite (Hf x E). cbn. rewrite IH. reflexivity.
  - rewrite E. assumption.
Qed.

Variable key : R -> Z.

Lemma filter_absent_key (k : Z) (l : list R) :
  ~ In k (map key l) -> filter (fun x => key x =? k) l = [].
Proof.
  induction l as [|x l IH]; cbn; intro H; [reflexivity|].
  destruct (Z.eqb_spec (key x) k) as [E|E].
  - exfalso. apply H. left. assumption.
  - apply IH. intro Hin. apply H. right. assumption.
Qed.

Lemma filter_unique_key (l : list R) (r : R) :
  NoDup (map key l) -> In r l ->
  filter (fun x => key x =? key r) l = [r].
Proof.
  induction l as [|x l IH]; cbn; intros Hnd Hin; [contradiction|].
  inversion Hnd as [|? ? Hx Hl]; subst.
  destruct Hin as [->|Hin].
  - rewrite Z.eqb_refl, filter_absent_key; [reflexivity | assumption].
  - destruct (Z.eqb_spec (key x) (key r)) as [E|E].
    + exfalso. apply Hx. rewrite E. apply in_map. assumption.
    + apply IH; assumption.
Qed.

Lemma filter_key_at_most_one (k : Z) (l : list R) :
  NoDup (map key l) ->
  filter (fun x => key x =? k) l = []
  \/ exists r, filter (fun x => key x =? k) l = [r].
Proof.
  intro Hnd.
  destruct (filter (fun x => key x =? k) l) as [|r rest] eqn:E;
    [left; reflexivity | right].
  assert (Hr : In r l /\ (key r =? k) = true).
  { apply (proj1 (filter_In (fun x => key x =? k) r l)).
    rewrite E. left. reflexivity. }
  destruct Hr as [Hr Hk]. apply Z.eqb_eq in Hk. subst k.
  rewrite (filter_unique_key l r Hnd Hr) in E. exists r. symmetry. assumption.
Qed.

Lemma existsb_filter_nil (p : R -> bool) (l : list R) :
  existsb p l = false <-> filter p l = [].
Proof.
  induction l as [|x l IH]; cbn; [tauto|].
  destruct (p x); cbn; [split; discriminate | assumption].
Qed.
End Gateway.

(** A key the store generates is above every key of the table. *)
Lemma next_id_above {R : Type} `{Table R} (l : list R) (r : R) :
  In r l -> pk r < next_id l.
Proof.
  unfold next_id. induction l as [|x l IH]; cbn [map fold_right In];
    [contradiction|].
  intros [->|Hin]; [lia|]. specialize (IH Hin). lia.
Qed.

(** The profile upsert leaves exactly one row for the user, holding the new
    columns, provided the table had one profile per user. *)
Lemma upsert_profile_exactly_one (r : Profile.t) (l : list Profile.t) :
  NoDup (map Profile.user_id l) ->
  exists i,
    filter (fun p => Profile.user_id p =? Profile.user_id r)
           (upsert_row same_profile_key r l)
    = [Profile.set_id i r].
Proof.
  intro Hnd. unfold upsert_row.
  destruct (existsb (same_profile_key r) l) eqn:Ex.
  - rewrite (filter_update_rows (same_profile_key r)
               (fun p => Profile.user_id p =? Profile.user_id r)).
    + destruct (filter_key_at_most_one Profile.user_id (Profile.user_id r) l Hnd)
        as [E|[old E]].
      * apply existsb_exists in Ex. destruct Ex as [x [Hx Kx]].
        assert (Hin : In x (filter (fun p => Profile.user_id p =? Profile.user_id r) l)).
        { apply (proj2 (filter_In
                           (fun p => Profile.user_id p =? Profile.user_id r) x l)).
          split; [assumption|].
          unfold same_profile_key in Kx. rewrite Z.eqb_sym. assumption. }
        rewrite E in Hin. contradiction.
      * rewrite E. exists (Profile.id old). reflexivity.
    + intro x. unfold same_profile_key. apply Z.eqb_sym.
    + intros x _. cbn. apply Z.eqb_refl.
  - exists (next_id l). unfold insert_row. rewrite filter_app.
    assert (E : filter (fun p => Profile.user_id p =? Profile.user_id r) l = []).
    { destruct (filter (fun p => Profile.user_id p =? Profile.user_id r) l)
        as [|x rest] eqn:F; [reflexivity|].
      assert (Hx : In x l /\ (Profile.user_id x =? Profile.user_id r) = true).
      { apply (proj1 (filter_In
                        (fun p => Profile.user_id p =? Profile.user_id r) x l)).
        rewrite F. left. reflexivity. }
      destruct Hx as [Hx Kx].
      assert (Ex' : existsb (same_profile_key r) l = true).
      { apply existsb_exists. exists x. split; [assumption|].
        unfold same_profile_key. rewrite Z.eqb_sym. assumption. }
      congruence. }
    rewrite E. cbn. rewrite Z.eqb_refl. reflexivity.
Qed.

(* ----------------------------------------------------------------- *)
(** ** The approval workflow *)

Lemma requireAdmin_spec st admin_id :
  Esm.requireAdmin admin_id st
  = (match user_of st admin_id with
     | Some u => (User.role u =? "admin")%string
     | None => false
     end, st).
Proof. reflexivity. Qed.

Lemma requireAdmin_is_admin st admin_id :
  is_admin st admin_id -> Esm.requireAdmin admin_id st = (true, st).
Proof.
  intros [u [Hu Hr]]. rewrite requireAdmin_spec, Hu, Hr. reflexivity.
Qed.

(** The handler, read off as one case analysis on what the two lookups
    return. *)
Lemma esm_approve_cases st req :
  Esm.approve_politician req st
  = if fst (Esm.requireAdmin (AdminReq.admin_id req) st)
    then match application_of st (AdminReq.application_id req) with
         | Some a =>
             if (Application.status a =? "pending")%string
             then (approved,
                   mkStore
                     (update_rows (fun u => User.id u =? Application.user_id a)
                        (User.set_role "politician") (users st))
                     (update_rows
                        (fun x => Application.id x =? AdminReq.application_id req)
                        (Application.set_status "approved")
                        (politician_applications st))
                     (upsert_row same_profile_key (profile_from 0 a)
                        (politician_profiles st))
                     (comments st) (ratings st) (ground_updates st))
             else (Sent (mkResponse 400 (JError "Invalid application")), st)
         | None => (Sent (mkResponse 400 (JError "Invalid application")), st)
         end
    else (Sent (mkResponse 403 (JError "Admin only")), st).
Proof.
  unfold Esm.approve_politician, application_of.
  rewrite requireAdmin_spec.
  unfold bind at 1. rewrite requireAdmin_spec. cbn [fst].
  destruct (match user_of st (AdminReq.admin_id req) with
            | Some u => (User.role u =? "admin")%string
            | None => false
            end); run_handler; [|reflexivity].
  destruct (single _) as [a|]; [|reflexivity].
  destruct (Application.status a =? "pending")%string; reflexivity.
Qed.

(** C2.  Approving an application that exists and is pending, by a caller
    whose [admin_id] names a user of role 'admin', answers 'Approved' and
    leaves: every user row of the applicant with role 'politician', each
    row of the applicant kept with its other columns; exactly one profile
    row for the applicant, with is_verified true and full_name, seat,
    county, constituency and party equal to the application's, bio equal
    to its motivation; and the application found under its id with status
    'approved' and its other columns as they were.  The profile table is
    taken with one profile per user, the uniqueness the upsert is keyed
    on. *)
Theorem approve_pending_application :
  forall st req a,
    is_admin st (AdminReq.admin_id req) ->
    application_of st (AdminReq.application_id req) = Some a ->
    Application.status a = "pending" ->
    one_profile_per_user st ->
    let st' := store_of (Esm.approve_politician req st) in
    response_of (Esm.approve_politician req st)
    = Sent (mkResponse 200 (JMessage "Approved"))
    /\ (forall u, In u (users st') ->
                  User.id u = Application.user_id a ->
                  User.role u = "politician")
    /\ (forall u, In u (users st) -> User.id u = Application.user_id a ->
          exists u',
            In u' (users st')
            /\ User.role u' = "politician"
            /\ User.id u' = User.id u
            /\ User.username u' = User.username u
            /\ User.email u' = User.email u
            /\ User.password_hash u' = User.password_hash u
            /\ User.is_active u' = User.is_active u
            /\ User.email_verified u' = User.email_verified u
            /\ User.verify_code u' = User.verify_code u
            /\ User.verify_code_expires u' = User.verify_code_expires u
            /\ User.verification_code_expires u'
               = User.verification_code_expires u
            /\ User.reset_code u' = User.reset_code u
            /\ User.reset_code_expires u' = User.reset_code_expires u)
    /\ (exists p,
          profiles_of st' (Application.user_id a) = [p]
          /\ Profile.user_id p = Application.user_id a
          /\ Profile.is_verified p = true
          /\ Profile.full_name p = Application.full_name a
          /\ Profile.seat p = Application.seat a
          /\ Profile.county p = Application.county a
          /\ Profile.constituency p = Application.constituency a
          /\ Profile.party p = Application.party a
          /\ Profile.bio p = Application.motivation a)
    /\ (exists a',
          application_of st' (AdminReq.application_id req) = Some a'
          /\ Application.status a' = "approved"
          /\ Application.id a' = Application.id a
          /\ Application.user_id a' = Application.user_id a
          /\ Application.full_name a' = Application.full_name a
          /\ Application.seat a' = Application.seat a
          /\ Application.county a' = Application.county a
          /\ Application.constituency a' = Application.constituency a
          /\ Application.party a' = Application.party a
          /\ Application.motivation a' = Application.motivation a
          /\ Application.fee a' = Application.fee a).
Proof.
  intros st req a Hadm Happ Hpend Huniq st'. subst st'.
  rewrite esm_approve_cases, (requireAdmin_is_admin _ _ Hadm), Happ, Hpend.
  cbn [fst snd response_of store_of String.eqb Ascii.eqb Bool.eqb users
       politician_applications politician_profiles].
  unfold response_of, store_of. cbn [fst snd users politician_profiles
                                       politician_applications].
  split; [reflexivity|]. split; [|split; [|split]].
  - intros u Hu Hid. apply In_update_rows in Hu. destruct Hu as [x [Hx ->]].
    destruct (Z.eqb_spec (User.id x) (Application.user_id a)) as [E|E].
    + reflexivity.
    + contradiction.
  - intros u Hu Hid.
    assert (Hin : In (if User.id u =? Application.user_id a
                      then User.set_role "politician" u else u)
                     (update_rows (fun x => User.id x =? Application.user_id a)
                        (User.set_role "politician") (users st))).
    { apply In_update_rows. exists u. split; [assumption | reflexivity]. }
    rewrite Hid, Z.eqb_refl in Hin.
    eexists. split; [exact Hin|]. cbn. rewrite Hid.
    split; [reflexivity|]. split; [reflexivity|].
    split; [reflexivity|]. split; [reflexivity|].
    split; [reflexivity|]. split; [reflexivity|].
    split; [reflexivity|]. split; [reflexivity|].
    split; [reflexivity|]. split; [reflexivity|].
    split; reflexivity.
  - unfold profiles_of. cbn [politician_profiles].
    destruct (upsert_profile_exactly_one (profile_from 0 a)
                (politician_profiles st) Huniq) as [i Hi].
    eexists. split; [exact Hi|]. cbn.
    split; [reflexivity|]. split; [reflexivity|].
    split; [reflexivity|]. split; [reflexivity|].
    split; [reflexivity|]. split; [reflexivity|].
    split; reflexivity.
  - unfold application_of in *. cbn [politician_applications].
    rewrite (filter_update_rows
               (fun x => Application.id x =? AdminReq.application_id req)
               (fun x => Application.id x =? AdminReq.application_id req)).
    + apply single_Some in Happ. rewrite Happ.
      eexists. split; [reflexivity|]. cbn.
      split; [reflexivity|]. split; [reflexivity|].
      split; [reflexivity|]. split; [reflexivity|].
      split; [reflexivity|]. split; [reflexivity|].
      split; [reflexivity|]. split; [reflexivity|].
      split; reflexivity.
    + reflexivity.
    + intros x Hx. exact Hx.
Qed.

Lemma approve_pending_application_witness :
  let a := bob_application "pending" in
  let st' := store_of (Esm.approve_politician (AdminReq.mk 1 9)
                         (campaign_store "pending")) in
  response_of (Esm.approve_politician (AdminReq.mk 1 9)
                 (campaign_store "pending"))
  = Sent (mkResponse 200 (JMessage "Approved"))
  /\ (forall u, In u (users st') ->
                User.id u = Application.user_id a ->
                User.role u = "politician")
  /\ (forall u, In u (users (campaign_store "pending")) ->
                User.id u = Application.user_id a ->
        exists u',
          In u' (users st')
          /\ User.role u' = "politician"
          /\ User.id u' = User.id u
          /\ User.username u' = User.username u
          /\ User.email u' = User.email u
          /\ User.password_hash u' = User.password_hash u
          /\ User.is_active u' = User.is_active u
          /\ User.email_verified u' = User.email_verified u
          /\ User.verify_code u' = User.verify_code u
          /\ User.verify_code_expires u' = User.verify_code_expires u
          /\ User.verification_code_expires u'
             = User.verification_code_expires u
          /\ User.reset_code u' = User.reset_code u
          /\ User.reset_code_expires u' = User.reset_code_expires u)
  /\ (exists p,
        profiles_of st' (Application.user_id a) = [p]
        /\ Profile.user_id p = Application.user_id a
        /\ Profile.is_verified p = true
        /\ Profile.full_name p = Application.full_name a
        /\ Profile.seat p = Application.seat a
        /\ Profile.county p = Application.county a
        /\ Profile.constituency p = Application.constituency a
        /\ Profile.party p = Application.party a
        /\ Profile.bio p = Application.motivation a)
  /\ (exists a',
        application_of st' (AdminReq.application_id (AdminReq.mk 1 9))
        = Some a'
        /\ Application.status a' = "approved"
        /\ Application.id a' = Application.id a
        /\ Application.user_id a' = Application.user_id a
        /\ Application.full_name a' = Application.full_name a
        /\ Application.seat a' = Application.seat a
        /\ Application.county a' = Application.county a
        /\ Application.constituency a' = Application.constituency a
        /\ Application.party a' = Application.party a
        /\ Application.motivation a' = Application.motivation a
        /\ Application.fee a' = Application.fee a).
Proof.
  apply (approve_pending_application (campaign_store "pending")
           (AdminReq.mk 1 9) (bob_application "pending")).
  - exists root. split; reflexivity.
  - reflexivity.
  - reflexivity.
  - constructor.
Defined.

(** The store the sample approval leaves, row by row. *)
Example approve_bob_rows :
  let st' := store_of (Esm.approve_politician (AdminReq.mk 1 9)
                         (campaign_store "pending")) in
  users st'
  = [User.mk 9 "root" "root@x.com" "$2a$10$rootdigest" "admin" true true
       None None None None None;
     User.mk 2 "bob" "b@x.com" "$2a$10$bobdigest" "politician" true true
       None None None None None]
  /\ politician_profiles st'
     = [Profile.mk 1 2 "Bob Otieno" "Governor" (Some "Kisumu") None
          (Some "ODM") "Roads and water" true]
  /\ politician_applications st'
     = [Application.mk 1 2 "Bob Otieno" "Governor" (Some "Kisumu") None
          (Some "ODM") "Roads and water" 5000 "approved"].
Proof. split; [|split]; reflexivity. Qed.

(** The run of the sample approval, in full. *)
Example approve_bob :
  Esm.approve_politician (AdminReq.mk 1 9) (campaign_store "pending")
  = (approved, approved_store).
Proof. reflexivity. Qed.

(** The ES-module build refuses an application that is missing or not
    pending, and a caller who is not an admin, without writing. *)
Lemma esm_approve_refusal_writes_nothing st req :
  (forall a, application_of st (AdminReq.application_id req) = Some a ->
             Application.status a <> "pending") ->
  is_error (response_of (Esm.approve_politician req st)) = true
  /\ store_of (Esm.approve_politician req st) = st.
Proof.
  intro H. rewrite esm_approve_cases.
  destruct (fst (Esm.requireAdmin (AdminReq.admin_id req) st));
    [|split; reflexivity].
  destruct (application_of st (AdminReq.application_id req)) as [a|];
    [|split; reflexivity].
  destruct (String.eqb_spec (Application.status a) "pending") as [E|E];
    [|split; reflexivity].
  exfalso. exact (H a eq_refl E).
Qed.

Lemma esm_approve_not_admin st req :
  fst (Esm.requireAdmin (AdminReq.admin_id req) st) = false ->
  Esm.approve_politician req st
  = (Sent (mkResponse 403 (JError "Admin only")), st).
Proof. intro H. rewrite esm_approve_cases, H. reflexivity. Qed.

(** The CommonJS build, read off the same way: the only refusals are a
    missing id and a missing row. *)
Lemma cjs_approve_cases st req :
  Cjs.approve_politician req st
  = if truthy_num (Cjs.ApproveReq.application_id req)
    then match application_of st (num_of (Cjs.ApproveReq.application_id req)) with
         | Some a =>
             (Sent (mkResponse 200 (JMessage "Politician approved successfully")),
              mkStore
                (update_rows (fun u => User.id u =? Application.user_id a)
                   (User.set_role "politician") (users st))
                (update_rows
                   (fun x => Application.id x
                             =? num_of (Cjs.ApproveReq.application_id req))
                   (Application.set_status "approved")
                   (politician_applications st))
                (insert_row (profile_from 0 a) (politician_profiles st))
                (comments st) (ratings st) (ground_updates st))
         | None => (Sent (mkResponse 404 (JError "Application not found")), st)
         end
    else (Sent (mkResponse 400 (JError "Application ID required")), st).
Proof.
  unfold Cjs.approve_politician, application_of.
  destruct (truthy_num (Cjs.ApproveReq.application_id req)); run_handler;
    [|reflexivity].
  destruct (single _) as [a|]; reflexivity.
Qed.

(** Whatever the status of the application it finds, the CommonJS build
    approves it and inserts one more profile row. *)
Lemma cjs_approve_ignores_status st req a :
  truthy_num (Cjs.ApproveReq.application_id req) = true ->
  application_of st (num_of (Cjs.ApproveReq.application_id req)) = Some a ->
  response_of (Cjs.approve_politician req st)
  = Sent (mkResponse 200 (JMessage "Politician approved successfully"))
  /\ politician_profiles (store_of (Cjs.approve_politician req st))
     = (politician_profiles st
          ++ [profile_from (next_id (politician_profiles st)) a])%list.
Proof.
  intros Hid Ha. rewrite cjs_approve_cases, Hid, Ha. split; reflexivity.
Qed.

(** C3, on the CommonJS build: approving Bob's application a second time,
    when its status is already 'approved', is answered with success and
    writes a second profile row for Bob.  (The ES-module build refuses:
    [esm_approve_refusal_writes_nothing].) *)
Theorem cjs_approve_twice :
  application_of approved_store 1 = Some (bob_application "approved")
  /\ response_of (Cjs.approve_politician (Cjs.ApproveReq.mk (Some 1)) approved_store)
     = Sent (mkResponse 200 (JMessage "Politician approved successfully"))
  /\ profiles_of (store_of (Cjs.approve_politician (Cjs.ApproveReq.mk (Some 1))
                              approved_store)) 2
     = [profile_from 1 (bob_application "approved");
        profile_from 2 (bob_application "approved")]
  /\ store_of (Cjs.approve_politician (Cjs.ApproveReq.mk (Some 1)) approved_store)
     <> approved_store.
Proof.
  repeat split; try reflexivity. intro H. discriminate H.
Qed.

(** On a pending application without a profile yet, the CommonJS build
    reaches the same three postconditions as the ES-module build. *)
Lemma cjs_approval_of_pending st req a :
  truthy_num (Cjs.ApproveReq.application_id req) = true ->
  application_of st (num_of (Cjs.ApproveReq.application_id req)) = Some a ->
  profiles_of st (Application.user_id a) = [] ->
  (forall u, In u (users (store_of (Cjs.approve_politician req st))) ->
             User.id u = Application.user_id a -> User.role u = "politician")
  /\ profiles_of (store_of (Cjs.approve_politician req st)) (Application.user_id a)
     = [profile_from (next_id (politician_profiles st)) a]
  /\ application_of (store_of (Cjs.approve_politician req st))
                    (num_of (Cjs.ApproveReq.application_id req))
     = Some (Application.set_status "approved" a).
Proof.
  intros Hid Ha Hnone. rewrite cjs_approve_cases, Hid, Ha.
  unfold store_of, profiles_of, application_of in *.
  cbn [snd users politician_profiles politician_applications].
  repeat split.
  - intros u Hu Hu'. apply In_update_rows in Hu. destruct Hu as [x [Hx ->]].
    destruct (Z.eqb_spec (User.id x) (Application.user_id a)) as [E|E];
      [reflexivity | contradiction].
  - unfold insert_row. rewrite filter_app, Hnone. cbn.
    rewrite Z.eqb_refl. reflexivity.
  - rewrite (filter_update_rows
               (fun x => Application.id x
                         =? num_of (Cjs.ApproveReq.application_id req))
               (fun x => Application.id x
                         =? num_of (Cjs.ApproveReq.application_id req))).
    + apply single_Some in Ha. rewrite Ha. reflexivity.
    + reflexivity.
    + intros x Hx. exact Hx.
Qed.

(* ----------------------------------------------------------------- *)
(** ** Application status *)

Lemma esm_reject_cases st req :
  Esm.reject_politician req st
  = if fst (Esm.requireAdmin (AdminReq.admin_id req) st)
    then (Sent (mkResponse 200 (JMessage "Rejected")),
          mkStore (users st)
            (update_rows
               (fun x => Application.id x =? AdminReq.application_id req)
               (Application.set_status "rejected")
               (politician_applications st))
            (politician_profiles st) (comments st) (ratings st)
            (ground_updates st))
    else (Sent (mkResponse 403 (JError "Admin only")), st).
Proof.
  unfold Esm.reject_politician.
  unfold bind at 1. rewrite requireAdmin_spec. cbn [fst].
  destruct (match user_of st (AdminReq.admin_id req) with
            | Some u => (User.role u =? "admin")%string
            | None => false
            end); reflexivity.
Qed.

(** Reject writes 'rejected' over whatever status the application has. *)
Lemma esm_reject_overwrites_status st req a :
  is_admin st (AdminReq.admin_id req) ->
  application_of st (AdminReq.application_id req) = Some a ->
  application_of (store_of (Esm.reject_politician req st))
                 (AdminReq.application_id req)
  = Some (Application.set_status "rejected" a).
Proof.
  intros Hadm Ha. rewrite esm_reject_cases, (requireAdmin_is_admin _ _ Hadm).
  unfold store_of, application_of in *.
  cbn [fst snd politician_applications].
  rewrite (filter_update_rows
             (fun x => Application.id x =? AdminReq.application_id req)
             (fun x => Application.id x =? AdminReq.application_id req)).
  - apply single_Some in Ha. rewrite Ha. reflexivity.
  - reflexivity.
  - intros x Hx. exact Hx.
Qed.

(** Approve, in the ES-module build, leaves every application that is not
    pending as it is. *)
Lemma esm_approve_keeps_terminal st req a :
  In a (politician_applications st) ->
  Application.status a <> "pending" ->
  In a (politician_applications (store_of (Esm.approve_politician req st))).
Proof.
  intros Hin Hst. rewrite esm_approve_cases.
  destruct (fst (Esm.requireAdmin (AdminReq.admin_id req) st));
    [|exact Hin].
  destruct (application_of st (AdminReq.application_id req)) as [a0|] eqn:Ha0;
    [|exact Hin].
  destruct (String.eqb_spec (Application.status a0) "pending") as [E|E];
    [|exact Hin].
  unfold store_of. cbn [snd politician_applications].
  apply In_update_rows. exists a. split; [assumption|].
  destruct (Z.eqb_spec (Application.id a) (AdminReq.application_id req))
    as [K|K]; [|reflexivity].
  exfalso. unfold application_of in Ha0. apply single_Some in Ha0.
  assert (Hm : In a (filter (fun x => Application.id x
                                      =? AdminReq.application_id req)
                            (politician_applications st))).
  { apply (proj2 (filter_In _ a (politician_applications st))).
    split; [assumption | apply Z.eqb_eq; assumption]. }
  rewrite Ha0 in Hm. destruct Hm as [<-|[]]. contradiction.
Qed.

(** C4, at the input that breaks it: an admin rejecting Bob's approved
    application turns its status from 'approved' to 'rejected', while Bob
    keeps the role and the verified profile the approval gave him. *)
Theorem reject_after_approve :
  terminal (Application.status (bob_application "approved"))
  /\ application_of approved_store 1 = Some (bob_application "approved")
  /\ response_of (Esm.reject_politician (AdminReq.mk 1 9) approved_store)
     = Sent (mkResponse 200 (JMessage "Rejected"))
  /\ application_of (store_of (Esm.reject_politician (AdminReq.mk 1 9)
                                 approved_store)) 1
     = Some (bob_application "rejected")
  /\ user_of (store_of (Esm.reject_politician (AdminReq.mk 1 9) approved_store)) 2
     = Some (User.set_role "politician" bob)
  /\ profiles_of (store_of (Esm.reject_politician (AdminReq.mk 1 9)
                              approved_store)) 2
     = [profile_from 1 (bob_application "pending")].
Proof.
  repeat split; try reflexivity. left. reflexivity.
Qed.

(* ----------------------------------------------------------------- *)
(** ** Verification and reset codes *)

Lemma verify_email_cases has_column now req st :
  Esm.verify_email has_column now req st
  = match account_by_email st (VerifyEmailReq.email req) with
    | Some u =>
        if strict_neq (User.verify_code u) (VerifyEmailReq.code req)
           || (date_ms (User.verify_code_expires u) <? now)
        then (invalid_code 400, st)
        else (success,
              if has_column
              then mkStore
                     (update_rows
                        (fun x => (User.email x =? VerifyEmailReq.email req)%string)
                        User.set_verified (users st))
                     (politician_applications st) (politician_profiles st)
                     (comments st) (ratings st) (ground_updates st)
              else st)
    | None => (invalid_code 400, st)
    end.
Proof.
  unfold Esm.verify_email, account_by_email. run_handler.
  destruct (single _) as [u|]; [|reflexivity].
  destruct (strict_neq _ _); cbn [orb]; [reflexivity|].
  destruct (_ <? _); [reflexivity|].
  destruct has_column; reflexivity.
Qed.

Lemma reset_password_cases hash now req st :
  Esm.reset_password hash now req st
  = match account_by_email st (ResetPasswordReq.email req) with
    | Some u =>
        if strict_neq (User.reset_code u) (ResetPasswordReq.code req)
           || (date_ms (User.reset_code_expires u) <? now)
        then (invalid_code 200, st)
        else (success,
              mkStore
                (update_rows
                   (fun x => (User.email x =? ResetPasswordReq.email req)%string)
                   (User.set_password (hash (ResetPasswordReq.password req)))
                   (users st))
                (politician_applications st) (politician_profiles st)
                (comments st) (ratings st) (ground_updates st))
    | None => (invalid_code 200, st)
    end.
Proof.
  unfold Esm.reset_password, account_by_email. run_handler.
  destruct (single _) as [u|]; [|reflexivity].
  destruct (strict_neq _ _); cbn [orb]; [reflexivity|].
  destruct (_ <? _); reflexivity.
Qed.

(** No run of verify-email changes the stored expiry of any user. *)
Lemma verify_email_never_clears_expiry has_column now req st :
  map User.verify_code_expires
      (users (store_of (Esm.verify_email has_column now req st)))
  = map User.verify_code_expires (users st).
Proof.
  rewrite verify_email_cases.
  destruct (account_by_email st (VerifyEmailReq.email req)) as [u|];
    [|reflexivity].
  destruct (_ || _); [reflexivity|].
  destruct has_column; [|reflexivity].
  unfold store_of, update_rows. cbn [snd users]. rewrite map_map.
  apply map_ext. intro x. destruct (_ =? _)%string; reflexivity.
Qed.

Example carol_after_registering :
  carol_registered = store_with_users [carol].
Proof. reflexivity. Qed.

(** C5, at the input that breaks it: Carol verifies her email with the
    right code one minute after registering.  The handler answers success,
    and the expiry stored with her code is still there afterwards, whether
    or not the table has the column the handler names. *)
Theorem verify_email_leaves_expiry :
  forall has_column : bool,
    response_of (Esm.verify_email has_column 60000 carol_verifies
                   carol_registered)
    = success
    /\ option_map User.verify_code_expires
         (account_by_email
            (store_of (Esm.verify_email has_column 60000 carol_verifies
                         carol_registered))
            "c@x.com")
       = Some (Some 900000).
Proof. intros [|]; split; reflexivity. Qed.

(** The registration scenario: before verifying, the right password is
    answered by 'Please verify your email first'; a wrong code is refused;
    the right code is accepted; then the login succeeds.  (The table is
    taken to have the column the handler names.) *)
Example register_verify_login :
  response_of (Esm.login sample_compare carol_logs_in carol_registered)
  = Sent (mkResponse 200 (JError "Please verify your email first"))
  /\ response_of (Esm.verify_email true 60000
                    (VerifyEmailReq.mk "c@x.com" "000000") carol_registered)
     = invalid_code 400
  /\ response_of (Esm.verify_email true 60000 carol_verifies carol_registered)
     = success
  /\ response_of (Esm.login sample_compare carol_logs_in
                    (store_of (Esm.verify_email true 60000 carol_verifies
                                 carol_registered)))
     = Sent (mkResponse 200 (JLogin 1 "carol" "c@x.com" "voter")).
Proof. repeat split; reflexivity. Qed.

(** After the 15 minutes the right code is refused as well. *)
Example verify_email_too_late :
  response_of (Esm.verify_email true 900001 carol_verifies carol_registered)
  = invalid_code 400.
Proof. reflexivity. Qed.

(** When the table has the column the handler names, the code itself is
    cleared and the same code is refused afterwards. *)
Lemma verify_email_code_single_use now now' req st :
  response_of (Esm.verify_email true now req st) = success ->
  (exists u, account_by_email st (VerifyEmailReq.email req) = Some u
             /\ account_by_email (store_of (Esm.verify_email true now req st))
                                 (VerifyEmailReq.email req)
                = Some (User.set_verified u))
  /\ response_of (Esm.verify_email true now' req
                    (store_of (Esm.verify_email true now req st)))
     = invalid_code 400.
Proof.
  rewrite verify_email_cases.
  destruct (account_by_email st (VerifyEmailReq.email req)) as [u|] eqn:Hu;
    [|discriminate].
  destruct (_ || _); [discriminate|]. intros _.
  assert (Hafter :
    account_by_email
      (mkStore
         (update_rows (fun x => (User.email x =? VerifyEmailReq.email req)%string)
            User.set_verified (users st))
         (politician_applications st) (politician_profiles st)
         (comments st) (ratings st) (ground_updates st))
      (VerifyEmailReq.email req)
    = Some (User.set_verified u)).
  { unfold account_by_email in *. cbn [users].
    rewrite (filter_update_rows
               (fun x => (User.email x =? VerifyEmailReq.email req)%string)
               (fun x => (User.email x =? VerifyEmailReq.email req)%string)).
    - apply single_Some in Hu. rewrite Hu. reflexivity.
    - reflexivity.
    - intros x Hx. exact Hx. }
  unfold store_of, response_of. cbn [fst snd]. split.
  - exists u. split; [reflexivity | exact Hafter].
  - rewrite verify_email_cases, Hafter. reflexivity.
Qed.


Example dan_resets_once :
  response_of (Esm.reset_password sample_hash 60000 dan_resets
                 (store_with_users [dan]))
  = success
  /\ response_of (Esm.reset_password sample_hash 120000 dan_resets
                    (store_of (Esm.reset_password sample_hash 60000 dan_resets
                                 (store_with_users [dan]))))
     = invalid_code 200.
Proof. split; reflexivity. Qed.

(* ----------------------------------------------------------------- *)
(** ** Applying *)

Lemma apply_politician_cases st req :
  Esm.apply_politician req st
  = if negb (truthy_num (ApplyReq.user_id req))
       || negb (truthy_str (ApplyReq.full_name req))
       || negb (truthy_str (ApplyReq.seat req))
       || negb (truthy_str (ApplyReq.motivation req))
       || negb (truthy_num (ApplyReq.fee req))
    then (Sent (mkResponse 400 (JError "Missing required fields")), st)
    else if negb (str_of (ApplyReq.seat req) =? "President")%string
            && negb (truthy_str (ApplyReq.county req))
    then (Sent (mkResponse 400 (JError "County is required for this seat")), st)
    else match single (applications_by st (num_of (ApplyReq.user_id req))) with
         | Some _ => (already_applied, st)
         | None =>
             (Sent (mkResponse 200
                      (JMessage "Application submitted. Please wait for admin approval.")),
              mkStore (users st)
                (insert_row
                   (Application.mk 0 (num_of (ApplyReq.user_id req))
                      (str_of (ApplyReq.full_name req))
                      (str_of (ApplyReq.seat req))
                      (ApplyReq.county req) (ApplyReq.constituency req)
                      (ApplyReq.party req) (str_of (ApplyReq.motivation req))
                      (num_of (ApplyReq.fee req)) "pending")
                   (politician_applications st))
                (politician_profiles st) (comments st) (ratings st)
                (ground_updates st))
         end.
Proof.
  unfold Esm.apply_politician, applications_by.
  destruct (_ || _); [reflexivity|].
  destruct (_ && _); [reflexivity|].
  run_handler. destruct (single _); reflexivity.
Qed.

Lemma application_fields_valid_guards req :
  application_fields_valid req = true ->
  negb (truthy_num (ApplyReq.user_id req))
  || negb (truthy_str (ApplyReq.full_name req))
  || negb (truthy_str (ApplyReq.seat req))
  || negb (truthy_str (ApplyReq.motivation req))
  || negb (truthy_num (ApplyReq.fee req)) = false
  /\ negb (str_of (ApplyReq.seat req) =? "President")%string
     && negb (truthy_str (ApplyReq.county req)) = false.
Proof.
  unfold application_fields_valid.
  destruct (truthy_num (ApplyReq.user_id req)),
           (truthy_str (ApplyReq.full_name req)),
           (truthy_str (ApplyReq.seat req)),
           (truthy_str (ApplyReq.motivation req)),
           (truthy_num (ApplyReq.fee req)),
           (str_of (ApplyReq.seat req) =? "President")%string,
           (truthy_str (ApplyReq.county req));
    cbn; intro H; try discriminate; split; reflexivity.
Qed.

(** Every refusal of an application leaves the store as it was. *)
Lemma apply_refusal_writes_nothing st req :
  is_error (response_of (Esm.apply_politician req st)) = true ->
  store_of (Esm.apply_politician req st) = st.
Proof.
  rewrite apply_politician_cases.
  destruct (_ || _); [reflexivity|].
  destruct (_ && _); [reflexivity|].
  destruct (single _); [reflexivity|]. cbn. discriminate.
Qed.

Lemma applications_by_insert st uid (a : Application.t) :
  filter (fun x => Application.user_id x =? uid)
         (insert_row a (politician_applications st))
  = (applications_by st uid
     ++ (if Application.user_id a =? uid
         then [Application.set_id (next_id (politician_applications st)) a]
         else []))%list.
Proof.
  unfold insert_row, applications_by. rewrite filter_app. cbn.
  destruct (Application.user_id a =? uid); reflexivity.
Qed.

(** The field validation comes before the duplicate check: a request that
    leaves the motivation out is refused for that, whether or not the user
    has applied before. *)
Example bob_applies_again_response :
  Esm.apply_politician bob_applies_again (campaign_store "pending")
  = (Sent (mkResponse 400 (JError "Missing required fields")),
     campaign_store "pending").
Proof. reflexivity. Qed.

(** `.single()` gives null for two rows as it does for none: on a table
    where a user already has two applications the guard lets a third in. *)
Example third_application_accepted :
  response_of (Esm.apply_politician bob_applies_in_full doubled_store)
  = Sent (mkResponse 200
            (JMessage "Application submitted. Please wait for admin approval."))
  /\ List.length (applications_by
                    (store_of (Esm.apply_politician bob_applies_in_full
                                 doubled_store)) 2)
     = 3%nat.
Proof. split; reflexivity. Qed.

(* ----------------------------------------------------------------- *)
(** ** Reposting a ground update *)

Lemma ground_repost_cases st req :
  Esm.ground_repost req st
  = if negb (truthy_num (RepostReq.user_id req))
       || negb (truthy_num (RepostReq.ground_id req))
    then (Sent (mkResponse 400 (JError "Missing fields")), st)
    else match ground_update_of st (num_of (RepostReq.ground_id req)) with
         | Some original =>
             (reposted,
              mkStore (users st) (politician_applications st)
                (politician_profiles st) (comments st) (ratings st)
                (insert_row
                   (GroundUpdate.mk 0 (num_of (RepostReq.user_id req))
                      (GroundUpdate.location original)
                      (GroundUpdate.category original)
                      (GroundUpdate.content original)
                      (Some (num_of (RepostReq.ground_id req))))
                   (ground_updates st)))
         | None => (Uncaught "TypeError", st)
         end.
Proof.
  unfold Esm.ground_repost, ground_update_of.
  destruct (_ || _); [reflexivity|].
  run_handler. destruct (single _); reflexivity.
Qed.

(** C7.  A repost, with user_id and ground_id supplied, of a source row [x]
    that exists appends one row to ground_updates: location, category and
    content are those [x] has at that moment and repost_of is the id of
    [x].  The row is a copy: whatever edit is later made to the row with the
    id of [x], the repost row stays as it was inserted. *)
Theorem repost_copies_source :
  forall st req x,
    truthy_num (RepostReq.user_id req) = true ->
    truthy_num (RepostReq.ground_id req) = true ->
    ground_update_of st (num_of (RepostReq.ground_id req)) = Some x ->
    response_of (Esm.ground_repost req st) = reposted
    /\ ground_updates (store_of (Esm.ground_repost req st))
       = (ground_updates st
          ++ [repost_row (ground_updates st) (num_of (RepostReq.user_id req)) x])%list
    /\ (forall edit,
          edit_ground_update (GroundUpdate.id x) edit
            (ground_updates (store_of (Esm.ground_repost req st)))
          = (edit_ground_update (GroundUpdate.id x) edit (ground_updates st)
             ++ [repost_row (ground_updates st)
                   (num_of (RepostReq.user_id req)) x])%list).
Proof.
  intros st req x Hu Hg Hx.
  rewrite ground_repost_cases, Hu, Hg, Hx.
  unfold response_of, store_of. cbn [fst snd negb orb ground_updates].
  unfold ground_update_of in Hx. apply single_filter_In in Hx.
  destruct Hx as [Hin Hid]. apply Z.eqb_eq in Hid.
  assert (Hrow : insert_row
                   (GroundUpdate.mk 0 (num_of (RepostReq.user_id req))
                      (GroundUpdate.location x) (GroundUpdate.category x)
                      (GroundUpdate.content x)
                      (Some (num_of (RepostReq.ground_id req))))
                   (ground_updates st)
                 = (ground_updates st
                    ++ [repost_row (ground_updates st)
                          (num_of (RepostReq.user_id req)) x])%list).
  { unfold insert_row, repost_row. rewrite <- Hid. reflexivity. }
  rewrite Hrow. repeat split.
  intro edit. unfold edit_ground_update, update_rows. rewrite map_app.
  cbn [map repost_row GroundUpdate.id].
  pose proof (next_id_above (ground_updates st) x Hin) as Hfresh.
  cbn [pk ground_updates_table] in Hfresh.
  destruct (Z.eqb_spec (next_id (ground_updates st)) (GroundUpdate.id x));
    [lia | reflexivity].
Qed.

Lemma repost_copies_source_witness :
  response_of (Esm.ground_repost (RepostReq.mk (Some 9) (Some 1)) feed_store)
  = reposted
  /\ ground_updates (store_of (Esm.ground_repost (RepostReq.mk (Some 9) (Some 1))
                                 feed_store))
     = [flood_report;
        GroundUpdate.mk 2 9 "Kisumu" "Infrastructure" "Bridge flooded" (Some 1)]
  /\ edit_ground_update 1 retract
       (ground_updates (store_of (Esm.ground_repost
                                    (RepostReq.mk (Some 9) (Some 1)) feed_store)))
     = [retract flood_report;
        GroundUpdate.mk 2 9 "Kisumu" "Infrastructure" "Bridge flooded" (Some 1)].
Proof.
  destruct (repost_copies_source feed_store (RepostReq.mk (Some 9) (Some 1))
              flood_report eq_refl eq_refl eq_refl) as [Hr [Hs He]].
  split; [exact Hr | split; [exact Hs | exact (He retract)]].
Defined.

(** With the fields supplied and no source row, the handler reads a
    property of null: the exception leaves the handler before anything is
    inserted and before any response is sent. *)
Lemma ground_repost_missing_source st req :
  truthy_num (RepostReq.user_id req) = true ->
  truthy_num (RepostReq.ground_id req) = true ->
  ground_update_of st (num_of (RepostReq.ground_id req)) = None ->
  Esm.ground_repost req st = (Uncaught "TypeError", st).
Proof.
  intros Hu Hg Hx. rewrite ground_repost_cases, Hu, Hg, Hx. reflexivity.
Qed.

(** Every run of the handler that is not the success response leaves the
    store as it was. *)
Lemma ground_repost_failure_writes_nothing st req :
  response_of (Esm.ground_repost req st) <> reposted ->
  store_of (Esm.ground_repost req st) = st.
Proof.
  rewrite ground_repost_cases.
  destruct (_ || _); [reflexivity|].
  destruct (ground_update_of _ _); [|reflexivity].
  intro H. exfalso. apply H. reflexivity.
Qed.



(** A repost of ground update 7, which the feed does not hold: the
    handler itself sends nothing. *)
Example repost_of_update_7 :
  ground_update_of feed_store 7 = None
  /\ Esm.ground_repost (RepostReq.mk (Some 9) (Some 7)) feed_store
     = (Uncaught "TypeError", feed_store).
Proof. split; reflexivity. Qed.

(* ----------------------------------------------------------------- *)
(** ** Rating summary *)

Lemma round_half_even_error n d :
  0 < d -> 0 <= n -> 2 * Z.abs (round_half_even n d * d - n) <= d.
Proof.
  intros Hd Hn. unfold round_half_even.
  pose proof (Z.div_mod n d ltac:(lia)) as Hdm.
  pose proof (Z.mod_pos_bound n d Hd) as Hr.
  destruct (2 * (n mod d) <? d) eqn:E1; [apply Z.ltb_lt in E1; nia|].
  apply Z.ltb_ge in E1.
  destruct (d <? 2 * (n mod d)) eqn:E2; [apply Z.ltb_lt in E2; nia|].
  apply Z.ltb_ge in E2.
  destruct (Z.even (n / d)); nia.
Qed.

(** A quotient between 1 and 5 has binary exponent 0 to 3. *)
Lemma log2_quotient_range a b :
  0 < b -> b <= a -> a <= 5 * b -> 0 <= Z.log2 a - Z.log2 b <= 3.
Proof.
  intros Hb Hab Ha5.
  pose proof (Z.log2_le_mono b a Hab) as Hlo.
  assert (Hhi : Z.log2 a <= Z.log2 (b * 2 ^ 3))
    by (apply Z.log2_le_mono; lia).
  rewrite Z.log2_mul_pow2 in Hhi by lia. lia.
Qed.

(** Rounding [a / b] to a significand [m] over [2^s] and then to tenths
    gives tenths nearest to [a / b] itself, as long as the first rounding
    error is small against the gap between [a / b] and a tie. *)
Lemma tenths_nearest (a b m s : Z) :
  0 < b -> 0 <= a -> 10 * b < 2 ^ s -> 0 <= s ->
  2 * Z.abs (m * b - a * 2 ^ s) <= b ->
  2 * Z.abs (10 * a - ((20 * m + 2 ^ s) / (2 * 2 ^ s)) * b) <= b.
Proof.
  intros Hb Ha HP Hs HE.
  set (P := 2 ^ s) in *.
  assert (HPpos : 0 < P) by lia.
  set (n := (20 * m + P) / (2 * P)).
  pose proof (Z.div_mod (20 * m + P) (2 * P) ltac:(lia)) as Hdm.
  pose proof (Z.mod_pos_bound (20 * m + P) (2 * P) ltac:(lia)) as Hr.
  fold n in Hdm.
  set (r := (20 * m + P) mod (2 * P)) in *.
  set (E := m * b - a * P) in *.
  set (G := 20 * a - 2 * n * b).
  assert (HG : P * G = b * (20 * m - 2 * P * n) - 20 * E).
  { unfold G, E. ring. }
  assert (HF : - P <= 20 * m - 2 * P * n < P) by lia.
  assert (Hup : P * G < P * (b + 1)) by nia.
  assert (Hlo : P * (- (b + 1)) < P * G) by nia.
  assert (G < b + 1) by nia.
  assert (- (b + 1) < G) by nia.
  unfold G in *. lia.
Qed.

Lemma scaled_up n d s : 0 <= s -> scaled n d s = (n * 2 ^ s, d).
Proof.
  intro H. unfold scaled. destruct (Z.leb_spec 0 s); [reflexivity | lia].
Qed.

Lemma scaled_down n d s : s < 0 -> scaled n d s = (n, d * 2 ^ (- s)).
Proof.
  intro H. unfold scaled. destruct (Z.leb_spec 0 s); [lia | reflexivity].
Qed.

Lemma tenths_js_div a b :
  0 < b -> b <= a -> a <= 5 * b -> b < 2 ^ 45 ->
  neg (js_div a b) = false
  /\ nearest_tenths (tenths (js_div a b)) a b.
Proof.
  intros Hb Hab Ha5 Hbig. unfold nearest_tenths.
  pose proof (log2_quotient_range a b Hb Hab Ha5) as Hl.
  unfold js_div. rewrite (Z.abs_eq a) by lia.
  destruct (Z.eqb_spec a 0) as [E|_]; [lia|].
  set (s1 := 52 - (Z.log2 a - Z.log2 b)).
  set (s := if 2 ^ 52 <=? fst (scaled a b s1) / snd (scaled a b s1)
            then s1 else s1 + 1).
  assert (Hs : 49 <= s <= 53).
  { unfold s. destruct (_ <=? _); unfold s1; lia. }
  cbn [neg]. split; [apply Z.ltb_ge; lia|].
  unfold tenths. cbn [mant scale].
  rewrite (scaled_down _ 1 (- s)) by lia.
  rewrite (scaled_up a b s) by lia.
  rewrite Z.opp_involutive, Z.mul_1_l. cbn [fst snd].
  assert (HP : 2 ^ 49 <= 2 ^ s) by (apply Z.pow_le_mono_r; lia).
  apply tenths_nearest; try lia.
  apply round_half_even_error; [assumption|].
  apply Z.mul_nonneg_nonneg; lia.
Qed.

Lemma round_half_even_range n d :
  0 < d -> n / d <= round_half_even n d <= n / d + 1.
Proof.
  intro Hd. unfold round_half_even.
  destruct (_ <? _); [lia|]. destruct (_ <? _); [lia|].
  destruct (Z.even _); lia.
Qed.

(** On a tie the significand chosen is the even one. *)
Lemma round_half_even_tie n d :
  0 < d -> 0 <= n ->
  2 * Z.abs (round_half_even n d * d - n) = d ->
  Z.even (round_half_even n d) = true.
Proof.
  intros Hd Hn. unfold round_half_even.
  pose proof (Z.div_mod n d ltac:(lia)) as Hdm.
  pose proof (Z.mod_pos_bound n d Hd) as Hr.
  destruct (2 * (n mod d) <? d) eqn:E1;
    [apply Z.ltb_lt in E1; intro; exfalso; nia|].
  apply Z.ltb_ge in E1.
  destruct (d <? 2 * (n mod d)) eqn:E2;
    [apply Z.ltb_lt in E2; intro; exfalso; nia|].
  destruct (Z.even (n / d)) eqn:Ev; intros _; [exact Ev|].
  rewrite Z.even_add, Ev. reflexivity.
Qed.

(** The quotient of a total by a count, for a mean between 1 and 5: the
    result has a significand of 53 bits, lies within half a unit in the
    last place of the exact quotient, and on a tie has an even
    significand. *)
Lemma js_div_rounds a b :
  0 < b -> b <= a -> a <= 5 * b -> b < 2 ^ 45 ->
  neg (js_div a b) = false
  /\ 49 <= scale (js_div a b) <= 53
  /\ 2 ^ 52 <= mant (js_div a b) < 2 ^ 53
  /\ 2 * Z.abs (mant (js_div a b) * b - a * 2 ^ scale (js_div a b)) <= b
  /\ (2 * Z.abs (mant (js_div a b) * b - a * 2 ^ scale (js_div a b)) = b ->
      Z.even (mant (js_div a b)) = true).
Proof.
  intros Hb Hab Ha5 Hbig.
  pose proof (log2_quotient_range a b Hb Hab Ha5) as Hl.
  pose proof (Z.log2_spec a ltac:(lia)) as Hla.
  pose proof (Z.log2_spec b Hb) as Hlb.
  pose proof (Z.log2_nonneg b) as Hlb0.
  pose proof (Z.log2_nonneg a) as Hla0.
  unfold js_div. rewrite (Z.abs_eq a) by lia.
  destruct (Z.eqb_spec a 0) as [E|_]; [lia|].
  set (s1 := 52 - (Z.log2 a - Z.log2 b)).
  assert (Hs1 : 49 <= s1 <= 52) by (unfold s1; lia).
  rewrite (scaled_up a b s1) by lia. cbn [fst snd].
  assert (B1 : 2 ^ 51 * b < a * 2 ^ s1 /\ a * 2 ^ s1 < 2 ^ 53 * b).
  { assert (E1 : 2 ^ Z.log2 a * 2 ^ s1 = 2 ^ 51 * 2 ^ Z.succ (Z.log2 b)).
    { rewrite <- !Z.pow_add_r by lia. f_equal. unfold s1. lia. }
    assert (E2 : 2 ^ Z.succ (Z.log2 a) * 2 ^ s1 = 2 ^ 53 * 2 ^ Z.log2 b).
    { rewrite <- !Z.pow_add_r by lia. f_equal. unfold s1. lia. }
    assert (HP : 0 < 2 ^ s1) by (apply Z.pow_pos_nonneg; lia).
    split; nia. }
  clearbody s1. clear Hl Hla Hlb Hlb0 Hla0.
  set (s := if 2 ^ 52 <=? a * 2 ^ s1 / b then s1 else s1 + 1).
  assert (Hs : 49 <= s <= 53) by (unfold s; destruct (_ <=? _); lia).
  assert (B2 : 2 ^ 52 * b <= a * 2 ^ s /\ a * 2 ^ s < 2 ^ 53 * b).
  { unfold s. destruct (Z.leb_spec (2 ^ 52) (a * 2 ^ s1 / b)) as [T|T].
    - pose proof (Z.mul_div_le (a * 2 ^ s1) b Hb). nia.
    - assert (a * 2 ^ s1 < 2 ^ 52 * b).
      { destruct (Z.lt_ge_cases (a * 2 ^ s1) (2 ^ 52 * b)) as [L|G];
          [exact L|].
        assert (2 ^ 52 <= a * 2 ^ s1 / b)
          by (apply Z.div_le_lower_bound; lia).
        lia. }
      rewrite Z.pow_add_r by lia. change (2 ^ 1) with 2. lia. }
  rewrite (scaled_up a b s) by lia. cbn [fst snd neg mant scale].
  assert (HN : 0 <= a * 2 ^ s) by (apply Z.mul_nonneg_nonneg; lia).
  pose proof (round_half_even_error (a * 2 ^ s) b Hb HN) as Herr.
  pose proof (round_half_even_tie (a * 2 ^ s) b Hb HN) as Htie.
  pose proof (round_half_even_range (a * 2 ^ s) b Hb) as Hrange.
  assert (Hq : 2 ^ 52 <= a * 2 ^ s / b < 2 ^ 53).
  { split; [apply Z.div_le_lower_bound; lia
           | apply Z.div_lt_upper_bound; lia]. }
  set (m := round_half_even (a * 2 ^ s) b) in *.
  split; [apply Z.ltb_ge; lia|]. split; [exact Hs|].
  split; [|split; [exact Herr | exact Htie]].
  split; [lia|].
  destruct (Z.eq_dec m (2 ^ 53)) as [Em|Em]; [|lia].
  exfalso. rewrite Em in Herr. clear Htie Hrange Hq m Em B1.
  clearbody s.
  assert (Hcases : s = 49 \/ s = 50 \/ s = 51 \/ s = 52 \/ s = 53) by lia.
  destruct Hcases as [->|[->|[->|[->| ->]]]]; lia.
Qed.

(** The tenths printed for [mant / 2^scale]: the integer nearest to ten
    times it, the larger one on a tie. *)
Lemma tenths_bounds x :
  0 < scale x ->
  2 ^ scale x * (2 * tenths x - 1) <= 20 * mant x
  /\ 20 * mant x < 2 ^ scale x * (2 * tenths x + 1).
Proof.
  intro Hs. unfold tenths.
  rewrite (scaled_down _ 1 (- scale x)) by lia.
  rewrite Z.opp_involutive, Z.mul_1_l.
  assert (HP : 0 < 2 ^ scale x) by (apply Z.pow_pos_nonneg; lia).
  set (P := 2 ^ scale x) in *.
  pose proof (Z.div_mod (20 * mant x + P) (2 * P) ltac:(lia)) as Hdm.
  pose proof (Z.mod_pos_bound (20 * mant x + P) (2 * P) ltac:(lia)) as Hr.
  set (n := (20 * mant x + P) / (2 * P)) in *.
  split; nia.
Qed.

Lemma nearest_tenths_range n a b :
  0 < b -> b <= a -> a <= 5 * b -> nearest_tenths n a b -> 10 <= n <= 50.
Proof.
  unfold nearest_tenths. intros Hb Hab Ha5 H. split.
  - destruct (Z.le_gt_cases 10 n) as [L|G]; [exact L|].
    assert (n * b <= 9 * b) by nia. lia.
  - destruct (Z.le_gt_cases n 50) as [L|G]; [exact L|].
    assert (51 * b <= n * b) by nia. lia.
Qed.

(** Between 10 and 50 tenths the print is three characters: the digit of
    the units, a point, the digit of the tenths. *)
Lemma one_decimal_text n :
  10 <= n <= 50 ->
  one_decimal n
  = String (ascii_of_nat (48 + Z.to_nat (n / 10)))
      (String "." (String (ascii_of_nat (48 + Z.to_nat (n mod 10))) "")).
Proof.
  intro H.
  assert (E : n = 10 + Z.of_nat (Z.to_nat (n - 10))) by lia.
  assert (L : (Z.to_nat (n - 10) <= 40)%nat) by lia.
  revert E L. generalize (Z.to_nat (n - 10)) as k. intros k -> L.
  do 41 (destruct k as [|k]; [reflexivity|]). lia.
Qed.

(** The conditions under which the rating summary gives the printed
    tenths determine them: for a mean between 1 and 5 over fewer than 2^45
    rows there is one binary64 nearest to the mean, and one [n] of tenths
    for it. *)
Lemma binary64_tenths_unique a b m1 s1 n1 m2 s2 n2 :
  0 < b -> b < 2 ^ 45 -> b <= a -> a <= 5 * b ->
  0 <= s1 -> 2 ^ 52 <= m1 < 2 ^ 53 ->
  2 * Z.abs (m1 * b - a * 2 ^ s1) <= b ->
  (2 * Z.abs (m1 * b - a * 2 ^ s1) = b -> Z.even m1 = true) ->
  2 ^ s1 * (2 * n1 - 1) <= 20 * m1 < 2 ^ s1 * (2 * n1 + 1) ->
  0 <= s2 -> 2 ^ 52 <= m2 < 2 ^ 53 ->
  2 * Z.abs (m2 * b - a * 2 ^ s2) <= b ->
  (2 * Z.abs (m2 * b - a * 2 ^ s2) = b -> Z.even m2 = true) ->
  2 ^ s2 * (2 * n2 - 1) <= 20 * m2 < 2 ^ s2 * (2 * n2 + 1) ->
  n1 = n2 /\ m1 = m2 /\ s1 = s2.
Proof.
  intros Hb Hbig Hab Ha5 Hs1 Hm1 He1 Ht1 Hn1 Hs2 Hm2 He2 Ht2 Hn2.
  assert (Hmb : forall m, 2 ^ 52 <= m < 2 ^ 53 ->
                          2 ^ 52 * b <= m * b <= (2 ^ 53 - 1) * b).
  { intros m Hm. split; apply Z.mul_le_mono_nonneg_r; lia. }
  assert (Hscale : forall m s, 0 <= s -> 2 ^ 52 <= m < 2 ^ 53 ->
                               2 * Z.abs (m * b - a * 2 ^ s) <= b ->
                               s = 50 \/ s = 51 \/ s = 52).
  { intros m s Hs Hm He. pose proof (Hmb m Hm) as Hmb'.
    assert (HP : 0 < 2 ^ s) by (apply Z.pow_pos_nonneg; lia).
    assert (L1 : 2 ^ 49 < 2 ^ s).
    { destruct (Z.lt_ge_cases (2 ^ 49) (2 ^ s)) as [L|G]; [exact L|].
      exfalso.
      assert (a * 2 ^ s <= 5 * b * 2 ^ 49)
        by (apply Z.mul_le_mono_nonneg; lia).
      lia. }
    assert (L2 : 2 ^ s < 2 ^ 53).
    { destruct (Z.lt_ge_cases (2 ^ s) (2 ^ 53)) as [L|G]; [exact L|].
      exfalso.
      assert (b * 2 ^ 53 <= a * 2 ^ s)
        by (apply Z.mul_le_mono_nonneg; lia).
      lia. }
    apply Z.pow_lt_mono_r_iff in L1; [|lia|lia].
    apply Z.pow_lt_mono_r_iff in L2; [|lia|lia]. lia. }
  pose proof (Hscale m1 s1 Hs1 Hm1 He1) as C1.
  pose proof (Hscale m2 s2 Hs2 Hm2 He2) as C2.
  pose proof (Hmb m1 Hm1) as U. pose proof (Hmb m2 Hm2) as V.
  clear Hscale Hmb.
  assert (Hss : s1 = s2).
  { destruct C1 as [->|[->| ->]]; destruct C2 as [->|[->| ->]];
      try reflexivity; exfalso; lia. }
  subst s2.
  assert (Hmm : m1 = m2).
  { assert (D1 : (m1 - m2) * b <= 1 * b) by lia.
    assert (D2 : (m2 - m1) * b <= 1 * b) by lia.
    apply Z.mul_le_mono_pos_r in D1; [|exact Hb].
    apply Z.mul_le_mono_pos_r in D2; [|exact Hb].
    destruct (Z.eq_dec m1 m2) as [E|E]; [exact E|]. exfalso.
    assert (Em : m1 = m2 + 1 \/ m2 = m1 + 1) by lia.
    destruct Em as [Em|Em]; subst.
    - assert (T1 : 2 * Z.abs ((m2 + 1) * b - a * 2 ^ s1) = b) by lia.
      assert (T2 : 2 * Z.abs (m2 * b - a * 2 ^ s1) = b) by lia.
      specialize (Ht1 T1). specialize (Ht2 T2).
      rewrite Z.even_add, Ht2 in Ht1. discriminate.
    - assert (T1 : 2 * Z.abs (m1 * b - a * 2 ^ s1) = b) by lia.
      assert (T2 : 2 * Z.abs ((m1 + 1) * b - a * 2 ^ s1) = b) by lia.
      specialize (Ht1 T1). specialize (Ht2 T2).
      rewrite Z.even_add, Ht1 in Ht2. discriminate. }
  subst m2. split; [|split; reflexivity].
  assert (HP : 0 < 2 ^ s1) by (apply Z.pow_pos_nonneg; lia).
  assert (A1 : 2 ^ s1 * (2 * n1 - 1) < 2 ^ s1 * (2 * n2 + 1)) by lia.
  assert (A2 : 2 ^ s1 * (2 * n2 - 1) < 2 ^ s1 * (2 * n1 + 1)) by lia.
  apply Z.mul_lt_mono_pos_l in A1; [|exact HP].
  apply Z.mul_lt_mono_pos_l in A2; [|exact HP].
  lia.
Qed.

(** What `(a / b).toFixed(1)` returns for a mean between 1 and 5: the
    text, and the arithmetic that fixes its two digits. *)
Lemma toFixed1_js_div a b :
  0 < b -> b <= a -> a <= 5 * b -> b < 2 ^ 45 ->
  exists n m s,
    toFixed1 (js_div a b)
    = String (ascii_of_nat (48 + Z.to_nat (n / 10)))
        (String "." (String (ascii_of_nat (48 + Z.to_nat (n mod 10))) ""))
    /\ 10 <= n <= 50
    /\ 2 * Z.abs (10 * a - n * b) <= b
    /\ 0 <= s
    /\ 2 ^ 52 <= m < 2 ^ 53
    /\ 2 * Z.abs (m * b - a * 2 ^ s) <= b
    /\ (2 * Z.abs (m * b - a * 2 ^ s) = b -> Z.even m = true)
    /\ 2 ^ s * (2 * n - 1) <= 20 * m < 2 ^ s * (2 * n + 1).
Proof.
  intros Hb Hab Ha5 Hbig.
  destruct (tenths_js_div a b Hb Hab Ha5 Hbig) as [Hneg Hnear].
  destruct (js_div_rounds a b Hb Hab Ha5 Hbig) as [_ [Hs [Hm [He Ht]]]].
  pose proof (tenths_bounds (js_div a b) ltac:(lia)) as Hn.
  pose proof (nearest_tenths_range _ a b Hb Hab Ha5 Hnear) as Hr.
  exists (tenths (js_div a b)), (mant (js_div a b)), (scale (js_div a b)).
  split.
  { unfold toFixed1. rewrite Hneg. cbn [String.append].
    apply one_decimal_text. exact Hr. }
  split; [exact Hr|]. split; [exact Hnear|]. split; [lia|].
  split; [exact Hm|]. split; [exact He|]. split; [exact Ht | exact Hn].
Qed.

(** [js_div] is binary64 division on the quotients of small integers, and
    on a sample of large ones. *)
Example js_div_is_binary64_division :
  forallb (fun b => forallb (fun a => same_binary64 (js_div a b) (binary64_div a b))
                            (upto 100))
          (upto 20)
  = true
  /\ forallb (fun b => forallb (fun a => same_binary64
                                           (js_div (a * 7919 + 13) (b * 104729 + 7))
                                           (binary64_div (a * 7919 + 13)
                                                         (b * 104729 + 7)))
                               (upto 12))
             (upto 12)
     = true
  /\ same_binary64 (js_div 9007199254740991 3) (binary64_div 9007199254740991 3)
     = true.
Proof. split; [|split]; vm_compute; reflexivity. Qed.

Lemma fold_left_total (l : list Rating.t) (acc : Z) :
  fold_left (fun sum r => sum + Rating.rating r) l acc = acc + total_rating l.
Proof.
  unfold total_rating. revert acc.
  induction l as [|r l IH]; intro acc; cbn [fold_left fold_right]; [lia|].
  rewrite IH. lia.
Qed.

Lemma total_rating_bounds (l : list Rating.t) :
  Forall rating_row_valid l ->
  Z.of_nat (List.length l) <= total_rating l <= 5 * Z.of_nat (List.length l).
Proof.
  induction 1 as [|r l [_ Hr] _ IH]; cbn [total_rating fold_right List.length].
  - lia.
  - fold (total_rating l). lia.
Qed.

(** On a valid table the handler's query selects the rows of the target. *)
Lemma summary_query_selects st target_id :
  ratings_valid st ->
  filter (fun r => (Rating.target_type r =? "manifesto")%string
                   && (Rating.target_id r =? target_id)) (ratings st)
  = ratings_for st target_id.
Proof.
  intro Hv. unfold ratings_for. apply filter_ext_in. intros r Hr.
  unfold ratings_valid in Hv. rewrite Forall_forall in Hv.
  destruct (Hv r Hr) as [-> _]. reflexivity.
Qed.

Lemma ratings_summary_cases st target_id :
  Esm.ratings_summary target_id st
  = (let data := filter (fun r => (Rating.target_type r =? "manifesto")%string
                                  && (Rating.target_id r =? target_id))
                        (ratings st) in
     if Z.of_nat (List.length data) =? 0
     then summary (JNum 0) 0
     else summary
            (JStr (toFixed1
                     (js_div (fold_left (fun sum r => sum + Rating.rating r) data 0)
                             (Z.of_nat (List.length data)))))
            (Z.of_nat (List.length data)),
     st).
Proof.
  unfold Esm.ratings_summary, bind, from_select, json, ret, summary.
  cbn [rows ratings_table].
  destruct (_ =? 0); reflexivity.
Qed.

(** C9.  On a table of valid rating rows (fewer than 2^45 of them), the
    summary of a target is a successful response and writes nothing.  With
    no rows for the target it gives average 0 and count 0.  Otherwise
    count is the number of rows of the target and average is a text of
    three characters, the digit of [n / 10], a point and the digit of
    [n mod 10], where [n] tenths are the mean rounded to one decimal:
    [n / 10] is within half a tenth of total / count, and [n] is the
    integer nearest to ten times the binary64 [m / 2^s] nearest to
    total / count (even [m] on a tie), the larger [n] on a tie. *)
Theorem rating_summary_count_and_mean :
  forall st target_id,
    ratings_valid st ->
    Z.of_nat (List.length (ratings st)) < 2 ^ 45 ->
    let data := ratings_for st target_id in
    let count := Z.of_nat (List.length data) in
    let total := total_rating data in
    store_of (Esm.ratings_summary target_id st) = st
    /\ (data = [] ->
        response_of (Esm.ratings_summary target_id st)
        = Sent (mkResponse 200 (JSummary (JNum 0) 0)))
    /\ (data <> [] ->
        exists n m s,
          response_of (Esm.ratings_summary target_id st)
          = Sent (mkResponse 200
                    (JSummary
                       (JStr (String (ascii_of_nat (48 + Z.to_nat (n / 10)))
                                (String "."
                                   (String
                                      (ascii_of_nat (48 + Z.to_nat (n mod 10)))
                                      ""))))
                       count))
          /\ 10 <= n <= 50
          /\ 2 * Z.abs (10 * total - n * count) <= count
          /\ 0 <= s
          /\ 2 ^ 52 <= m < 2 ^ 53
          /\ 2 * Z.abs (m * count - total * 2 ^ s) <= count
          /\ (2 * Z.abs (m * count - total * 2 ^ s) = count ->
              Z.even m = true)
          /\ 2 ^ s * (2 * n - 1) <= 20 * m < 2 ^ s * (2 * n + 1)).
Proof.
  intros st target_id Hv Hsize. cbv zeta.
  rewrite ratings_summary_cases. unfold response_of, store_of.
  cbv zeta. cbn [fst snd]. rewrite (summary_query_selects st target_id Hv).
  assert (Hrows : Forall rating_row_valid (ratings_for st target_id)).
  { unfold ratings_for. apply Forall_forall. intros r Hr.
    apply filter_In in Hr. destruct Hr as [Hr _].
    unfold ratings_valid in Hv. rewrite Forall_forall in Hv. exact (Hv r Hr). }
  assert (Hlen : (List.length (ratings_for st target_id)
                  <= List.length (ratings st))%nat)
    by apply filter_length_le.
  pose proof (total_rating_bounds _ Hrows) as Hb.
  destruct (ratings_for st target_id) as [|r rows] eqn:E.
  - split; [reflexivity|]. split; [reflexivity|].
    intro H. exfalso. apply H. reflexivity.
  - destruct (Z.eqb_spec (Z.of_nat (List.length (r :: rows))) 0) as [C|C];
      [cbn [List.length] in C; lia|].
    split; [reflexivity|]. split; [discriminate|]. intros _.
    rewrite fold_left_total, Z.add_0_l.
    destruct (toFixed1_js_div (total_rating (r :: rows))
                (Z.of_nat (List.length (r :: rows))))
      as [n [m [s [Htext Hrest]]]]; try lia.
    exists n, m, s. split; [|exact Hrest].
    unfold summary. rewrite Htext. reflexivity.
Qed.

Lemma rating_summary_count_and_mean_witness :
  let data := ratings_for (ratings_store three_ratings) 5 in
  let count := Z.of_nat (List.length data) in
  let total := total_rating data in
  store_of (Esm.ratings_summary 5 (ratings_store three_ratings))
  = ratings_store three_ratings
  /\ (data = [] ->
      response_of (Esm.ratings_summary 5 (ratings_store three_ratings))
      = Sent (mkResponse 200 (JSummary (JNum 0) 0)))
  /\ (data <> [] ->
      exists n m s,
        response_of (Esm.ratings_summary 5 (ratings_store three_ratings))
        = Sent (mkResponse 200
                  (JSummary
                     (JStr (String (ascii_of_nat (48 + Z.to_nat (n / 10)))
                              (String "."
                                 (String
                                    (ascii_of_nat (48 + Z.to_nat (n mod 10)))
                                    ""))))
                     count))
        /\ 10 <= n <= 50
        /\ 2 * Z.abs (10 * total - n * count) <= count
        /\ 0 <= s
        /\ 2 ^ 52 <= m < 2 ^ 53
        /\ 2 * Z.abs (m * count - total * 2 ^ s) <= count
        /\ (2 * Z.abs (m * count - total * 2 ^ s) = count ->
            Z.even m = true)
        /\ 2 ^ s * (2 * n - 1) <= 20 * m < 2 ^ s * (2 * n + 1)).
Proof.
  apply (rating_summary_count_and_mean (ratings_store three_ratings) 5).
  - repeat constructor; cbn; lia.
  - cbn. lia.
Defined.

(** Three ratings 4, 5 and 4 of manifesto 5: mean 4.33, printed "4.3". *)
Example summary_of_three :
  response_of (Esm.ratings_summary 5 (ratings_store three_ratings))
  = summary (JStr "4.3") 3.
Proof. vm_compute. reflexivity. Qed.

Example summary_of_none :
  response_of (Esm.ratings_summary 7 (ratings_store three_ratings))
  = summary (JNum 0) 0.
Proof. vm_compute. reflexivity. Qed.

(** A mean of exactly 1.45 is a tie between 1.4 and 1.5; the binary64
    nearest to 29/20 lies below it and the summary prints "1.4". *)
Example summary_of_a_tie :
  total_rating (ratings_for (ratings_store twenty_ratings) 8) = 29
  /\ response_of (Esm.ratings_summary 8 (ratings_store twenty_ratings))
     = summary (JStr "1.4") 20.
Proof. split; vm_compute; reflexivity. Qed.

(** A mean of exactly 1.25 is a tie that binary64 holds exactly; the
    summary prints the larger tenth, "1.3". *)
Example summary_of_an_exact_tie :
  total_rating (ratings_for (ratings_store four_ratings) 9) = 5
  /\ response_of (Esm.ratings_summary 9 (ratings_store four_ratings))
     = summary (JStr "1.3") 4.
Proof. split; vm_compute; reflexivity. Qed.

(* ----------------------------------------------------------------- *)
(** ** Target type of comments and ratings *)

Lemma In_insert_row {R : Type} `{Table R} (new r : R) (l : list R) :
  In r (insert_row new l) -> In r l \/ r = set_pk (next_id l) new.
Proof.
  unfold insert_row. intro Hin. apply in_app_or in Hin.
  destruct Hin as [Hin|[<-|[]]]; [left; assumption | right; reflexivity].
Qed.

Lemma In_upsert_row {R : Type} `{Table R} (same_key : R -> R -> bool)
    (new r : R) (l : list R) :
  In r (upsert_row same_key new l) -> In r l \/ exists i, r = set_pk i new.
Proof.
  unfold upsert_row. destruct (existsb (same_key new) l).
  - intro Hin. apply In_update_rows in Hin. destruct Hin as [x [Hx ->]].
    destruct (same_key new x); [right; exists (pk x); reflexivity
                               | left; assumption].
  - intro Hin. apply In_insert_row in Hin.
    destruct Hin as [Hin| ->]; [left; assumption
                               | right; exists (next_id l); reflexivity].
Qed.

Lemma comment_cases toLowerCase req st :
  Esm.comment toLowerCase req st
  = if negb (truthy_num (CommentReq.user_id req))
       || negb (truthy_num (CommentReq.target_id req))
       || negb (truthy_str (CommentReq.content req))
    then (Sent (mkResponse 400 (JError "All fields required")), st)
    else if existsb (fun word =>
                       includes (toLowerCase (str_of (CommentReq.content req))) word)
                    bannedWords
    then (Sent (mkResponse 400 (JError "Comment violates community rules")), st)
    else match user_of st (num_of (CommentReq.user_id req)) with
         | Some _ =>
             (Sent (mkResponse 200 (JMessage "Comment posted successfully")),
              mkStore (users st) (politician_applications st)
                (politician_profiles st)
                (insert_row
                   (Comment.mk 0 (num_of (CommentReq.user_id req)) "manifesto"
                      (num_of (CommentReq.target_id req))
                      (str_of (CommentReq.content req)))
                   (comments st))
                (ratings st) (ground_updates st))
         | None => (Sent (mkResponse 404 (JError "User not found")), st)
         end.
Proof.
  unfold Esm.comment, user_of.
  destruct (_ || _); [reflexivity|].
  destruct (existsb _ _); [reflexivity|].
  unfold bind, from_single, from_insert, json, ret.
  cbn [rows put users_table comments_table].
  destruct (single _); reflexivity.
Qed.

Lemma rate_cases req st :
  Esm.rate req st
  = if negb (truthy_num (RateReq.user_id req))
       || negb (truthy_num (RateReq.target_id req))
       || negb (truthy_num (RateReq.rating req))
    then (Sent (mkResponse 400 (JError "Missing fields")), st)
    else if (num_of (RateReq.rating req) <? 1) || (5 <? num_of (RateReq.rating req))
    then (Sent (mkResponse 400 (JError "Rating must be between 1 and 5")), st)
    else (Sent (mkResponse 200 (JMessage "Rating saved")),
          mkStore (users st) (politician_applications st)
            (politician_profiles st) (comments st)
            (upsert_row same_rating_key
               (Rating.mk 0 (num_of (RateReq.user_id req)) "manifesto"
                  (num_of (RateReq.target_id req)) (num_of (RateReq.rating req)))
               (ratings st))
            (ground_updates st)).
Proof.
  unfold Esm.rate.
  destruct (_ || _); [reflexivity|].
  destruct (_ || _); reflexivity.
Qed.

(** C10.  Whatever a comment or rating request carries, every row the
    handler adds to or rewrites in its table has target_type 'manifesto';
    a target_type sent by the caller changes neither the response nor the
    store. *)
Theorem annotations_target_manifesto :
  forall (toLowerCase : string -> string) st,
    (forall req c,
        In c (comments (store_of (Esm.comment toLowerCase req st))) ->
        In c (comments st) \/ Comment.target_type c = "manifesto")
    /\ (forall req r,
          In r (ratings (store_of (Esm.rate req st))) ->
          In r (ratings st) \/ Rating.target_type r = "manifesto")
    /\ (forall user_id target_id content sent sent',
          Esm.comment toLowerCase
            (CommentReq.mk user_id target_id content sent) st
          = Esm.comment toLowerCase
              (CommentReq.mk user_id target_id content sent') st)
    /\ (forall user_id target_id rating sent sent',
          Esm.rate (RateReq.mk user_id target_id rating sent) st
          = Esm.rate (RateReq.mk user_id target_id rating sent') st).
Proof.
  intros toLowerCase st. repeat split.
  - intros req c. rewrite comment_cases.
    destruct (_ || _); [left; assumption|].
    destruct (existsb _ _); [left; assumption|].
    destruct (user_of _ _); [|left; assumption].
    unfold store_of. cbn [snd comments]. intro Hin.
    apply In_insert_row in Hin.
    destruct Hin as [Hin| ->]; [left; assumption | right; reflexivity].
  - intros req r. rewrite rate_cases.
    destruct (_ || _); [left; assumption|].
    destruct (_ || _); [left; assumption|].
    unfold store_of. cbn [snd ratings]. intro Hin.
    apply In_upsert_row in Hin.
    destruct Hin as [Hin|[i ->]]; [left; assumption | right; reflexivity].
Qed.

Lemma annotations_target_manifesto_witness :
  In (Comment.mk 1 2 "manifesto" 5 "Good plan")
     (comments (store_of (Esm.comment lower comment_on_event feed_store)))
  /\ (In (Comment.mk 1 2 "manifesto" 5 "Good plan") (comments feed_store)
      \/ Comment.target_type (Comment.mk 1 2 "manifesto" 5 "Good plan")
         = "manifesto").
Proof.
  split; [left; reflexivity|].
  apply (proj1 (annotations_target_manifesto lower feed_store)
           comment_on_event).
  left. reflexivity.
Defined.

Example comment_on_event_stored_as_manifesto :
  comments (store_of (Esm.comment lower comment_on_event feed_store))
  = [Comment.mk 1 2 "manifesto" 5 "Good plan"].
Proof. reflexivity. Qed.

(** The word filter is a hard refusal, case-insensitive. *)
Example comment_with_banned_word :
  Esm.comment lower
    (CommentReq.mk (Some 2) (Some 5) (Some "I HATE this plan") None) feed_store
  = (Sent (mkResponse 400 (JError "Comment violates community rules")),
     feed_store).
Proof. reflexivity. Qed.

Example rate_event_stored_as_manifesto :
  ratings (store_of (Esm.rate rate_event feed_store))
  = [Rating.mk 1 2 "manifesto" 5 4].
Proof. reflexivity. Qed.

(** POST /rate keeps the rating table valid, which is what the summary
    relies on. *)
Lemma rate_keeps_ratings_valid req st :
  ratings_valid st -> ratings_valid (store_of (Esm.rate req st)).
Proof.
  unfold ratings_valid. intro Hv. rewrite rate_cases.
  destruct (_ || _); [assumption|].
  destruct (Z.ltb_spec (num_of (RateReq.rating req)) 1) as [L|L];
    [assumption|].
  destruct (Z.ltb_spec 5 (num_of (RateReq.rating req))) as [U|U];
    [assumption|].
  unfold store_of. cbn [orb snd ratings].
  apply Forall_forall. intros r Hin. apply In_upsert_row in Hin.
  destruct Hin as [Hin|[i ->]].
  - rewrite Forall_forall in Hv. exact (Hv r Hin).
  - split; cbn; [reflexivity | lia].
Qed.

(** A second rating by the same user of the same target overwrites the
    first instead of adding a row. *)
Example rate_twice_one_row :
  ratings (store_of (Esm.rate (RateReq.mk (Some 2) (Some 5) (Some 2) None)
                       (store_of (Esm.rate rate_event feed_store))))
  = [Rating.mk 1 2 "manifesto" 5 2].
Proof. reflexivity. Qed.

(* ----------------------------------------------------------------- *)
(** ** Runs of the service *)

Lemma filter_update_rows_length {R : Type} (p q : R -> bool) (f : R -> R)
    (l : list R) :
  (forall x, q (f x) = q x) ->
  List.length (filter q (update_rows p f l)) = List.length (filter q l).
Proof.
  intro Hq. unfold update_rows. induction l as [|x l IH]; cbn; [reflexivity|].
  destruct (p x); [rewrite Hq|]; destruct (q x); cbn; rewrite IH; reflexivity.
Qed.

Lemma update_status_keeps_one_per_user p s st l' :
  one_application_per_user st ->
  l' = update_rows p (Application.set_status s) (politician_applications st) ->
  forall uid : Z,
    (List.length (filter (fun a => (Application.user_id a =? uid)%Z) l') <= 1)%nat.
Proof.
  intros Hone -> uid.
  rewrite (filter_update_rows_length p
             (fun a => Application.user_id a =? uid)); [apply Hone|].
  intro x. reflexivity.
Qed.

Lemma upsert_profile_keeps_unique (r : Profile.t) (l : list Profile.t) :
  NoDup (map Profile.user_id l) ->
  NoDup (map Profile.user_id (upsert_row same_profile_key r l)).
Proof.
  intro Hnd. unfold upsert_row.
  destruct (existsb (same_profile_key r) l) eqn:Ex.
  - replace (map Profile.user_id
               (update_rows (same_profile_key r)
                  (fun old => set_pk (pk old) r) l))
      with (map Profile.user_id l); [assumption|].
    unfold update_rows. rewrite map_map. apply map_ext. intro x.
    unfold same_profile_key. destruct (Z.eqb_spec (Profile.user_id r)
                                                  (Profile.user_id x)) as [E|E];
      [cbn; symmetry; exact E | reflexivity].
  - unfold insert_row. rewrite map_app. apply NoDup_app.
    + assumption.
    + cbn. constructor; [intros [] | constructor].
    + intros k Hk [Hr|[]]. cbn in Hr. subst k.
      apply in_map_iff in Hk. destruct Hk as [x [Hx Hin]].
      assert (Ex' : existsb (same_profile_key r) l = true).
      { apply existsb_exists. exists x. split; [assumption|].
        unfold same_profile_key. rewrite Hx. apply Z.eqb_refl. }
      congruence.
Qed.

Lemma apply_keeps_one_per_user st req :
  one_application_per_user st ->
  one_application_per_user (store_of (Esm.apply_politician req st)).
Proof.
  intro Hone. rewrite apply_politician_cases.
  destruct (_ || _); [exact Hone|].
  destruct (_ && _); [exact Hone|].
  destruct (single _) eqn:Hs; [exact Hone|].
  intro uid. unfold store_of. cbn [snd].
  unfold applications_by at 1. cbn [politician_applications].
  rewrite applications_by_insert. cbn [Application.user_id].
  destruct (Z.eqb_spec (num_of (ApplyReq.user_id req)) uid) as [E|E].
  - subst uid. specialize (Hone (num_of (ApplyReq.user_id req))).
    destruct (applications_by st (num_of (ApplyReq.user_id req)))
      as [|x [|y l]]; cbn in *; [lia | discriminate | lia].
  - rewrite app_nil_r. apply Hone.
Qed.

Lemma post_ground_update_cases req st :
  Esm.post_ground_update req st
  = if negb (truthy_num (GroundUpdateReq.user_id req))
       || negb (truthy_str (GroundUpdateReq.location req))
       || negb (truthy_str (GroundUpdateReq.category req))
       || negb (truthy_str (GroundUpdateReq.content req))
    then (Sent (mkResponse 400 (JError "All fields required")), st)
    else (Sent (mkResponse 200 (JMessage "Update posted")),
          mkStore (users st) (politician_applications st)
            (politician_profiles st) (comments st) (ratings st)
            (insert_row
               (GroundUpdate.mk 0 (num_of (GroundUpdateReq.user_id req))
                  (str_of (GroundUpdateReq.location req))
                  (str_of (GroundUpdateReq.category req))
                  (str_of (GroundUpdateReq.content req)) None)
               (ground_updates st))).
Proof.
  unfold Esm.post_ground_update. destruct (_ || _); reflexivity.
Qed.

(** A handler that leaves the three tables of the invariant alone keeps
    the invariant. *)
Lemma invariant_same_tables st st' :
  politician_applications st' = politician_applications st ->
  politician_profiles st' = politician_profiles st ->
  ratings st' = ratings st ->
  campaign_invariant st -> campaign_invariant st'.
Proof.
  intros Ha Hp Hr [I1 I2 I3]. constructor.
  - intro uid. unfold applications_by. rewrite Ha. apply I1.
  - unfold one_profile_per_user. rewrite Hp. exact I2.
  - unfold ratings_valid. rewrite Hr. exact I3.
Qed.

Lemma step_keeps_invariant st st' :
  step st st' -> campaign_invariant st -> campaign_invariant st'.
Proof.
  intros Hstep Hinv. destruct Hstep.
  - apply (invariant_same_tables st); [| | |assumption];
      unfold Esm.register, from_insert_user; run_handler;
      destruct (existsb _ _); try reflexivity; destruct delivered; reflexivity.
  - apply (invariant_same_tables st); [| | |assumption];
      unfold Esm.forgot_password; run_handler;
      destruct (single _); try reflexivity; destruct delivered; reflexivity.
  - apply (invariant_same_tables st); [| | |assumption];
      rewrite verify_email_cases;
      destruct (account_by_email _ _); try reflexivity;
      destruct (_ || _); try reflexivity;
      destruct has_column; reflexivity.
  - apply (invariant_same_tables st); [| | |assumption];
      rewrite reset_password_cases;
      destruct (account_by_email _ _); try reflexivity;
      destruct (_ || _); reflexivity.
  - destruct Hinv as [I1 I2 I3]. constructor.
    + apply apply_keeps_one_per_user. assumption.
    + unfold one_profile_per_user. rewrite apply_politician_cases.
      destruct (_ || _); [exact I2|]. destruct (_ && _); [exact I2|].
      destruct (single _); exact I2.
    + unfold ratings_valid. rewrite apply_politician_cases.
      destruct (_ || _); [exact I3|]. destruct (_ && _); [exact I3|].
      destruct (single _); exact I3.
  - destruct Hinv as [I1 I2 I3]. rewrite esm_approve_cases.
    destruct (fst _); [|constructor; assumption].
    destruct (application_of _ _) as [a|]; [|constructor; assumption].
    destruct (_ =? _)%string; [|constructor; assumption].
    constructor.
    + intro uid. unfold applications_by, store_of.
      cbn [snd politician_applications].
      eapply update_status_keeps_one_per_user; [exact I1 | reflexivity].
    + unfold one_profile_per_user, store_of. cbn [snd politician_profiles].
      apply upsert_profile_keeps_unique. exact I2.
    + exact I3.
  - destruct Hinv as [I1 I2 I3]. rewrite esm_reject_cases.
    destruct (fst _); [|constructor; assumption].
    constructor; [|exact I2|exact I3].
    intro uid. unfold applications_by, store_of.
    cbn [snd politician_applications].
    eapply update_status_keeps_one_per_user; [exact I1 | reflexivity].
  - apply (invariant_same_tables st); [| | |assumption];
      rewrite comment_cases;
      destruct (_ || _); try reflexivity;
      destruct (existsb _ _); try reflexivity;
      destruct (user_of _ _); reflexivity.
  - destruct Hinv as [I1 I2 I3]. constructor.
    + intro uid. unfold applications_by. rewrite rate_cases.
      destruct (_ || _); [apply I1|]. destruct (_ || _); apply I1.
    + unfold one_profile_per_user. rewrite rate_cases.
      destruct (_ || _); [exact I2|]. destruct (_ || _); exact I2.
    + apply rate_keeps_ratings_valid. exact I3.
  - apply (invariant_same_tables st); [| | |assumption];
      rewrite post_ground_update_cases; destruct (_ || _); reflexivity.
  - apply (invariant_same_tables st); [| | |assumption];
      rewrite ground_repost_cases;
      destruct (_ || _); try reflexivity;
      destruct (ground_update_of _ _); reflexivity.
Qed.

(** Every store of a run has at most one application per user, one
    profile per user, and valid ratings. *)
Lemma reachable_invariant st : reachable st -> campaign_invariant st.
Proof.
  induction 1 as [st [Ha [Hp [_ [Hr _]]]] | st st' _ IH Hstep].
  - constructor.
    + intro uid. unfold applications_by. rewrite Ha. cbn. lia.
    + unfold one_profile_per_user. rewrite Hp. constructor.
    + unfold ratings_valid. rewrite Hr. constructor.
  - exact (step_keeps_invariant st st' Hstep IH).
Qed.

(** C6.  In every store of a run each user has at most one application.
    A request with its required fields, for a user who has an application
    row of whatever status, is answered by the conflict error 'You have
    already submitted an application' and the store is unchanged; and any
    request for such a user, with or without its required fields, is
    refused without a write. *)
Theorem apply_once_per_user :
  forall st,
    reachable st ->
    one_application_per_user st
    /\ (forall req a,
          application_fields_valid req = true ->
          In a (politician_applications st) ->
          ApplyReq.user_id req = Some (Application.user_id a) ->
          Esm.apply_politician req st = (already_applied, st))
    /\ (forall req a,
          In a (politician_applications st) ->
          ApplyReq.user_id req = Some (Application.user_id a) ->
          is_error (response_of (Esm.apply_politician req st)) = true
          /\ store_of (Esm.apply_politician req st) = st).
Proof.
  intros st Hreach.
  pose proof (inv_applications st (reachable_invariant st Hreach)) as Hone.
  assert (Hsingle : forall req a, In a (politician_applications st) ->
            ApplyReq.user_id req = Some (Application.user_id a) ->
            single (applications_by st (num_of (ApplyReq.user_id req))) = Some a).
  { intros req a Hin Hid. rewrite Hid. cbn [num_of].
    pose proof (Hone (Application.user_id a)) as Hlen.
    assert (Hm : In a (applications_by st (Application.user_id a))).
    { apply (proj2 (filter_In _ a (politician_applications st))).
      split; [assumption | apply Z.eqb_refl]. }
    destruct (applications_by st (Application.user_id a)) as [|x [|y l]];
      cbn in *; [contradiction | | lia].
    destruct Hm as [->|[]]. reflexivity. }
  split; [exact Hone|]. split.
  - intros req a Hv Hin Hid. rewrite apply_politician_cases.
    destruct (application_fields_valid_guards req Hv) as [-> ->].
    rewrite (Hsingle req a Hin Hid). reflexivity.
  - intros req a Hin Hid. rewrite apply_politician_cases.
    destruct (_ || _); [split; reflexivity|].
    destruct (_ && _); [split; reflexivity|].
    rewrite (Hsingle req a Hin Hid). split; reflexivity.
Qed.

(** The run in which Bob applies and an admin rejects him. *)
Lemma rejected_campaign_reachable : reachable (campaign_store "rejected").
Proof.
  apply (reach_step (campaign_store "pending")).
  - apply (reach_step (store_with_users [root; bob])).
    + apply reach_start. repeat split.
    + exact (step_apply bob_applies (store_with_users [root; bob])).
  - exact (step_reject (AdminReq.mk 1 9) (campaign_store "pending")).
Defined.

Lemma apply_once_per_user_witness :
  reachable (campaign_store "rejected")
  /\ one_application_per_user (campaign_store "rejected")
  /\ Esm.apply_politician bob_applies_in_full (campaign_store "rejected")
     = (already_applied, campaign_store "rejected").
Proof.
  destruct (apply_once_per_user (campaign_store "rejected")
              rejected_campaign_reachable) as [Hone [Hc _]].
  split; [exact rejected_campaign_reachable | split; [exact Hone|]].
  apply (Hc bob_applies_in_full (bob_application "rejected")).
  - reflexivity.
  - left. reflexivity.
  - reflexivity.
Defined.



(* ================================================================= *)
(** * Further properties *)

(* ----------------------------------------------------------------- *)
(** ** The admin gate *)

Lemma requireAdmin_not_admin st admin_id :
  ~ is_admin st admin_id -> Esm.requireAdmin admin_id st = (false, st).
Proof.
  intro H. rewrite requireAdmin_spec.
  destruct (user_of st admin_id) as [u|] eqn:Hu; [|reflexivity].
  destruct (String.eqb_spec (User.role u) "admin") as [E|E]; [|reflexivity].
  exfalso. apply H. exists u. split; [assumption | exact E].
Qed.

(** X1.  A caller whose admin_id does not name a user of role 'admin' is
    answered 403 'Admin only' by approve and by reject, and neither
    writes anything. *)
Theorem admin_gate_refuses :
  forall st req,
    ~ is_admin st (AdminReq.admin_id req) ->
    Esm.approve_politician req st = (admin_only, st)
    /\ Esm.reject_politician req st = (admin_only, st).
Proof.
  intros st req H. split.
  - rewrite esm_approve_cases, (requireAdmin_not_admin _ _ H). reflexivity.
  - rewrite esm_reject_cases, (requireAdmin_not_admin _ _ H). reflexivity.
Qed.

Lemma admin_gate_refuses_witness :
  Esm.approve_politician bob_approves (campaign_store "pending")
  = (admin_only, campaign_store "pending")
  /\ Esm.reject_politician bob_approves (campaign_store "pending")
     = (admin_only, campaign_store "pending").
Proof.
  apply (admin_gate_refuses (campaign_store "pending") bob_approves).
  intros [u [Hu Hr]]. vm_compute in Hu. injection Hu as <-. discriminate Hr.
Defined.

(* ----------------------------------------------------------------- *)
(** ** Accounts *)

Lemma filter_fresh_id {R : Type} `{Table R} (l : list R) :
  filter (fun r => pk r =? next_id l) l = [].
Proof.
  apply (filter_absent_key pk). intro Hin.
  apply in_map_iff in Hin. destruct Hin as [r [Hr Hin]].
  pose proof (next_id_above l r Hin). lia.
Qed.

Lemma filter_email_unused st email :
  email_unused st email ->
  filter (fun u => (User.email u =? email)%string) (users st) = [].
Proof.
  unfold email_unused. induction (users st) as [|x l IH]; intro H; cbn;
    [reflexivity|].
  destruct (String.eqb_spec (User.email x) email) as [E|E].
  - exfalso. exact (H x (or_introl eq_refl) E).
  - apply IH. intros u Hu. apply H. right. assumption.
Qed.

Lemma register_cases hash active taken now code delivered req st :
  Esm.register hash active taken now code delivered req st
  = if existsb (fun u => (User.email u =? RegisterReq.email req)%string)
               (users st)
    then (Sent (mkResponse 400 (JError taken)), st)
    else (if delivered then success else Uncaught "Error: Email failed",
          with_users
            (users st
             ++ [registered_row hash active now code req (users st)])%list
            st).
Proof.
  unfold Esm.register, Esm.in_15_minutes, from_insert_user. run_handler.
  cbn [User.email].
  destruct (existsb _ _); [reflexivity|]. destruct delivered; reflexivity.
Qed.

Lemma existsb_email_unused st email :
  email_unused st email ->
  existsb (fun u => (User.email u =? email)%string) (users st) = false.
Proof.
  intro H. apply existsb_filter_nil. apply filter_email_unused. exact H.
Qed.

Lemma register_unused hash active taken now code delivered req st :
  email_unused st (RegisterReq.email req) ->
  Esm.register hash active taken now code delivered req st
  = (if delivered then success else Uncaught "Error: Email failed",
     with_users
       (users st ++ [registered_row hash active now code req (users st)])%list
       st).
Proof.
  intro H. rewrite register_cases, (existsb_email_unused st _ H). reflexivity.
Qed.

(** An email that is taken: the registration is refused with the message
    of the store and nothing is written. *)
Example carol_registers_twice :
  Esm.register sample_hash true email_taken 5 "111111" true carol_registers
    carol_registered
  = (Sent (mkResponse 400 (JError email_taken)), carol_registered).
Proof. reflexivity. Qed.

Lemma esm_login_cases compare req st :
  Esm.login compare req st
  = (if negb (truthy_str (LoginReq.email req))
        || negb (truthy_str (LoginReq.password req))
     then Sent (mkResponse 400 (JError "Email and password are required"))
     else match account_of st req with
          | None => credential_failure
          | Some u =>
              if negb (User.is_active u) then account_suspended
              else if negb (compare (str_of (LoginReq.password req))
                                    (User.password_hash u))
              then credential_failure
              else if negb (User.email_verified u) then verify_first
              else logged_in u
          end,
     st).
Proof.
  unfold Esm.login, account_of, account_by_email.
  destruct (_ || _); [reflexivity|].
  unfold bind, from_single, json, ret. cbn [rows users_table].
  destruct (single _) as [u|]; [|reflexivity].
  destruct (User.is_active u); [|reflexivity].
  destruct (compare _ _); [|reflexivity].
  destruct (User.email_verified u); reflexivity.
Qed.

Lemma cjs_login_cases compare req st :
  Cjs.login compare req st
  = (if negb (truthy_str (LoginReq.email req))
        || negb (truthy_str (LoginReq.password req))
     then Sent (mkResponse 400 (JError "Email and password are required"))
     else match account_of st req with
          | None => credential_failure
          | Some u =>
              if negb (User.is_active u) then account_suspended
              else if negb (compare (str_of (LoginReq.password req))
                                    (User.password_hash u))
              then credential_failure
              else logged_in u
          end,
     st).
Proof.
  unfold Cjs.login, account_of, account_by_email.
  destruct (_ || _); [reflexivity|].
  unfold bind, from_single, json, ret. cbn [rows users_table].
  destruct (single _) as [u|]; [|reflexivity].
  destruct (User.is_active u); [|reflexivity].
  destruct (compare _ _); reflexivity.
Qed.

(** X2.  Login of the ES-module build writes nothing, whatever it
    answers; and an answer that carries a user's identity was made for an
    account that exists, is active, has its email verified and whose
    stored hash verifies the supplied password, the identity being that
    account's. *)
Theorem login_success_is_authenticated :
  forall (compare : string -> string -> bool) st req,
    store_of (Esm.login compare req st) = st
    /\ (forall id username email role,
          response_of (Esm.login compare req st)
          = Sent (mkResponse 200 (JLogin id username email role)) ->
          exists u,
            account_of st req = Some u
            /\ User.is_active u = true
            /\ User.email_verified u = true
            /\ compare (str_of (LoginReq.password req)) (User.password_hash u)
               = true
            /\ id = User.id u /\ username = User.username u
            /\ email = User.email u /\ role = User.role u).
Proof.
  intros compare st req.
  rewrite esm_login_cases. unfold response_of, store_of. cbn [fst snd].
  destruct (_ || _); [split; [reflexivity | discriminate]|].
  destruct (account_of st req) as [u|]; [|split; [reflexivity | discriminate]].
  destruct (User.is_active u) eqn:Ha; [|split; [reflexivity | discriminate]].
  destruct (compare _ _) eqn:Hc; [|split; [reflexivity | discriminate]].
  destruct (User.email_verified u) eqn:Hv;
    [|split; [reflexivity | discriminate]].
  cbn [negb fst snd]. split; [reflexivity|].
  unfold logged_in. intros id username email role H.
  injection H as <- <- <- <-.
  exists u. repeat split; assumption.
Qed.

Lemma login_success_is_authenticated_witness :
  store_of (Esm.login sample_compare carol_logs_in carol_verified)
  = carol_verified
  /\ exists u,
       account_of carol_verified carol_logs_in = Some u
       /\ User.is_active u = true
       /\ User.email_verified u = true
       /\ sample_compare (str_of (LoginReq.password carol_logs_in))
                         (User.password_hash u) = true
       /\ 1 = User.id u /\ "carol" = User.username u
       /\ "c@x.com" = User.email u /\ "voter" = User.role u.
Proof.
  destruct (login_success_is_authenticated sample_compare carol_verified
              carol_logs_in) as [Hstore Hid].
  split; [exact Hstore|].
  apply (Hid 1 "carol" "c@x.com" "voter"). reflexivity.
Defined.

(** A login that is refused writes nothing either. *)
Example refused_login_writes_nothing :
  Esm.login sample_compare carol_logs_in carol_registered
  = (verify_first, carol_registered).
Proof. reflexivity. Qed.

Lemma update_rows_app {R : Type} (p : R -> bool) (f : R -> R) (l l' : list R) :
  update_rows p f (l ++ l') = (update_rows p f l ++ update_rows p f l')%list.
Proof. unfold update_rows. apply map_app. Qed.

Lemma update_rows_email_unused st email f :
  email_unused st email ->
  update_rows (fun u => (User.email u =? email)%string) f (users st) = users st.
Proof.
  intro H. apply update_rows_id. intros u Hu.
  destruct (String.eqb_spec (User.email u) email) as [E|E]; [|reflexivity].
  exfalso. exact (H u Hu E).
Qed.

(** X3.  Registering with an email no account has, then logging in with
    the same credentials, is answered 'Please verify your email first';
    a wrong code is refused; the right code within 15 minutes is accepted;
    and the login then answers with the new account's identity.  (The
    account default is active, the table has the column verify-email
    names, and the hash verifies its own password.) *)
Theorem register_verify_login_scenario :
  forall (hash : string -> string) (compare : string -> string -> bool)
         taken now now' code code' delivered req st,
    email_unused st (RegisterReq.email req) ->
    RegisterReq.email req <> "" ->
    RegisterReq.password req <> "" ->
    compare (RegisterReq.password req) (hash (RegisterReq.password req)) = true ->
    code' <> code ->
    now' <= now + 900000 ->
    let creds := LoginReq.mk (Some (RegisterReq.email req))
                             (Some (RegisterReq.password req)) in
    let st1 := store_of (Esm.register hash true taken now code delivered req
                           st) in
    let st2 := store_of (Esm.verify_email true now'
                           (VerifyEmailReq.mk (RegisterReq.email req) code) st1) in
    response_of (Esm.login compare creds st1) = verify_first
    /\ Esm.verify_email true now'
         (VerifyEmailReq.mk (RegisterReq.email req) code') st1
       = (invalid_code 400, st1)
    /\ response_of (Esm.verify_email true now'
                      (VerifyEmailReq.mk (RegisterReq.email req) code) st1)
       = success
    /\ response_of (Esm.login compare creds st2)
       = Sent (mkResponse 200
                 (JLogin (next_id (users st)) (RegisterReq.username req)
                         (RegisterReq.email req) (RegisterReq.role req))).
Proof.
  intros hash compare taken now now' code code' delivered req st
         Hfree He Hp Hc Hcode Hnow creds st1 st2.
  set (new := registered_row hash true now code req (users st)).
  assert (Hst1 : st1 = with_users (users st ++ [new])%list st).
  { unfold st1. rewrite (register_unused _ _ _ _ _ _ _ _ Hfree).
    reflexivity. }
  assert (Hacc1 : account_by_email st1 (RegisterReq.email req) = Some new).
  { rewrite Hst1. unfold account_by_email, with_users. cbn [users].
    rewrite filter_app, (filter_email_unused st _ Hfree). cbn.
    rewrite String.eqb_refl. reflexivity. }
  assert (Htruthy : negb (truthy_str (LoginReq.email creds))
                    || negb (truthy_str (LoginReq.password creds)) = false).
  { cbn. destruct (String.eqb_spec (RegisterReq.email req) "");
      [contradiction|].
    destruct (String.eqb_spec (RegisterReq.password req) "");
      [contradiction | reflexivity]. }
  assert (Hv : Esm.verify_email true now'
                 (VerifyEmailReq.mk (RegisterReq.email req) code) st1
               = (success,
                  with_users (users st ++ [User.set_verified new])%list st)).
  { rewrite verify_email_cases. cbn [VerifyEmailReq.email VerifyEmailReq.code].
    rewrite Hacc1. cbn [new registered_row User.verify_code
                        User.verify_code_expires strict_neq date_ms].
    rewrite String.eqb_refl. cbn [negb orb].
    destruct (Z.ltb_spec (now + 900000) now') as [L|L]; [lia|].
    rewrite Hst1. unfold with_users. cbn [users politician_applications
      politician_profiles comments ratings ground_updates].
    rewrite update_rows_app, (update_rows_email_unused st _ _ Hfree).
    cbn. rewrite String.eqb_refl. reflexivity. }
  repeat split.
  - rewrite esm_login_cases. unfold response_of. cbn [fst].
    rewrite Htruthy. unfold account_of. cbn [creds LoginReq.email str_of].
    rewrite Hacc1. cbn. rewrite Hc. reflexivity.
  - rewrite verify_email_cases. cbn [VerifyEmailReq.email VerifyEmailReq.code].
    rewrite Hacc1. cbn [new registered_row User.verify_code strict_neq].
    destruct (String.eqb_spec code code') as [E|E];
      [exfalso; apply Hcode; symmetry; exact E | reflexivity].
  - rewrite Hv. reflexivity.
  - unfold st2. rewrite Hv. unfold store_of. cbn [snd].
    rewrite esm_login_cases. unfold response_of. cbn [fst].
    rewrite Htruthy. unfold account_of, account_by_email, with_users.
    cbn [creds LoginReq.email str_of users].
    rewrite filter_app, (filter_email_unused st _ Hfree). cbn.
    rewrite String.eqb_refl. cbn. rewrite Hc. reflexivity.
Qed.

Lemma register_verify_login_scenario_witness :
  response_of (Esm.login sample_compare carol_logs_in carol_registered)
  = verify_first
  /\ Esm.verify_email true 60000 (VerifyEmailReq.mk "c@x.com" "000000")
       carol_registered
     = (invalid_code 400, carol_registered)
  /\ response_of (Esm.verify_email true 60000 carol_verifies carol_registered)
     = success
  /\ response_of (Esm.login sample_compare carol_logs_in carol_verified)
     = Sent (mkResponse 200 (JLogin 1 "carol" "c@x.com" "voter")).
Proof.
  apply (register_verify_login_scenario sample_hash sample_compare
           email_taken 0 60000 "483920" "000000" true carol_registers
           empty_store).
  - intros u [].
  - discriminate.
  - discriminate.
  - reflexivity.
  - discriminate.
  - lia.
Defined.

(** X4.  Verify-email answers success exactly when the email names one
    account whose stored code equals the supplied code and the time is not
    past the stored expiry (the expiry instant itself is accepted); every
    other call gets the one answer 400 'Invalid or expired code' and
    changes nothing. *)
Theorem verify_email_accepts_iff :
  forall has_column now req st,
    (response_of (Esm.verify_email has_column now req st) = success
     <-> exists u,
          account_by_email st (VerifyEmailReq.email req) = Some u
          /\ User.verify_code u = Some (VerifyEmailReq.code req)
          /\ now <= date_ms (User.verify_code_expires u))
    /\ (response_of (Esm.verify_email has_column now req st) <> success ->
        Esm.verify_email has_column now req st = (invalid_code 400, st)).
Proof.
  intros has_column now req st. rewrite verify_email_cases.
  unfold response_of. 
  destruct (account_by_email st (VerifyEmailReq.email req)) as [u|].
  - destruct (User.verify_code u) as [c|] eqn:Hc; cbn [strict_neq].
    + destruct (String.eqb_spec c (VerifyEmailReq.code req)) as [E|E];
        cbn [negb orb].
      * destruct (Z.ltb_spec (date_ms (User.verify_code_expires u)) now)
          as [L|L]; cbn [fst]; split.
        -- split; [discriminate|]. intros [u' [Hu [_ Hn]]].
           injection Hu as <-. lia.
        -- reflexivity.
        -- split; [|reflexivity]. intros _. exists u.
           repeat split; [congruence | lia].
        -- intro H. exfalso. apply H. reflexivity.
      * cbn [fst]. split; [|reflexivity].
        split; [discriminate|]. intros [u' [Hu [Hk _]]].
        injection Hu as <-. congruence.
    + cbn [orb fst]. split; [|reflexivity].
      split; [discriminate|]. intros [u' [Hu [Hk _]]].
      injection Hu as <-. congruence.
  - cbn [fst]. split; [|reflexivity].
    split; [discriminate|]. intros [u' [Hu _]]. discriminate.
Qed.

Lemma verify_email_accepts_iff_witness :
  response_of (Esm.verify_email true 900000 carol_verifies carol_registered)
  = success.
Proof.
  apply (proj1 (verify_email_accepts_iff true 900000 carol_verifies
                  carol_registered)).
  exists carol. repeat split; cbn; lia.
Defined.

Lemma forgot_password_cases now code delivered email st :
  Esm.forgot_password now code delivered email st
  = match account_by_email st email with
    | Some _ =>
        (if delivered then success else Uncaught "Error: Email failed",
         with_users
           (update_rows (fun u => (User.email u =? email)%string)
              (User.set_reset code (now + 900000)) (users st))
           st)
    | None => (email_not_found, st)
    end.
Proof.
  unfold Esm.forgot_password, Esm.in_15_minutes, account_by_email.
  run_handler. destruct (single _); [|reflexivity].
  destruct delivered; reflexivity.
Qed.

Lemma account_after_update st email f u :
  account_by_email st email = Some u ->
  (forall x, User.email (f x) = User.email x) ->
  account_by_email
    (with_users (update_rows (fun x => (User.email x =? email)%string) f (users st))
                st)
    email
  = Some (f u).
Proof.
  intros Hu Hf. unfold account_by_email, with_users in *. cbn [users].
  rewrite (filter_update_rows
             (fun x => (User.email x =? email)%string)
             (fun x => (User.email x =? email)%string)).
  - apply single_Some in Hu. rewrite Hu. reflexivity.
  - reflexivity.
  - intros x Hx. rewrite Hf. exact Hx.
Qed.

(** X5.  Password recovery end to end: for an active, verified account,
    forgot-password (whether or not the mail goes out) followed within 15
    minutes by reset-password with the issued code and a new password
    answers success, after which a login with the new password answers
    with the account's identity. *)
Theorem forgot_reset_login :
  forall (hash : string -> string) (compare : string -> string -> bool)
         now now' code delivered email password st u,
    account_by_email st email = Some u ->
    User.is_active u = true ->
    User.email_verified u = true ->
    email <> "" -> password <> "" ->
    compare password (hash password) = true ->
    now' <= now + 900000 ->
    let st1 := store_of (Esm.forgot_password now code delivered email st) in
    let st2 := store_of (Esm.reset_password hash now'
                           (ResetPasswordReq.mk email code password) st1) in
    response_of (Esm.reset_password hash now'
                   (ResetPasswordReq.mk email code password) st1)
    = success
    /\ response_of (Esm.login compare
                      (LoginReq.mk (Some email) (Some password)) st2)
       = logged_in u.
Proof.
  intros hash compare now now' code delivered email password st u
         Hu Ha Hv He Hp Hc Hnow st1 st2.
  set (u1 := User.set_reset code (now + 900000) u).
  assert (Hst1 : st1 = with_users
                         (update_rows (fun x => (User.email x =? email)%string)
                            (User.set_reset code (now + 900000)) (users st))
                         st).
  { unfold st1. rewrite forgot_password_cases, Hu. reflexivity. }
  assert (Hacc1 : account_by_email st1 email = Some u1).
  { rewrite Hst1. apply account_after_update; [assumption | reflexivity]. }
  assert (Hreset : Esm.reset_password hash now'
                     (ResetPasswordReq.mk email code password) st1
                   = (success,
                      with_users
                        (update_rows (fun x => (User.email x =? email)%string)
                           (User.set_password (hash password)) (users st1))
                        st1)).
  { rewrite reset_password_cases.
    cbn [ResetPasswordReq.email ResetPasswordReq.code ResetPasswordReq.password].
    rewrite Hacc1. cbn [u1 User.set_reset User.reset_code
                        User.reset_code_expires strict_neq date_ms].
    rewrite String.eqb_refl. cbn [negb orb].
    destruct (Z.ltb_spec (now + 900000) now'); [lia | reflexivity]. }
  split; [rewrite Hreset; reflexivity|].
  unfold st2. rewrite Hreset. unfold store_of. cbn [snd].
  rewrite esm_login_cases. unfold response_of. cbn [fst].
  assert (Htruthy : negb (truthy_str (Some email))
                    || negb (truthy_str (Some password)) = false).
  { cbn. destruct (String.eqb_spec email ""); [contradiction|].
    destruct (String.eqb_spec password ""); [contradiction | reflexivity]. }
  cbn [LoginReq.email LoginReq.password]. rewrite Htruthy.
  unfold account_of. cbn [LoginReq.email str_of].
  rewrite (account_after_update st1 email _ u1 Hacc1); [|reflexivity].
  cbn [u1 User.set_password User.set_reset User.is_active User.password_hash
       User.email_verified].
  rewrite Ha, Hv, Hc. reflexivity.
Qed.

Lemma forgot_reset_login_witness :
  response_of (Esm.reset_password sample_hash 60000 dan_resets dan_forgets)
  = success
  /\ response_of (Esm.login sample_compare dan_logs_in
                    (store_of (Esm.reset_password sample_hash 60000 dan_resets
                                 dan_forgets)))
     = logged_in dan.
Proof.
  apply (forgot_reset_login sample_hash sample_compare 0 60000 "275001" true
           "d@x.com" "new-password" (store_with_users [dan]) dan);
    try reflexivity; try discriminate; lia.
Defined.

(** X6.  Register stores the role the caller sends: the account created
    by a registration with role 'admin', for an email no account has,
    passes the admin gate at once, before any email verification and even
    when the verification mail could not be sent. *)
Theorem registered_admin_passes_gate :
  forall (hash : string -> string) active taken now code delivered
         username email password st,
    email_unused st email ->
    response_of
      (Esm.requireAdmin (next_id (users st))
         (store_of (Esm.register hash active taken now code delivered
                      (RegisterReq.mk username email password "admin") st)))
    = true.
Proof.
  intros hash active taken now code delivered username email password st
         Hfree.
  rewrite register_unused by exact Hfree. rewrite requireAdmin_spec.
  unfold response_of, store_of, user_of, with_users. cbn [fst snd users].
  pose proof (filter_fresh_id (users st)) as Hfresh.
  cbn [pk users_table] in Hfresh.
  rewrite filter_app, Hfresh.
  cbn [filter registered_row User.id app RegisterReq.role].
  rewrite Z.eqb_refl. reflexivity.
Qed.

Lemma registered_admin_passes_gate_witness :
  response_of
    (Esm.requireAdmin (next_id (users (campaign_store "pending")))
       (store_of (Esm.register sample_hash true email_taken 0 "111111" false
                    (RegisterReq.mk "eve" "e@x.com" "pw" "admin")
                    (campaign_store "pending"))))
  = true.
Proof.
  apply (registered_admin_passes_gate sample_hash true email_taken 0 "111111"
           false "eve" "e@x.com" "pw" (campaign_store "pending")).
  intros u [<-|[<-|[]]]; discriminate.
Defined.

(** The newcomer can then approve an application. *)
Example eve_approves_bob :
  response_of
    (Esm.approve_politician (AdminReq.mk 1 10)
       (store_of (Esm.register sample_hash true email_taken 0 "111111" false
                    eve_registers_as_admin (campaign_store "pending"))))
  = approved.
Proof. reflexivity. Qed.

(* ----------------------------------------------------------------- *)
(** ** Rating *)

Lemma rating_request_valid_guards req :
  rating_request_valid req = true <->
  (negb (truthy_num (RateReq.user_id req))
   || negb (truthy_num (RateReq.target_id req))
   || negb (truthy_num (RateReq.rating req)) = false
   /\ (num_of (RateReq.rating req) <? 1) || (5 <? num_of (RateReq.rating req))
      = false).
Proof.
  unfold rating_request_valid.
  destruct (truthy_num (RateReq.user_id req)),
           (truthy_num (RateReq.target_id req)); cbn [andb negb orb];
    try (split; [discriminate | intros [H _]; discriminate H]).
  destruct (RateReq.rating req) as [r|]; cbn [truthy_num num_of].
  - destruct (Z.leb_spec 1 r), (Z.leb_spec r 5), (Z.ltb_spec r 1),
             (Z.ltb_spec 5 r), (Z.eqb_spec r 0);
      cbn; try lia; split; try discriminate; try tauto;
      intros [H1 H2]; discriminate.
  - cbn. split; [discriminate | intros [H _]; discriminate H].
Qed.

(** X7.  A rating request that lacks user_id, target_id or rating, or
    whose value is below 1 or above 5, is answered with status 400 and no
    row is written; every other request is answered 'Rating saved'. *)
Theorem rate_validates :
  forall req st,
    (rating_request_valid req = false ->
     (exists error,
         response_of (Esm.rate req st) = Sent (mkResponse 400 (JError error)))
     /\ store_of (Esm.rate req st) = st)
    /\ (rating_request_valid req = true ->
        response_of (Esm.rate req st) = rating_saved).
Proof.
  intros req st. rewrite rate_cases. split.
  - intro H.
    destruct (_ || _) eqn:G1; [split; [eexists|]; reflexivity|].
    destruct ((_ <? 1) || _) eqn:G2; [split; [eexists|]; reflexivity|].
    exfalso.
    assert (V : rating_request_valid req = true)
      by (apply rating_request_valid_guards; split; assumption).
    congruence.
  - intro H. apply rating_request_valid_guards in H.
    destruct H as [-> ->]. reflexivity.
Qed.

Lemma rate_validates_witness :
  (exists error,
      response_of (Esm.rate rate_out_of_range feed_store)
      = Sent (mkResponse 400 (JError error)))
  /\ store_of (Esm.rate rate_out_of_range feed_store) = feed_store.
Proof.
  apply (proj1 (rate_validates rate_out_of_range feed_store)). reflexivity.
Defined.

(** The rows an upsert leaves under its key, and the rows it leaves
    elsewhere. *)
Lemma filter_upsert_row_key {R : Type} `{Table R} (same_key : R -> R -> bool)
    (new : R) (l : list R) :
  (forall i, same_key new (set_pk i new) = true) ->
  filter (same_key new) (upsert_row same_key new l)
  = if existsb (same_key new) l
    then map (fun old => set_pk (pk old) new) (filter (same_key new) l)
    else [set_pk (next_id l) new].
Proof.
  intro Hnew. unfold upsert_row.
  destruct (existsb (same_key new) l) eqn:Ex.
  - apply filter_update_rows; [reflexivity|]. intros x _. apply Hnew.
  - unfold insert_row. rewrite filter_app.
    apply existsb_filter_nil in Ex. rewrite Ex. cbn. rewrite Hnew. reflexivity.
Qed.

Lemma filter_upsert_row_other {R : Type} `{Table R} (same_key : R -> R -> bool)
    (q : R -> bool) (new : R) (l : list R) :
  (forall i, q (set_pk i new) = false) ->
  (forall x, same_key new x = true -> q x = false) ->
  filter q (upsert_row same_key new l) = filter q l.
Proof.
  intros Hnew Hdisj. unfold upsert_row.
  destruct (existsb (same_key new) l).
  - unfold update_rows. induction l as [|x l IH]; cbn; [reflexivity|].
    destruct (same_key new x) eqn:K.
    + rewrite Hnew, (Hdisj x K). exact IH.
    + destruct (q x); rewrite IH; reflexivity.
  - unfold insert_row. rewrite filter_app. cbn. rewrite Hnew.
    apply app_nil_r.
Qed.

Lemma ratings_by_as_key st uid tid value :
  ratings_by st uid tid
  = filter (same_rating_key (Rating.mk 0 uid "manifesto" tid value)) (ratings st).
Proof.
  unfold ratings_by. apply filter_ext. intro r. unfold same_rating_key.
  cbn [Rating.user_id Rating.target_type Rating.target_id].
  rewrite (Z.eqb_sym (Rating.user_id r)), (Z.eqb_sym (Rating.target_id r)),
          (String.eqb_sym (Rating.target_type r)).
  reflexivity.
Qed.

(** What a saved rating does to the table. *)
Lemma rate_saved_effect req st :
  rating_request_valid req = true ->
  one_rating_per_user st ->
  let uid := num_of (RateReq.user_id req) in
  let tid := num_of (RateReq.target_id req) in
  let st' := store_of (Esm.rate req st) in
  (exists i, ratings_by st' uid tid
             = [Rating.mk i uid "manifesto" tid (num_of (RateReq.rating req))])
  /\ (forall u t, (u, t) <> (uid, tid) -> ratings_by st' u t = ratings_by st u t).
Proof.
  intros Hv Hone uid tid st'.
  set (new := Rating.mk 0 uid "manifesto" tid (num_of (RateReq.rating req))).
  assert (Hst' : ratings st' = upsert_row same_rating_key new (ratings st)).
  { unfold st'. rewrite rate_cases.
    apply rating_request_valid_guards in Hv. destruct Hv as [-> ->].
    reflexivity. }
  split.
  - unfold ratings_by at 1. fold (ratings_by st' uid tid).
    rewrite (ratings_by_as_key st' uid tid (num_of (RateReq.rating req))).
    fold new. rewrite Hst'.
    rewrite filter_upsert_row_key.
    + destruct (existsb (same_rating_key new) (ratings st)) eqn:Ex.
      * pose proof (Hone uid tid) as Hlen.
        rewrite (ratings_by_as_key st uid tid (num_of (RateReq.rating req)))
          in Hlen. fold new in Hlen.
        destruct (filter (same_rating_key new) (ratings st)) as [|x [|y l]] eqn:F.
        -- apply existsb_filter_nil in F. congruence.
        -- exists (Rating.id x). reflexivity.
        -- cbn in Hlen. lia.
      * exists (next_id (ratings st)). reflexivity.
    + intro i. unfold same_rating_key. cbn.
      rewrite !Z.eqb_refl. reflexivity.
  - intros u t Hneq. unfold ratings_by. rewrite Hst'.
    apply filter_upsert_row_other.
    + intro i. cbn.
      destruct (Z.eqb_spec uid u) as [Eu|Eu]; [|reflexivity].
      destruct (Z.eqb_spec tid t) as [Et|Et];
        [exfalso; apply Hneq; congruence | apply andb_false_r].
    + intros x K. unfold same_rating_key in K. cbn in K.
      apply andb_prop in K. destruct K as [K Kt].
      apply andb_prop in K. destruct K as [Ku _].
      apply Z.eqb_eq in Ku, Kt.
      destruct (Z.eqb_spec (Rating.user_id x) u) as [Eu|Eu]; [|reflexivity].
      destruct (Z.eqb_spec (Rating.target_id x) t) as [Et|Et];
        [exfalso; apply Hneq; congruence | apply andb_false_r].
Qed.

Lemma rate_invalid_writes_nothing req st :
  rating_request_valid req = false -> store_of (Esm.rate req st) = st.
Proof.
  intro H. rewrite rate_cases.
  destruct (_ || _) eqn:G1; [reflexivity|].
  destruct ((_ <? 1) || _) eqn:G2; [reflexivity|].
  exfalso.
  assert (V : rating_request_valid req = true)
    by (apply rating_request_valid_guards; split; assumption).
  congruence.
Qed.

Lemma rate_keeps_one_rating_per_user req st :
  one_rating_per_user st -> one_rating_per_user (store_of (Esm.rate req st)).
Proof.
  intros Hone u t.
  destruct (rating_request_valid req) eqn:Hv.
  - destruct (rate_saved_effect req st Hv Hone) as [[i Hi] Hother].
    destruct (Z.eq_dec u (num_of (RateReq.user_id req))) as [Eu|Eu];
      [destruct (Z.eq_dec t (num_of (RateReq.target_id req))) as [Et|Et]|].
    + subst u t. rewrite Hi. cbn. lia.
    + rewrite Hother; [apply Hone | congruence].
    + rewrite Hother; [apply Hone | congruence].
  - rewrite (rate_invalid_writes_nothing req st Hv). apply Hone.
Qed.

(** X8.  Rating is an overwrite: on a table with at most one rating per
    user and target, a saved rating leaves exactly one row for that user
    and target, holding the new value with target_type 'manifesto'; the
    rows of every other user or target are what they were; and the table
    still has at most one rating per user and target. *)
Theorem rate_overwrites :
  forall req st,
    rating_request_valid req = true ->
    one_rating_per_user st ->
    (exists i,
        ratings_by (store_of (Esm.rate req st))
                   (num_of (RateReq.user_id req)) (num_of (RateReq.target_id req))
        = [Rating.mk i (num_of (RateReq.user_id req)) "manifesto"
                     (num_of (RateReq.target_id req))
                     (num_of (RateReq.rating req))])
    /\ (forall u t,
          (u, t) <> (num_of (RateReq.user_id req), num_of (RateReq.target_id req)) ->
          ratings_by (store_of (Esm.rate req st)) u t = ratings_by st u t)
    /\ one_rating_per_user (store_of (Esm.rate req st)).
Proof.
  intros req st Hv Hone.
  destruct (rate_saved_effect req st Hv Hone) as [H1 H2].
  split; [exact H1 | split; [exact H2|]].
  apply rate_keeps_one_rating_per_user. exact Hone.
Qed.

Lemma rate_overwrites_witness :
  (exists i,
      ratings_by (store_of (Esm.rate (bob_rates 2) bob_rated)) 2 5
      = [Rating.mk i 2 "manifesto" 5 2])
  /\ (forall u t, (u, t) <> (2, 5) ->
                  ratings_by (store_of (Esm.rate (bob_rates 2) bob_rated)) u t
                  = ratings_by bob_rated u t)
  /\ one_rating_per_user (store_of (Esm.rate (bob_rates 2) bob_rated)).
Proof.
  apply (rate_overwrites (bob_rates 2) bob_rated).
  - reflexivity.
  - intros u t. unfold ratings_by.
    etransitivity; [apply filter_length_le | cbn; lia].
Defined.

(* ----------------------------------------------------------------- *)
(** ** What no handler does *)

Lemma map_update_rows {R A : Type} (g : R -> A) (p : R -> bool) (f : R -> R)
    (l : list R) :
  (forall x, g (f x) = g x) -> map g (update_rows p f l) = map g l.
Proof.
  intro H. unfold update_rows. rewrite map_map. apply map_ext.
  intro x. destruct (p x); [apply H | reflexivity].
Qed.

(** X9.  No call of a handler edits or deletes a ground update or a
    comment, and none deletes an account or changes its id, username or
    email: each call leaves these tables as they were or appends to them. *)
Theorem step_only_appends :
  forall st st',
    step st st' ->
    (exists l, ground_updates st' = (ground_updates st ++ l)%list)
    /\ (exists l, comments st' = (comments st ++ l)%list)
    /\ (exists l, map identity (users st') = (map identity (users st) ++ l)%list).
Proof.
  intros st st' Hstep. destruct Hstep.
  - rewrite register_cases.
    destruct (existsb _ _); [repeat split; appended|].
    unfold store_of, with_users.
    cbn [snd ground_updates comments users].
    repeat split; try appended. rewrite map_app. eexists. reflexivity.
  - rewrite forgot_password_cases.
    destruct (account_by_email st email); [|repeat split; appended].
    unfold store_of, with_users. cbn [snd ground_updates comments users].
    repeat split; try appended.
    rewrite map_update_rows; [appended | reflexivity].
  - rewrite verify_email_cases.
    destruct (account_by_email st _); [|repeat split; appended].
    destruct (_ || _); [repeat split; appended|].
    destruct has_column; [|repeat split; appended].
    unfold store_of. cbn [snd ground_updates comments users].
    repeat split; try appended.
    rewrite map_update_rows; [appended | reflexivity].
  - rewrite reset_password_cases.
    destruct (account_by_email st _); [|repeat split; appended].
    destruct (_ || _); [repeat split; appended|].
    unfold store_of. cbn [snd ground_updates comments users].
    repeat split; try appended.
    rewrite map_update_rows; [appended | reflexivity].
  - rewrite apply_politician_cases.
    destruct (_ || _); [repeat split; appended|].
    destruct (_ && _); [repeat split; appended|].
    destruct (single _); repeat split; appended.
  - rewrite esm_approve_cases.
    destruct (fst _); [|repeat split; appended].
    destruct (application_of st _) as [a|]; [|repeat split; appended].
    destruct (_ =? _)%string; [|repeat split; appended].
    unfold store_of. cbn [snd ground_updates comments users].
    repeat split; try appended.
    rewrite map_update_rows; [appended | reflexivity].
  - rewrite esm_reject_cases.
    destruct (fst _); repeat split; appended.
  - rewrite comment_cases.
    destruct (_ || _); [repeat split; appended|].
    destruct (existsb _ _); [repeat split; appended|].
    destruct (user_of st _); repeat split; appended.
  - rewrite rate_cases.
    destruct (_ || _); [repeat split; appended|].
    destruct (_ || _); repeat split; appended.
  - rewrite post_ground_update_cases.
    destruct (_ || _); repeat split; appended.
  - rewrite ground_repost_cases.
    destruct (_ || _); [repeat split; appended|].
    destruct (ground_update_of st _); repeat split; appended.
Qed.

Lemma step_only_appends_witness :
  (exists l,
      ground_updates (store_of (Esm.ground_repost (RepostReq.mk (Some 9) (Some 1))
                                  feed_store))
      = (ground_updates feed_store ++ l)%list)
  /\ (exists l,
        comments (store_of (Esm.ground_repost (RepostReq.mk (Some 9) (Some 1))
                              feed_store))
        = (comments feed_store ++ l)%list)
  /\ (exists l,
        map identity
            (users (store_of (Esm.ground_repost (RepostReq.mk (Some 9) (Some 1))
                                feed_store)))
        = (map identity (users feed_store) ++ l)%list).
Proof.
  apply (step_only_appends feed_store).
  apply step_repost.
Defined.

(* ----------------------------------------------------------------- *)
(** ** What every run keeps *)

Lemma audit_same_tables st st' :
  politician_applications st' = politician_applications st ->
  politician_profiles st' = politician_profiles st ->
  ratings st' = ratings st ->
  audit_invariant st -> audit_invariant st'.
Proof.
  intros Ha Hp Hr [I1 I2 I3 I4]. constructor.
  - rewrite Ha. exact I1.
  - rewrite Hp. exact I2.
  - rewrite Hp, Ha. exact I3.
  - intros u t. unfold ratings_by. rewrite Hr. apply I4.
Qed.

Lemma known_status_after p s l a :
  known_status s ->
  (forall x, In x l -> known_status (Application.status x)) ->
  In a (update_rows p (Application.set_status s) l) ->
  known_status (Application.status a).
Proof.
  intros Hs Hl Hin. apply In_update_rows in Hin. destruct Hin as [x [Hx ->]].
  destruct (p x); [exact Hs | exact (Hl x Hx)].
Qed.

(** A decided application stays decided when a status other than
    'pending' is written over some rows. *)
Lemma decided_after p s l uid :
  s <> "pending" ->
  (exists a, In a l /\ Application.user_id a = uid
             /\ Application.status a <> "pending") ->
  exists a, In a (update_rows p (Application.set_status s) l)
            /\ Application.user_id a = uid
            /\ Application.status a <> "pending".
Proof.
  intros Hs [a [Hin [Hu Hst]]].
  exists (if p a then Application.set_status s a else a). split.
  - apply In_update_rows. exists a. split; [assumption | reflexivity].
  - destruct (p a); split; assumption.
Qed.

Lemma step_keeps_audit st st' :
  step st st' -> audit_invariant st -> audit_invariant st'.
Proof.
  intros Hstep Hinv. destruct Hstep.
  - apply (audit_same_tables st); [| | |assumption];
      rewrite register_cases; destruct (existsb _ _); reflexivity.
  - apply (audit_same_tables st); [| | |assumption];
      rewrite forgot_password_cases;
      destruct (account_by_email _ _); reflexivity.
  - apply (audit_same_tables st); [| | |assumption];
      rewrite verify_email_cases;
      destruct (account_by_email _ _); try reflexivity;
      destruct (_ || _); try reflexivity;
      destruct has_column; reflexivity.
  - apply (audit_same_tables st); [| | |assumption];
      rewrite reset_password_cases;
      destruct (account_by_email _ _); try reflexivity;
      destruct (_ || _); reflexivity.
  - rewrite apply_politician_cases.
    destruct (_ || _); [assumption|].
    destruct (_ && _); [assumption|].
    destruct (single _); [assumption|].
    destruct Hinv as [I1 I2 I3 I4]. unfold store_of. cbn [snd].
    constructor; cbn [politician_applications politician_profiles].
    + intros a Hin. apply In_insert_row in Hin.
      destruct Hin as [Hin| ->]; [exact (I1 a Hin) | left; reflexivity].
    + exact I2.
    + intros p Hp. destruct (I3 p Hp) as [a [Hin Ha]].
      exists a. split; [|exact Ha].
      unfold insert_row. apply in_or_app. left. assumption.
    + exact I4.
  - rewrite esm_approve_cases.
    destruct (fst _); [|assumption].
    destruct (application_of st _) as [a0|] eqn:Ha0; [|assumption].
    destruct (_ =? _)%string; [|assumption].
    destruct Hinv as [I1 I2 I3 I4]. unfold store_of. cbn [snd].
    constructor; cbn [politician_applications politician_profiles].
    + intros a Hin.
      eapply known_status_after;
        [right; left; reflexivity | exact I1 | exact Hin].
    + intros p Hp. apply In_upsert_row in Hp.
      destruct Hp as [Hp|[i ->]]; [exact (I2 p Hp) | reflexivity].
    + intros p Hp. apply In_upsert_row in Hp. destruct Hp as [Hp|[i ->]].
      * apply decided_after; [discriminate | exact (I3 p Hp)].
      * unfold application_of in Ha0. apply single_filter_In in Ha0.
        destruct Ha0 as [Hin Hk].
        exists (Application.set_status "approved" a0). split.
        -- apply In_update_rows. exists a0. split; [assumption|].
           rewrite Hk. reflexivity.
        -- split; [reflexivity | discriminate].
    + exact I4.
  - rewrite esm_reject_cases.
    destruct (fst _); [|assumption].
    destruct Hinv as [I1 I2 I3 I4]. unfold store_of. cbn [snd].
    constructor; cbn [politician_applications politician_profiles].
    + intros a Hin.
      eapply known_status_after;
        [right; right; reflexivity | exact I1 | exact Hin].
    + exact I2.
    + intros p Hp. apply decided_after; [discriminate | exact (I3 p Hp)].
    + exact I4.
  - apply (audit_same_tables st); [| | |assumption];
      rewrite comment_cases;
      destruct (_ || _); try reflexivity;
      destruct (existsb _ _); try reflexivity;
      destruct (user_of _ _); reflexivity.
  - destruct Hinv as [I1 I2 I3 I4]. constructor.
    + rewrite rate_cases.
      destruct (_ || _); [exact I1|]. destruct (_ || _); exact I1.
    + rewrite rate_cases.
      destruct (_ || _); [exact I2|]. destruct (_ || _); exact I2.
    + rewrite rate_cases.
      destruct (_ || _); [exact I3|]. destruct (_ || _); exact I3.
    + apply rate_keeps_one_rating_per_user. exact I4.
  - apply (audit_same_tables st); [| | |assumption];
      rewrite post_ground_update_cases; destruct (_ || _); reflexivity.
  - apply (audit_same_tables st); [| | |assumption];
      rewrite ground_repost_cases;
      destruct (_ || _); try reflexivity;
      destruct (ground_update_of _ _); reflexivity.
Qed.

Lemma reachable_audit st : reachable st -> audit_invariant st.
Proof.
  induction 1 as [st [Ha [Hp [_ [Hr _]]]] | st st' _ IH Hstep].
  - constructor.
    + rewrite Ha. intros a [].
    + rewrite Hp. intros p [].
    + rewrite Hp. intros p [].
    + intros u t. unfold ratings_by. rewrite Hr. cbn. lia.
  - exact (step_keeps_audit st st' Hstep IH).
Qed.

(** X10.  In every store of a run: each application has status 'pending',
    'approved' or 'rejected'; every profile is verified; the user of a
    pending application has no profile; and no user has two ratings of the
    same target. *)
Theorem run_audit :
  forall st,
    reachable st ->
    (forall a, In a (politician_applications st) ->
               known_status (Application.status a))
    /\ (forall p, In p (politician_profiles st) -> Profile.is_verified p = true)
    /\ (forall a, In a (politician_applications st) ->
                  Application.status a = "pending" ->
                  profiles_of st (Application.user_id a) = [])
    /\ one_rating_per_user st.
Proof.
  intros st Hreach.
  destruct (reachable_audit st Hreach) as [I1 I2 I3 I4].
  pose proof (inv_applications st (reachable_invariant st Hreach)) as Hone.
  repeat split; try assumption.
  intros a Hin Hpend.
  destruct (profiles_of st (Application.user_id a)) as [|p rest] eqn:E;
    [reflexivity|]. exfalso.
  assert (Hp : In p (politician_profiles st)
               /\ (Profile.user_id p =? Application.user_id a) = true).
  { apply (proj1 (filter_In
                    (fun q => Profile.user_id q =? Application.user_id a)
                    p (politician_profiles st))).
    unfold profiles_of in E. rewrite E. left. reflexivity. }
  destruct Hp as [Hp Hk]. apply Z.eqb_eq in Hk.
  destruct (I3 p Hp) as [a' [Hin' [Hu' Hst']]].
  specialize (Hone (Application.user_id a)).
  assert (Ha : In a (applications_by st (Application.user_id a))).
  { apply (proj2 (filter_In _ a (politician_applications st))).
    split; [assumption | apply Z.eqb_refl]. }
  assert (Ha' : In a' (applications_by st (Application.user_id a))).
  { apply (proj2 (filter_In _ a' (politician_applications st))).
    split; [assumption | apply Z.eqb_eq; congruence]. }
  destruct (applications_by st (Application.user_id a)) as [|x [|y l]];
    cbn in Hone, Ha, Ha'; [contradiction | | lia].
  destruct Ha as [->|[]]. destruct Ha' as [->|[]]. contradiction.
Qed.

Lemma approved_campaign_reachable : reachable approved_store.
Proof.
  apply (reach_step (campaign_store "pending")).
  - apply (reach_step (store_with_users [root; bob])).
    + apply reach_start. repeat split.
    + exact (step_apply bob_applies (store_with_users [root; bob])).
  - exact (step_approve (AdminReq.mk 1 9) (campaign_store "pending")).
Defined.

Lemma run_audit_witness :
  (forall a, In a (politician_applications approved_store) ->
             known_status (Application.status a))
  /\ (forall p, In p (politician_profiles approved_store) ->
                Profile.is_verified p = true)
  /\ (forall a, In a (politician_applications approved_store) ->
                Application.status a = "pending" ->
                profiles_of approved_store (Application.user_id a) = [])
  /\ one_rating_per_user approved_store.
Proof.
  apply (run_audit approved_store). exact approved_campaign_reachable.
Defined.

(* ----------------------------------------------------------------- *)
(** ** Reset codes and the reach of an approval *)



(** X12.  An approval reaches only what belongs to the application it
    names: every application with another id or a status other than
    'pending', every user other than the applicant and every profile of
    another user is left in its table as it was; and a call that is not
    answered 'Approved' writes nothing at all. *)
Theorem approve_frame :
  forall st req,
    (forall x, In x (politician_applications st) ->
               Application.id x <> AdminReq.application_id req
               \/ Application.status x <> "pending" ->
               In x (politician_applications
                       (store_of (Esm.approve_politician req st))))
    /\ (forall u, In u (users st) ->
                  (forall a, application_of st (AdminReq.application_id req)
                             = Some a ->
                             User.id u <> Application.user_id a) ->
                  In u (users (store_of (Esm.approve_politician req st))))
    /\ (forall p, In p (politician_profiles st) ->
                  (forall a, application_of st (AdminReq.application_id req)
                             = Some a ->
                             Profile.user_id p <> Application.user_id a) ->
                  In p (politician_profiles
                          (store_of (Esm.approve_politician req st))))
    /\ (response_of (Esm.approve_politician req st) <> approved ->
        store_of (Esm.approve_politician req st) = st).
Proof.
  intros st req. rewrite esm_approve_cases.
  destruct (fst _); [|repeat split; try (intros; assumption)].
  destruct (application_of st (AdminReq.application_id req)) as [a|] eqn:Ha;
    [|repeat split; try (intros; assumption)].
  destruct (String.eqb_spec (Application.status a) "pending") as [Hp|Hp];
    [|repeat split; try (intros; assumption)].
  unfold store_of, response_of. cbn [fst snd users politician_applications
                                       politician_profiles].
  repeat split.
  - intros x Hin Hx. apply In_update_rows. exists x. split; [assumption|].
    destruct (Z.eqb_spec (Application.id x) (AdminReq.application_id req))
      as [K|K]; [|reflexivity].
    exfalso. destruct Hx as [Hx|Hx]; [contradiction|].
    unfold application_of in Ha. apply single_Some in Ha.
    assert (Hm : In x (filter (fun y => Application.id y
                                        =? AdminReq.application_id req)
                              (politician_applications st))).
    { apply (proj2 (filter_In _ x (politician_applications st))).
      split; [assumption | apply Z.eqb_eq; assumption]. }
    rewrite Ha in Hm. destruct Hm as [<-|[]]. contradiction.
  - intros u Hin Hu. apply In_update_rows. exists u. split; [assumption|].
    destruct (Z.eqb_spec (User.id u) (Application.user_id a)) as [K|K];
      [exfalso; exact (Hu a eq_refl K) | reflexivity].
  - intros p Hin Hprof. unfold upsert_row.
    destruct (existsb _ _).
    + apply In_update_rows. exists p. split; [assumption|].
      unfold same_profile_key. cbn [profile_from Profile.user_id].
      destruct (Z.eqb_spec (Application.user_id a) (Profile.user_id p))
        as [K|K]; [exfalso; apply (Hprof a eq_refl); congruence | reflexivity].
    + unfold insert_row. apply in_or_app. left. assumption.
  - intro H. exfalso. apply H. reflexivity.
Qed.

Lemma approve_frame_witness :
  In root (users (store_of (Esm.approve_politician (AdminReq.mk 1 9)
                              (campaign_store "pending")))).
Proof.
  apply (proj1 (proj2 (approve_frame (campaign_store "pending")
                         (AdminReq.mk 1 9)))).
  - left. reflexivity.
  - intros a Ha. vm_compute in Ha. injection Ha as <-. discriminate.
Defined.

(* ----------------------------------------------------------------- *)
(** ** Manifestos *)

Lemma set_store_same s : set_store (store s) s = s.
Proof. destruct s. reflexivity. Qed.

Lemma post_manifesto_cases req s :
  EsmSite.post_manifesto req s
  = if negb (truthy_num (ManifestoReq.user_id req))
       || negb (truthy_str (ManifestoReq.category req))
       || negb (truthy_str (ManifestoReq.content req))
    then (Sent (mkResponse 400 (JError "All fields are required")), s)
    else if negb (array_includes allowedCategories
                    (str_of (ManifestoReq.category req)))
    then (Sent (mkResponse 400 (JError "Invalid manifesto category")), s)
    else match user_of (store s) (num_of (ManifestoReq.user_id req)) with
         | None =>
             (Sent (mkResponse 403 (JError "Only politicians can post manifestos")), s)
         | Some u =>
             if negb (User.role u =? "politician")%string
             then (Sent (mkResponse 403
                           (JError "Only politicians can post manifestos")), s)
             else match profile_of_user (store s)
                          (num_of (ManifestoReq.user_id req)) with
                  | None =>
                      (Sent (mkResponse 404 (JError "Politician profile not found")), s)
                  | Some p =>
                      (manifesto_posted,
                       set_manifestos
                         (manifestos s ++ [manifesto_row (manifestos s) p req])%list
                         s)
                  end
         end.
Proof.
  unfold EsmSite.post_manifesto, user_of, profile_of_user, profiles_of.
  destruct (_ || _); [reflexivity|].
  destruct (negb (array_includes _ _)); [reflexivity|].
  unfold and_then, lift, from_single, sent, answer, insert_manifesto.
  cbn [rows users_table profiles_table].
  destruct s as [st ms acs prs gl gc gr]. cbn [store set_store manifestos].
  destruct (single _) as [u|]; [|reflexivity].
  destruct (negb _); [reflexivity|].
  cbn [store]. destruct (single _) as [p|]; reflexivity.
Qed.



(** Before the approval Bob is refused. *)
Example bob_posts_too_early :
  EsmSite.post_manifesto bob_posts campaign_site
  = (Sent (mkResponse 403 (JError "Only politicians can post manifestos")),
     campaign_site).
Proof. reflexivity. Qed.




(** No step of the store removes a profile or changes its id. *)
Lemma step_keeps_profile_ids st st' :
  step st st' ->
  incl (map Profile.id (politician_profiles st))
       (map Profile.id (politician_profiles st')).
Proof.
  intro Hstep.
  assert (Hsame : politician_profiles st' = politician_profiles st
                  \/ exists r, politician_profiles st'
                               = upsert_row same_profile_key r
                                            (politician_profiles st)).
  { destruct Hstep.
    - left. rewrite register_cases. destruct (existsb _ _); reflexivity.
    - left. rewrite forgot_password_cases.
      destruct (account_by_email _ _); reflexivity.
    - left. rewrite verify_email_cases.
      destruct (account_by_email _ _); try reflexivity.
      destruct (_ || _); try reflexivity. destruct has_column; reflexivity.
    - left. rewrite reset_password_cases.
      destruct (account_by_email _ _); try reflexivity.
      destruct (_ || _); reflexivity.
    - left. rewrite apply_politician_cases.
      destruct (_ || _); [reflexivity|]. destruct (_ && _); [reflexivity|].
      destruct (single _); reflexivity.
    - rewrite esm_approve_cases.
      destruct (fst _); [|left; reflexivity].
      destruct (application_of st _) as [a|]; [|left; reflexivity].
      destruct (_ =? _)%string; [|left; reflexivity].
      right. eexists. reflexivity.
    - left. rewrite esm_reject_cases. destruct (fst _); reflexivity.
    - left. rewrite comment_cases.
      destruct (_ || _); [reflexivity|]. destruct (existsb _ _); [reflexivity|].
      destruct (user_of _ _); reflexivity.
    - left. rewrite rate_cases.
      destruct (_ || _); [reflexivity|]. destruct (_ || _); reflexivity.
    - left. rewrite post_ground_update_cases. destruct (_ || _); reflexivity.
    - left. rewrite ground_repost_cases.
      destruct (_ || _); [reflexivity|].
      destruct (ground_update_of _ _); reflexivity. }
  destruct Hsame as [->|[r ->]]; [apply incl_refl|].
  unfold upsert_row. destruct (existsb _ _).
  - rewrite map_update_rows; [apply incl_refl | reflexivity].
  - unfold insert_row. rewrite map_app. apply incl_appl, incl_refl.
Qed.

Lemma add_achievement_cases req s :
  EsmSite.add_achievement req s
  = match profile_of_user (store s) (AchievementReq.user_id req) with
    | Some p =>
        (Sent (mkResponse 200 (JMessage "Achievement added")),
         set_achievements
           (achievements s
            ++ [Achievement.mk (fresh_key Achievement.id (achievements s))
                  (Profile.id p) (AchievementReq.title req)
                  (AchievementReq.description req)])%list
           s)
    | None => (Uncaught "TypeError", s)
    end.
Proof.
  unfold EsmSite.add_achievement, profile_of_user, profiles_of.
  unfold and_then, lift, from_single, sent, answer, insert_achievement.
  cbn [rows profiles_table].
  destruct s as [st ms acs prs gl gc gr]. cbn [store set_store achievements].
  destruct (single _); reflexivity.
Qed.

Lemma ground_like_cases req s :
  EsmSite.ground_like req s
  = if negb (truthy_num (LikeReq.user_id req))
       || negb (truthy_num (LikeReq.ground_id req))
    then (Sent (mkResponse 400 (JError "Missing fields")), s)
    else (liked,
          let like := GroundLike.mk (num_of (LikeReq.user_id req))
                                    (num_of (LikeReq.ground_id req)) in
          if existsb (same_like like) (ground_likes s) then s
          else set_ground_likes (ground_likes s ++ [like])%list s).
Proof.
  unfold EsmSite.ground_like. destruct (_ || _); reflexivity.
Qed.

Lemma post_manifesto_site req s :
  site_after (EsmSite.post_manifesto req s) = s
  \/ exists p,
       array_includes allowedCategories (str_of (ManifestoReq.category req))
       = true
       /\ profile_of_user (store s) (num_of (ManifestoReq.user_id req)) = Some p
       /\ site_after (EsmSite.post_manifesto req s)
          = set_manifestos
              (manifestos s ++ [manifesto_row (manifestos s) p req])%list s.
Proof.
  rewrite post_manifesto_cases. unfold site_after.
  destruct (_ || _); [left; reflexivity|].
  destruct (array_includes _ _) eqn:Hc; [|left; reflexivity].
  cbn [negb].
  destruct (user_of _ _) as [u|]; [|left; reflexivity].
  destruct (String.eqb_spec (User.role u) "politician") as [Hr|Hr];
    [|left; reflexivity].
  cbn [negb].
  destruct (profile_of_user _ _) as [p|]; [|left; reflexivity].
  right. exists p. repeat split.
Qed.

Lemma site_step_keeps_manifestos_owned s s' :
  site_step s s' -> manifestos_owned s -> manifestos_owned s'.
Proof.
  intros Hstep Hown. destruct Hstep as [s st' Hst | req s | req s | req s].
  - intros m Hm. destruct s as [st ms acs prs gl gc gr].
    cbn [set_store manifestos store] in *.
    destruct (Hown m Hm) as [Hc Hp]. split; [exact Hc|].
    exact (step_keeps_profile_ids st st' Hst _ Hp).
  - destruct (post_manifesto_site req s) as [->|[p [Hc [Hp ->]]]];
      [exact Hown|].
    intros m Hm. destruct s as [st ms acs prs gl gc gr].
    cbn [set_manifestos manifestos store] in *.
    apply in_app_or in Hm. destruct Hm as [Hm|[<-|[]]].
    + exact (Hown m Hm).
    + split; [exact Hc|]. cbn [manifesto_row Manifesto.politician_id].
      apply in_map. unfold profile_of_user, profiles_of in Hp.
      apply single_filter_In in Hp. exact (proj1 Hp).
  - rewrite add_achievement_cases.
    destruct (profile_of_user _ _); [|exact Hown].
    destruct s. exact Hown.
  - rewrite ground_like_cases.
    destruct (_ || _); [exact Hown|].
    unfold site_after. cbn [snd]. destruct (existsb _ _); [exact Hown|].
    destruct s. exact Hown.
Qed.

(** X15.  In every site of a run, each manifesto is in one of the five
    allowed categories and carries the id of a profile that is in the
    profile table. *)
Theorem run_manifestos_owned :
  forall s, site_reachable s -> manifestos_owned s.
Proof.
  induction 1 as [st _ | s s' _ IH Hstep].
  - intros m [].
  - exact (site_step_keeps_manifestos_owned s s' Hstep IH).
Qed.

Lemma approved_site_reachable : site_reachable approved_site.
Proof.
  apply (site_next campaign_site).
  - apply (site_next (site_of_store (store_with_users [root; bob]))).
    + apply site_start. repeat split.
    + exact (site_store_step (site_of_store (store_with_users [root; bob])) _
               (step_apply bob_applies (store_with_users [root; bob]))).
  - exact (site_store_step campaign_site _
             (step_approve (AdminReq.mk 1 9) (campaign_store "pending"))).
Defined.

Lemma posted_site_reachable : site_reachable posted_site.
Proof.
  apply (site_next approved_site).
  - exact approved_site_reachable.
  - exact (site_post_manifesto bob_posts approved_site).
Defined.

Lemma run_manifestos_owned_witness : manifestos_owned posted_site.
Proof.
  apply (run_manifestos_owned posted_site). exact posted_site_reachable.
Defined.

Example posted_site_manifestos :
  manifestos posted_site = [Manifesto.mk 1 1 "Health" "A clinic in every ward"].
Proof. reflexivity. Qed.

(** The store of a reachable site is a reachable store. *)
Lemma site_reachable_store s : site_reachable s -> reachable (store s).
Proof.
  induction 1 as [st Hst | s s' _ IH Hstep].
  - apply reach_start. exact Hst.
  - destruct Hstep as [s st' Hst | req s | req s | req s].
    + destruct s. cbn [set_store store] in *.
      exact (reach_step _ _ IH Hst).
    + destruct (post_manifesto_site req s) as [->|[p [_ [_ ->]]]];
        [exact IH|].
      destruct s. exact IH.
    + rewrite add_achievement_cases.
      destruct (profile_of_user _ _); [|exact IH]. destruct s. exact IH.
    + rewrite ground_like_cases.
      destruct (_ || _); [exact IH|].
      unfold site_after. cbn [snd]. destruct (existsb _ _); [exact IH|].
      destruct s. exact IH.
Qed.

(** X16.  Rejecting an application revokes nothing: whatever a manifesto
    or achievement request was answered before an admin's reject, it is
    answered the same after it, so a politician whose approved application
    is then rejected can go on posting. *)
Theorem reject_revokes_nothing :
  forall s reject post achievement,
    let s' := site_after (lift (Esm.reject_politician reject) s) in
    response_of_site (EsmSite.post_manifesto post s')
    = response_of_site (EsmSite.post_manifesto post s)
    /\ response_of_site (EsmSite.add_achievement achievement s')
       = response_of_site (EsmSite.add_achievement achievement s).
Proof.
  intros s reject post achievement s'.
  assert (Hu : users (store s') = users (store s)
               /\ politician_profiles (store s') = politician_profiles (store s)).
  { unfold s', site_after, lift. rewrite esm_reject_cases.
    destruct (fst _); destruct s; split; reflexivity. }
  destruct Hu as [Hu Hp].
  assert (Huser : forall id, user_of (store s') id = user_of (store s) id)
    by (intro id; unfold user_of; rewrite Hu; reflexivity).
  assert (Hprof : forall id, profile_of_user (store s') id
                             = profile_of_user (store s) id)
    by (intro id; unfold profile_of_user, profiles_of; rewrite Hp; reflexivity).
  split.
  - rewrite !post_manifesto_cases, Huser, Hprof. unfold response_of_site.
    destruct (_ || _); [reflexivity|].
    destruct (negb (array_includes _ _)); [reflexivity|].
    destruct (user_of _ _) as [u|]; [|reflexivity].
    destruct (negb _); [reflexivity|].
    destruct (profile_of_user _ _); reflexivity.
  - rewrite !add_achievement_cases, Hprof. unfold response_of_site.
    destruct (profile_of_user _ _); reflexivity.
Qed.

(** Bob, approved and then rejected, still posts. *)
Example bob_posts_after_rejection :
  response_of_site
    (EsmSite.post_manifesto bob_posts
       (site_after (lift (Esm.reject_politician (AdminReq.mk 1 9)) approved_site)))
  = manifesto_posted.
Proof. reflexivity. Qed.

(** X17.  In every site of a run, a user whose application is still
    pending has no way to publish: a manifesto request in that user's name
    is never answered 'Manifesto posted successfully', and an achievement
    request ends in an uncaught TypeError (the handler reads the id of a
    profile that is not there); neither writes anything. *)
Theorem pending_applicant_cannot_publish :
  forall s a category content title description,
    site_reachable s ->
    In a (politician_applications (store s)) ->
    Application.status a = "pending" ->
    (response_of_site
       (EsmSite.post_manifesto
          (ManifestoReq.mk (Some (Application.user_id a)) category content) s)
     <> manifesto_posted
     /\ site_after
          (EsmSite.post_manifesto
             (ManifestoReq.mk (Some (Application.user_id a)) category content) s)
        = s)
    /\ EsmSite.add_achievement
         (AchievementReq.mk (Application.user_id a) title description) s
       = (Uncaught "TypeError", s).
Proof.
  intros s a category content title description Hreach Hin Hpend.
  pose proof (site_reachable_store s Hreach) as Hst.
  destruct (reachable_audit _ Hst) as [_ _ I3 _].
  pose proof (inv_applications _ (reachable_invariant _ Hst)) as Hone.
  assert (Hnone : profile_of_user (store s) (Application.user_id a) = None).
  { unfold profile_of_user.
    destruct (profiles_of (store s) (Application.user_id a)) as [|p rest] eqn:E;
      [reflexivity|]. exfalso.
    assert (Hp : In p (politician_profiles (store s))
                 /\ (Profile.user_id p =? Application.user_id a) = true).
    { apply (proj1 (filter_In
                      (fun q => Profile.user_id q =? Application.user_id a)
                      p (politician_profiles (store s)))).
      unfold profiles_of in E. rewrite E. left. reflexivity. }
    destruct Hp as [Hp Hk]. apply Z.eqb_eq in Hk.
    destruct (I3 p Hp) as [a' [Hin' [Hu' Hst']]].
    specialize (Hone (Application.user_id a)).
    assert (Ha : In a (applications_by (store s) (Application.user_id a))).
    { apply (proj2 (filter_In _ a (politician_applications (store s)))).
      split; [assumption | apply Z.eqb_refl]. }
    assert (Ha' : In a' (applications_by (store s) (Application.user_id a))).
    { apply (proj2 (filter_In _ a' (politician_applications (store s)))).
      split; [assumption | apply Z.eqb_eq; congruence]. }
    destruct (applications_by (store s) (Application.user_id a)) as [|x [|y l]];
      cbn in Hone, Ha, Ha'; [contradiction | | lia].
    destruct Ha as [->|[]]. destruct Ha' as [->|[]]. contradiction. }
  split.
  - rewrite post_manifesto_cases.
    cbn [ManifestoReq.user_id num_of]. rewrite Hnone.
    unfold response_of_site, site_after.
    destruct (_ || _); [split; [discriminate | reflexivity]|].
    destruct (negb (array_includes _ _)); [split; [discriminate | reflexivity]|].
    destruct (user_of _ _) as [u|]; [|split; [discriminate | reflexivity]].
    destruct (negb _); split; try discriminate; reflexivity.
  - rewrite add_achievement_cases. cbn [AchievementReq.user_id].
    rewrite Hnone. reflexivity.
Qed.

Lemma campaign_site_reachable : site_reachable campaign_site.
Proof.
  apply (site_next (site_of_store (store_with_users [root; bob]))).
  - apply site_start. repeat split.
  - exact (site_store_step (site_of_store (store_with_users [root; bob])) _
             (step_apply bob_applies (store_with_users [root; bob]))).
Defined.

Lemma pending_applicant_cannot_publish_witness :
  (response_of_site (EsmSite.post_manifesto bob_posts campaign_site)
   <> manifesto_posted
   /\ site_after (EsmSite.post_manifesto bob_posts campaign_site) = campaign_site)
  /\ EsmSite.add_achievement bob_achievement campaign_site
     = (Uncaught "TypeError", campaign_site).
Proof.
  apply (pending_applicant_cannot_publish campaign_site
           (bob_application "pending") (Some "Health")
           (Some "A clinic in every ward") (Some "Borehole")
           (Some "Drilled in 2024")).
  - exact campaign_site_reachable.
  - left. reflexivity.
  - reflexivity.
Defined.

(* ----------------------------------------------------------------- *)
(** ** Likes and counters *)

Lemma existsb_app_last {R : Type} (p : R -> bool) (l : list R) (x : R) :
  p x = true -> existsb p (l ++ [x]) = true.
Proof.
  intro H. rewrite existsb_app. cbn. rewrite H.
  rewrite orb_true_r. reflexivity.
Qed.

Lemma same_like_refl (l : GroundLike.t) : same_like l l = true.
Proof. unfold same_like. rewrite !Z.eqb_refl. reflexivity. Qed.

(** X18.  Liking is idempotent and counted once: a second like by the
    same user of the same ground update leaves the site as the first left
    it; a like with its fields raises the like count of that update by
    one if the user had not liked it and by nothing otherwise, and leaves
    the count of every other update alone. *)
Theorem like_counts_once :
  forall req s,
    site_after (EsmSite.ground_like req (site_after (EsmSite.ground_like req s)))
    = site_after (EsmSite.ground_like req s)
    /\ (truthy_num (LikeReq.user_id req) = true ->
        truthy_num (LikeReq.ground_id req) = true ->
        EsmSite.ground_likes_count (num_of (LikeReq.ground_id req))
          (site_after (EsmSite.ground_like req s))
        = EsmSite.ground_likes_count (num_of (LikeReq.ground_id req)) s
          + (if existsb (same_like (GroundLike.mk (num_of (LikeReq.user_id req))
                                                  (num_of (LikeReq.ground_id req))))
                        (ground_likes s)
             then 0 else 1))
    /\ (forall id, id <> num_of (LikeReq.ground_id req) ->
                   EsmSite.ground_likes_count id
                     (site_after (EsmSite.ground_like req s))
                   = EsmSite.ground_likes_count id s).
Proof.
  intros req s.
  set (like := GroundLike.mk (num_of (LikeReq.user_id req))
                             (num_of (LikeReq.ground_id req))).
  repeat split.
  - rewrite !ground_like_cases. unfold site_after.
    destruct (_ || _); [reflexivity|]. cbn [snd]. fold like.
    destruct (existsb (same_like like) (ground_likes s)) eqn:Ex.
    + rewrite Ex. reflexivity.
    + destruct s as [st ms acs prs gl gc gr].
      cbn [set_ground_likes ground_likes] in *.
      rewrite (existsb_app_last _ gl like (same_like_refl like)). reflexivity.
  - intros Hu Hg. rewrite ground_like_cases, Hu, Hg.
    unfold site_after, EsmSite.ground_likes_count. cbn [negb orb snd]. fold like.
    destruct (existsb (same_like like) (ground_likes s)); [lia|].
    destruct s as [st ms acs prs gl gc gr]. cbn [set_ground_likes ground_likes].
    rewrite filter_app, length_app. cbn [filter like GroundLike.ground_id].
    rewrite Z.eqb_refl. cbn [List.length]. lia.
  - intros id Hid. rewrite ground_like_cases.
    unfold site_after, EsmSite.ground_likes_count.
    destruct (_ || _); [reflexivity|]. cbn [snd]. fold like.
    destruct (existsb (same_like like) (ground_likes s)); [reflexivity|].
    destruct s as [st ms acs prs gl gc gr]. cbn [set_ground_likes ground_likes].
    rewrite filter_app, length_app. cbn [filter like GroundLike.ground_id].
    destruct (Z.eqb_spec (num_of (LikeReq.ground_id req)) id) as [E|E];
      [exfalso; apply Hid; symmetry; exact E|].
    cbn [List.length]. lia.
Qed.

Lemma like_counts_once_witness :
  EsmSite.ground_likes_count (num_of (LikeReq.ground_id bob_likes))
    (site_after (EsmSite.ground_like bob_likes feed_site))
  = EsmSite.ground_likes_count (num_of (LikeReq.ground_id bob_likes)) feed_site
    + (if existsb (same_like (GroundLike.mk (num_of (LikeReq.user_id bob_likes))
                                            (num_of (LikeReq.ground_id bob_likes))))
                  (ground_likes feed_site)
       then 0 else 1).
Proof.
  apply (proj1 (proj2 (like_counts_once bob_likes feed_site))); reflexivity.
Defined.

Example bob_likes_twice :
  EsmSite.ground_likes_count 1
    (site_after (EsmSite.ground_like bob_likes
                   (site_after (EsmSite.ground_like bob_likes feed_site))))
  = 1.
Proof. reflexivity. Qed.

Lemma site_step_keeps_silent_tables s s' :
  site_step s s' ->
  ground_reposts s' = ground_reposts s /\ ground_comments s' = ground_comments s.
Proof.
  intro Hstep. destruct Hstep as [s st' Hst | req s | req s | req s].
  - destruct s. split; reflexivity.
  - rewrite post_manifesto_cases.
    destruct (_ || _); [split; reflexivity|].
    destruct (negb (array_includes _ _)); [split; reflexivity|].
    destruct (user_of _ _) as [u|]; [|split; reflexivity].
    destruct (negb _); [split; reflexivity|].
    destruct (profile_of_user _ _); [|split; reflexivity].
    destruct s. split; reflexivity.
  - rewrite add_achievement_cases.
    destruct (profile_of_user _ _); [|split; reflexivity].
    destruct s. split; reflexivity.
  - rewrite ground_like_cases.
    destruct (_ || _); [split; reflexivity|].
    unfold site_after. cbn [snd]. destruct (existsb _ _); [split; reflexivity|].
    destruct s. split; reflexivity.
Qed.

(** X19.  The repost counter and the ground-comment counter read tables
    that no handler writes: in every site of a run both answer 0 for every
    id, whatever has been reposted (a repost is stored as a ground update,
    not as a row of the table the counter reads). *)
Theorem silent_counters :
  forall s,
    site_reachable s ->
    forall id,
      EsmSite.ground_reposts_count id s = 0
      /\ EsmSite.ground_comments_count id s = 0.
Proof.
  intros s Hreach.
  assert (H : ground_reposts s = [] /\ ground_comments s = []).
  { induction Hreach as [st _ | s s' _ IH Hstep].
    - split; reflexivity.
    - destruct (site_step_keeps_silent_tables s s' Hstep) as [-> ->]. exact IH. }
  destruct H as [Hr Hc]. intro id.
  unfold EsmSite.ground_reposts_count, EsmSite.ground_comments_count.
  rewrite Hr, Hc. split; reflexivity.
Qed.

Lemma reposted_site_reachable : site_reachable reposted_site.
Proof.
  apply (site_next feed_site).
  - apply (site_next (site_of_store (store_with_users [root; bob]))).
    + apply site_start. repeat split.
    + exact (site_store_step (site_of_store (store_with_users [root; bob])) _
               (step_ground_update bob_reports (store_with_users [root; bob]))).
  - exact (site_store_step feed_site _
             (step_repost (RepostReq.mk (Some 9) (Some 1)) feed_store)).
Defined.

Lemma silent_counters_witness :
  EsmSite.ground_reposts_count 1 reposted_site = 0
  /\ EsmSite.ground_comments_count 1 reposted_site = 0.
Proof.
  apply (silent_counters reposted_site). exact reposted_site_reachable.
Defined.

(** The repost is there, as a ground update. *)
Example reposted_site_feed :
  ground_updates (store reposted_site)
  = [flood_report;
     GroundUpdate.mk 2 9 "Kisumu" "Infrastructure" "Bridge flooded" (Some 1)].
Proof. reflexivity. Qed.

(* ----------------------------------------------------------------- *)
(** ** Listings *)

(** X20.  A comment that was answered 'Comment posted successfully' is
    what GET /comments of its target then lists last, with the content as
    sent and the username and role of its author; the listings of other
    targets are as before. *)
Theorem posted_comment_is_listed :
  forall (toLowerCase : string -> string) req st,
    response_of (Esm.comment toLowerCase req st) = comment_posted ->
    exists u before,
      user_of st (num_of (CommentReq.user_id req)) = Some u
      /\ EsmSite.get_comments (num_of (CommentReq.target_id req)) st
         = Data 200 before
      /\ EsmSite.get_comments (num_of (CommentReq.target_id req))
           (store_of (Esm.comment toLowerCase req st))
         = Data 200
             (before
              ++ [CommentView.mk (next_id (comments st))
                    (str_of (CommentReq.content req))
                    (Some (User.username u, User.role u))])%list
      /\ (forall t, t <> num_of (CommentReq.target_id req) ->
                    EsmSite.get_comments t
                      (store_of (Esm.comment toLowerCase req st))
                    = EsmSite.get_comments t st).
Proof.
  intros toLowerCase req st. rewrite comment_cases.
  unfold response_of, store_of.
  destruct (_ || _); [discriminate|].
  destruct (existsb _ _); [discriminate|].
  destruct (user_of st (num_of (CommentReq.user_id req))) as [u|] eqn:Hu;
    [|discriminate].
  intros _. cbn [fst snd]. exists u. eexists. split; [reflexivity|].
  split; [reflexivity|].
  unfold EsmSite.get_comments, insert_row. cbn [comments users].
  split.
  - rewrite filter_app, map_app.
    cbn [filter set_pk comments_table Comment.set_id Comment.target_type
         Comment.target_id Comment.user_id Comment.content Comment.id].
    rewrite Z.eqb_refl.
    change (("manifesto" =? "manifesto")%string) with true.
    cbn [andb map app].
    cbn [Comment.set_id Comment.id Comment.content Comment.user_id].
    unfold embedded_user. unfold user_of in Hu. rewrite Hu. reflexivity.
  - intros t Ht. rewrite filter_app.
    cbn [filter set_pk comments_table Comment.set_id Comment.target_type
         Comment.target_id].
    destruct (Z.eqb_spec (num_of (CommentReq.target_id req)) t) as [E|E];
      [contradiction (Ht (eq_sym E))|].
    rewrite andb_false_r, app_nil_r. reflexivity.
Qed.

Lemma posted_comment_is_listed_witness :
  exists u before,
    user_of feed_store (num_of (CommentReq.user_id bob_comments)) = Some u
    /\ EsmSite.get_comments (num_of (CommentReq.target_id bob_comments)) feed_store
       = Data 200 before
    /\ EsmSite.get_comments (num_of (CommentReq.target_id bob_comments))
         (store_of (Esm.comment lower bob_comments feed_store))
       = Data 200
           (before
            ++ [CommentView.mk (next_id (comments feed_store))
                  (str_of (CommentReq.content bob_comments))
                  (Some (User.username u, User.role u))])%list
    /\ (forall t, t <> num_of (CommentReq.target_id bob_comments) ->
                  EsmSite.get_comments t
                    (store_of (Esm.comment lower bob_comments feed_store))
                  = EsmSite.get_comments t feed_store).
Proof.
  apply (posted_comment_is_listed lower bob_comments feed_store). reflexivity.
Defined.

Example bob_comment_listed :
  EsmSite.get_comments 5 (store_of (Esm.comment lower bob_comments feed_store))
  = Data 200 [CommentView.mk 1 "Good plan" (Some ("bob", "voter"))].
Proof. reflexivity. Qed.

(** X21.  After a repost that was answered 'Reposted', the feed (newest
    first) opens with the copy: the location, category and content of the
    source under the name of the reposting user, followed by the feed as
    it was. *)
Theorem repost_heads_the_feed :
  forall req st,
    response_of (Esm.ground_repost req st) = reposted ->
    exists x before,
      ground_update_of st (num_of (RepostReq.ground_id req)) = Some x
      /\ EsmSite.get_ground_updates st = Data 200 before
      /\ EsmSite.get_ground_updates (store_of (Esm.ground_repost req st))
         = Data 200
             (FeedView.mk (next_id (ground_updates st))
                (GroundUpdate.location x) (GroundUpdate.category x)
                (GroundUpdate.content x)
                (option_map User.username
                   (user_of st (num_of (RepostReq.user_id req))))
              :: before).
Proof.
  intros req st. rewrite ground_repost_cases.
  unfold response_of, store_of.
  destruct (_ || _); [discriminate|].
  destruct (ground_update_of st _) as [x|]; [|discriminate].
  intros _. cbn [fst snd]. exists x. eexists.
  split; [reflexivity|]. split; [reflexivity|].
  unfold EsmSite.get_ground_updates, insert_row. cbn [ground_updates users].
  rewrite rev_unit. reflexivity.
Qed.

Lemma repost_heads_the_feed_witness :
  exists x before,
    ground_update_of feed_store 1 = Some x
    /\ EsmSite.get_ground_updates feed_store = Data 200 before
    /\ EsmSite.get_ground_updates
         (store_of (Esm.ground_repost (RepostReq.mk (Some 9) (Some 1)) feed_store))
       = Data 200
           (FeedView.mk (next_id (ground_updates feed_store))
              (GroundUpdate.location x) (GroundUpdate.category x)
              (GroundUpdate.content x)
              (option_map User.username (user_of feed_store 9))
            :: before).
Proof.
  apply (repost_heads_the_feed (RepostReq.mk (Some 9) (Some 1)) feed_store).
  reflexivity.
Defined.

Example feed_after_repost :
  EsmSite.get_ground_updates
    (store_of (Esm.ground_repost (RepostReq.mk (Some 9) (Some 1)) feed_store))
  = Data 200
      [FeedView.mk 2 "Kisumu" "Infrastructure" "Bridge flooded" (Some "root");
       FeedView.mk 1 "Kisumu" "Infrastructure" "Bridge flooded" (Some "bob")].
Proof. reflexivity. Qed.

(* ----------------------------------------------------------------- *)
(** ** The CommonJS profile page and promises *)

Lemma existsb_filter {R : Type} (p q : R -> bool) (l : list R) :
  existsb p (filter q l) = existsb (fun x => q x && p x) l.
Proof.
  induction l as [|x l IH]; cbn; [reflexivity|].
  destruct (q x); cbn; rewrite IH; reflexivity.
Qed.

Lemma page_query_selects s id :
  ratings_valid (store s) ->
  filter (fun r => (Rating.target_type r =? "manifesto")%string
                   && existsb (fun m => Manifesto.id m =? Rating.target_id r)
                              (filter (fun m => Manifesto.politician_id m =? id)
                                      (manifestos s)))
         (ratings (store s))
  = page_ratings s id.
Proof.
  intro Hv. unfold page_ratings. apply filter_ext_in. intros r Hr.
  unfold ratings_valid in Hv. rewrite Forall_forall in Hv.
  destruct (Hv r Hr) as [-> _]. cbn [String.eqb andb].
  change (("manifesto" =? "manifesto")%string) with true. cbn [andb].
  apply existsb_filter.
Qed.

(** X22.  The profile page of the CommonJS build averages the ratings of
    all manifestos of the politician.  On a table of valid rating rows
    (fewer than 2^45), with no such rating the average is the number 0.
    Otherwise it is a text of three characters, the digit of [n / 10], a
    point and the digit of [n mod 10], where [n / 10] is within half a
    tenth of the mean of those ratings and [n] is the integer nearest to
    ten times the binary64 [m / 2^s] nearest to the mean (even [m] on a
    tie), the larger [n] on a tie. *)
Theorem page_average_is_mean :
  forall s id,
    ratings_valid (store s) ->
    Z.of_nat (List.length (ratings (store s))) < 2 ^ 45 ->
    let count := Z.of_nat (List.length (page_ratings s id)) in
    let total := total_rating (page_ratings s id) in
    exists page,
      CjsSite.politician_page id s = Data 200 page
      /\ (page_ratings s id = [] -> RatedPage.average page = JNum 0)
      /\ (page_ratings s id <> [] ->
          exists n m e,
            RatedPage.average page
            = JStr (String (ascii_of_nat (48 + Z.to_nat (n / 10)))
                      (String "."
                         (String (ascii_of_nat (48 + Z.to_nat (n mod 10)))
                                 "")))
            /\ 10 <= n <= 50
            /\ 2 * Z.abs (10 * total - n * count) <= count
            /\ 0 <= e
            /\ 2 ^ 52 <= m < 2 ^ 53
            /\ 2 * Z.abs (m * count - total * 2 ^ e) <= count
            /\ (2 * Z.abs (m * count - total * 2 ^ e) = count ->
                Z.even m = true)
            /\ 2 ^ e * (2 * n - 1) <= 20 * m < 2 ^ e * (2 * n + 1)).
Proof.
  intros s id Hv Hsize. cbv zeta. unfold CjsSite.politician_page. cbv zeta.
  rewrite (page_query_selects s id Hv).
  eexists. split; [reflexivity|]. cbn [RatedPage.average].
  assert (Hrows : Forall rating_row_valid (page_ratings s id)).
  { unfold page_ratings. apply Forall_forall. intros r Hr.
    apply filter_In in Hr. destruct Hr as [Hr _].
    unfold ratings_valid in Hv. rewrite Forall_forall in Hv. exact (Hv r Hr). }
  assert (Hlen : (List.length (page_ratings s id)
                  <= List.length (ratings (store s)))%nat)
    by apply filter_length_le.
  pose proof (total_rating_bounds _ Hrows) as Hb.
  destruct (page_ratings s id) as [|r rows] eqn:E.
  - split; [reflexivity|]. intro H. exfalso. apply H. reflexivity.
  - destruct (Z.eqb_spec (Z.of_nat (List.length (r :: rows))) 0) as [C|C];
      [cbn [List.length] in C; lia|].
    split; [discriminate|]. intros _.
    rewrite fold_left_total, Z.add_0_l.
    destruct (toFixed1_js_div (total_rating (r :: rows))
                (Z.of_nat (List.length (r :: rows))))
      as [n [m [e [Htext Hrest]]]]; try lia.
    exists n, m, e. split; [|exact Hrest].
    rewrite Htext. reflexivity.
Qed.

Lemma page_average_is_mean_witness :
  let count := Z.of_nat (List.length (page_ratings rated_site 1)) in
  let total := total_rating (page_ratings rated_site 1) in
  exists page,
    CjsSite.politician_page 1 rated_site = Data 200 page
    /\ (page_ratings rated_site 1 = [] -> RatedPage.average page = JNum 0)
    /\ (page_ratings rated_site 1 <> [] ->
        exists n m e,
          RatedPage.average page
          = JStr (String (ascii_of_nat (48 + Z.to_nat (n / 10)))
                    (String "."
                       (String (ascii_of_nat (48 + Z.to_nat (n mod 10)))
                               "")))
          /\ 10 <= n <= 50
          /\ 2 * Z.abs (10 * total - n * count) <= count
          /\ 0 <= e
          /\ 2 ^ 52 <= m < 2 ^ 53
          /\ 2 * Z.abs (m * count - total * 2 ^ e) <= count
          /\ (2 * Z.abs (m * count - total * 2 ^ e) = count ->
              Z.even m = true)
          /\ 2 ^ e * (2 * n - 1) <= 20 * m < 2 ^ e * (2 * n + 1)).
Proof.
  apply (page_average_is_mean rated_site 1).
  - repeat constructor; cbn; lia.
  - cbn. lia.
Defined.

(** Politician 1 has manifestos 5 and 6, rated 4, 5, 4 and 1: mean 3.5. *)
Example rated_page_average :
  option_map RatedPage.average
    (match CjsSite.politician_page 1 rated_site with
     | Data _ page => Some page
     | Refused _ _ => None
     end)
  = Some (JStr "3.5").
Proof. vm_compute. reflexivity. Qed.

Lemma add_promise_cases req s :
  CjsSite.add_promise req s
  = match user_of (store s) (PromiseReq.user_id req) with
    | None => (Uncaught "TypeError", s)
    | Some u =>
        if negb (User.role u =? "politician")%string
        then (Sent (mkResponse 403 (JError "Access denied")), s)
        else match profile_of_user (store s) (PromiseReq.user_id req) with
             | None => (Uncaught "TypeError", s)
             | Some p =>
                 (promise_added,
                  set_promises
                    (promises s
                     ++ [Promise.mk (fresh_key Promise.id (promises s))
                           (Profile.id p) (PromiseReq.content req)])%list
                    s)
             end
    end.
Proof.
  unfold CjsSite.add_promise, user_of, profile_of_user, profiles_of.
  unfold and_then, lift, from_single, sent, answer, insert_promise.
  cbn [rows users_table profiles_table].
  destruct s as [st ms acs prs gl gc gr]. cbn [store set_store promises].
  destruct (single _) as [u|]; [|reflexivity].
  destruct (negb _); [reflexivity|].
  cbn [store]. destruct (single _); reflexivity.
Qed.

(** X23.  The CommonJS add-promise route stores a promise only for a user
    of role 'politician' who has a profile, under that profile's id; a
    user id that names no user, or a politician without a profile, makes
    the handler throw a TypeError instead of answering; and whenever the
    answer is not 'Promise added' nothing is written. *)
Theorem add_promise_guarded :
  forall req s,
    (response_of_site (CjsSite.add_promise req s) = promise_added ->
     exists u p,
       user_of (store s) (PromiseReq.user_id req) = Some u
       /\ User.role u = "politician"
       /\ profile_of_user (store s) (PromiseReq.user_id req) = Some p
       /\ promises (site_after (CjsSite.add_promise req s))
          = (promises s
             ++ [Promise.mk (fresh_key Promise.id (promises s)) (Profile.id p)
                            (PromiseReq.content req)])%list)
    /\ (user_of (store s) (PromiseReq.user_id req) = None ->
        CjsSite.add_promise req s = (Uncaught "TypeError", s))
    /\ (forall u, user_of (store s) (PromiseReq.user_id req) = Some u ->
                  User.role u = "politician" ->
                  profile_of_user (store s) (PromiseReq.user_id req) = None ->
                  CjsSite.add_promise req s = (Uncaught "TypeError", s))
    /\ (response_of_site (CjsSite.add_promise req s) <> promise_added ->
        site_after (CjsSite.add_promise req s) = s).
Proof.
  intros req s. rewrite add_promise_cases.
  unfold response_of_site, site_after.
  destruct (user_of _ _) as [u|].
  - destruct (String.eqb_spec (User.role u) "politician") as [Hr|Hr];
      cbn [negb].
    + destruct (profile_of_user _ _) as [p|]; cbn [fst snd].
      * repeat split; try discriminate.
        -- intros _. exists u, p. destruct s. repeat split; assumption.
        -- intro H. exfalso. apply H. reflexivity.
      * repeat split; try discriminate.
    + repeat split; try discriminate.
      intros u' Hu' Hr' _. injection Hu' as <-. contradiction.
  - repeat split; discriminate.
Qed.

Lemma add_promise_guarded_witness :
  exists u p,
    user_of (store approved_site) (PromiseReq.user_id bob_promises) = Some u
    /\ User.role u = "politician"
    /\ profile_of_user (store approved_site) (PromiseReq.user_id bob_promises)
       = Some p
    /\ promises (site_after (CjsSite.add_promise bob_promises approved_site))
       = (promises approved_site
          ++ [Promise.mk (fresh_key Promise.id (promises approved_site))
                         (Profile.id p) (PromiseReq.content bob_promises)])%list.
Proof.
  apply (proj1 (add_promise_guarded bob_promises approved_site)). reflexivity.
Defined.

(* ----------------------------------------------------------------- *)
(** ** The two builds of login *)

(** X24.  The two builds of login answer alike except in one case: an
    active account with its email not verified and the right password is
    told 'Please verify your email first' by the ES-module build and is
    logged in by the CommonJS build. *)
Theorem login_builds_differ_only_unverified :
  forall (compare : string -> string -> bool) req st,
    Esm.login compare req st = Cjs.login compare req st
    \/ exists u,
         account_of st req = Some u
         /\ User.is_active u = true
         /\ User.email_verified u = false
         /\ compare (str_of (LoginReq.password req)) (User.password_hash u) = true
         /\ Esm.login compare req st = (verify_first, st)
         /\ Cjs.login compare req st = (logged_in u, st).
Proof.
  intros compare req st. rewrite esm_login_cases, cjs_login_cases.
  destruct (_ || _); [left; reflexivity|].
  destruct (account_of st req) as [u|]; [|left; reflexivity].
  destruct (User.is_active u) eqn:Ha; [|left; reflexivity].
  destruct (compare _ _) eqn:Hc; [|left; reflexivity].
  destruct (User.email_verified u) eqn:Hv; [left; reflexivity|].
  right. exists u. repeat split; assumption.
Qed.

Example carol_unverified_in_both_builds :
  response_of (Esm.login sample_compare carol_logs_in carol_registered)
  = verify_first
  /\ response_of (Cjs.login sample_compare carol_logs_in carol_registered)
     = logged_in carol.
Proof. split; reflexivity. Qed.

(* ----------------------------------------------------------------- *)
(** ** The public list of applications *)

Lemma step_profiles st st' :
  step st st' ->
  politician_profiles st' = politician_profiles st
  \/ exists r, politician_profiles st'
               = upsert_row same_profile_key r (politician_profiles st).
Proof.
  intro Hstep.
  destruct Hstep.
  - left. rewrite register_cases. destruct (existsb _ _); reflexivity.
  - left. rewrite forgot_password_cases.
    destruct (account_by_email _ _); reflexivity.
  - left. rewrite verify_email_cases.
    destruct (account_by_email _ _); try reflexivity.
    destruct (_ || _); try reflexivity. destruct has_column; reflexivity.
  - left. rewrite reset_password_cases.
    destruct (account_by_email _ _); try reflexivity.
    destruct (_ || _); reflexivity.
  - left. rewrite apply_politician_cases.
    destruct (_ || _); [reflexivity|]. destruct (_ && _); [reflexivity|].
    destruct (single _); reflexivity.
  - rewrite esm_approve_cases.
    destruct (fst _); [|left; reflexivity].
    destruct (application_of st _) as [a|]; [|left; reflexivity].
    destruct (_ =? _)%string; [|left; reflexivity].
    right. eexists. reflexivity.
  - left. rewrite esm_reject_cases. destruct (fst _); reflexivity.
  - left. rewrite comment_cases.
    destruct (_ || _); [reflexivity|]. destruct (existsb _ _); [reflexivity|].
    destruct (user_of _ _); reflexivity.
  - left. rewrite rate_cases.
    destruct (_ || _); [reflexivity|]. destruct (_ || _); reflexivity.
  - left. rewrite post_ground_update_cases. destruct (_ || _); reflexivity.
  - left. rewrite ground_repost_cases.
    destruct (_ || _); [reflexivity|].
    destruct (ground_update_of _ _); reflexivity.
Qed.

Lemma step_keeps_profile_users st st' :
  step st st' ->
  incl (map Profile.user_id (politician_profiles st))
       (map Profile.user_id (politician_profiles st')).
Proof.
  intro Hstep.
  destruct (step_profiles st st' Hstep) as [->|[r ->]]; [apply incl_refl|].
  unfold upsert_row. destruct (existsb _ _).
  - replace (map Profile.user_id
               (update_rows (same_profile_key r)
                  (fun old => set_pk (pk old) r) (politician_profiles st)))
      with (map Profile.user_id (politician_profiles st)); [apply incl_refl|].
    unfold update_rows. rewrite map_map. apply map_ext. intro x.
    unfold same_profile_key.
    destruct (Z.eqb_spec (Profile.user_id r) (Profile.user_id x)) as [E|E];
      [cbn; symmetry; exact E | reflexivity].
  - unfold insert_row. rewrite map_app. apply incl_appl, incl_refl.
Qed.

Lemma upsert_row_has_key (r : Profile.t) (l : list Profile.t) :
  In (Profile.user_id r)
     (map Profile.user_id (upsert_row same_profile_key r l)).
Proof.
  unfold upsert_row. destruct (existsb _ _) eqn:Ex.
  - apply existsb_exists in Ex. destruct Ex as [x [Hx Kx]].
    apply in_map_iff. exists (Profile.set_id (Profile.id x) r).
    split; [reflexivity|].
    apply In_update_rows. exists x. split; [assumption|].
    rewrite Kx. reflexivity.
  - unfold insert_row. rewrite map_app. apply in_or_app. right.
    left. reflexivity.
Qed.

Lemma next_id_positive {R : Type} `{Table R} (l : list R) : 1 <= next_id l.
Proof.
  unfold next_id.
  assert (0 <= fold_right Z.max 0 (map pk l)); [|lia].
  induction l as [|x l IH]; cbn [map fold_right]; lia.
Qed.

Lemma step_keeps_listing st st' :
  step st st' -> listing_invariant st -> listing_invariant st'.
Proof.
  intros Hstep [I1 I2].
  pose proof (step_keeps_profile_users st st' Hstep) as Hincl.
  constructor.
  - destruct Hstep;
      try (match goal with
           | |- forall a, In a (politician_applications ?s) -> _ =>
               assert (Hsame : politician_applications s
                               = politician_applications st)
           end;
           [ first
               [ rewrite register_cases; destruct (existsb _ _); reflexivity
               | rewrite forgot_password_cases;
                 destruct (account_by_email _ _); reflexivity
               | rewrite verify_email_cases;
                 destruct (account_by_email _ _); try reflexivity;
                 destruct (_ || _); try reflexivity;
                 destruct has_column; reflexivity
               | rewrite reset_password_cases;
                 destruct (account_by_email _ _); try reflexivity;
                 destruct (_ || _); reflexivity
               | rewrite comment_cases;
                 destruct (_ || _); try reflexivity;
                 destruct (existsb _ _); try reflexivity;
                 destruct (user_of _ _); reflexivity
               | rewrite rate_cases;
                 destruct (_ || _); try reflexivity;
                 destruct (_ || _); reflexivity
               | rewrite post_ground_update_cases;
                 destruct (_ || _); reflexivity
               | rewrite ground_repost_cases;
                 destruct (_ || _); try reflexivity;
                 destruct (ground_update_of _ _); reflexivity ]
           | rewrite Hsame; intros a Ha Hs; apply Hincl; exact (I1 a Ha Hs) ]).
    + intros a Ha Hs. apply Hincl. revert Ha.
      rewrite apply_politician_cases.
      destruct (_ || _); [intro Ha; exact (I1 a Ha Hs)|].
      destruct (_ && _); [intro Ha; exact (I1 a Ha Hs)|].
      destruct (single _); [intro Ha; exact (I1 a Ha Hs)|].
      unfold store_of. cbn [snd politician_applications]. intro Ha.
      apply In_insert_row in Ha. destruct Ha as [Ha| ->];
        [exact (I1 a Ha Hs) | discriminate Hs].
    + rewrite esm_approve_cases in *.
      destruct (fst _); [|intros a Ha Hs; apply Hincl; exact (I1 a Ha Hs)].
      destruct (application_of st _) as [a0|] eqn:Ha0;
        [|intros a Ha Hs; apply Hincl; exact (I1 a Ha Hs)].
      destruct (String.eqb_spec (Application.status a0) "pending") as [Hp|Hp];
        [|intros a Ha Hs; apply Hincl; exact (I1 a Ha Hs)].
      unfold store_of in *. cbn [snd politician_applications
                                   politician_profiles] in *.
      intros a Ha Hs. apply In_update_rows in Ha. destruct Ha as [x [Hx ->]].
      destruct (Z.eqb_spec (Application.id x) (AdminReq.application_id req))
        as [K|K].
      * unfold application_of in Ha0. apply single_Some in Ha0.
        assert (Hm : In x (filter (fun y => Application.id y
                                            =? AdminReq.application_id req)
                                  (politician_applications st))).
        { apply (proj2 (filter_In _ x (politician_applications st))).
          split; [assumption | apply Z.eqb_eq; assumption]. }
        rewrite Ha0 in Hm. destruct Hm as [<-|[]].
        cbn [Application.set_status Application.user_id].
        apply (upsert_row_has_key (profile_from 0 a0)).
      * apply Hincl. exact (I1 x Hx Hs).
    + rewrite esm_reject_cases in *.
      destruct (fst _); [|intros a Ha Hs; apply Hincl; exact (I1 a Ha Hs)].
      unfold store_of in *. cbn [snd politician_applications
                                   politician_profiles] in *.
      intros a Ha Hs. apply In_update_rows in Ha. destruct Ha as [x [Hx ->]].
      destruct (_ =? _); [discriminate Hs | exact (I1 x Hx Hs)].
  - intros p Hp. destruct (step_profiles st st' Hstep) as [E|[r E]];
      rewrite E in Hp; [exact (I2 p Hp)|].
    unfold upsert_row in Hp. destruct (existsb _ _).
    + apply In_update_rows in Hp. destruct Hp as [x [Hx ->]].
      destruct (same_profile_key r x); [|exact (I2 x Hx)].
      cbn. exact (I2 x Hx).
    + apply In_insert_row in Hp. destruct Hp as [Hp| ->]; [exact (I2 p Hp)|].
      pose proof (next_id_positive (politician_profiles st)) as Hn.
      cbn [set_pk profiles_table Profile.set_id Profile.id]. exact Hn.
Qed.

Lemma reachable_listing st : reachable st -> listing_invariant st.
Proof.
  induction 1 as [st [Happs [Hp _]] | st st' _ IH Hstep].
  - constructor.
    + intros a Ha. rewrite Happs in Ha. destruct Ha.
    + rewrite Hp. intros p [].
  - exact (step_keeps_listing st st' Hstep IH).
Qed.

(** X25.  In a run the public list of applications and the profile route
    agree: an application that is not approved is listed without a profile
    id, and an approved one is listed with the id of the profile that
    GET /my-politician-profile returns for its user. *)
Theorem listing_links_profiles :
  forall st a,
    reachable st ->
    In a (politician_applications st) ->
    exists listing,
      EsmSite.politicians_all st = Data 200 listing
      /\ List.length listing = List.length (politician_applications st)
      /\ (Application.status a <> "approved" ->
          In (application_view a None) listing)
      /\ (Application.status a = "approved" ->
          exists p,
            EsmSite.my_politician_profile (Application.user_id a) st
            = Data 200 p
            /\ Profile.user_id p = Application.user_id a
            /\ In (application_view a (Some (Profile.id p))) listing).
Proof.
  intros st a Hrun Ha. eexists. split; [reflexivity|].
  split; [rewrite length_map, length_rev; reflexivity|].
  pose proof (in_rev (politician_applications st) a) as Hrev.
  apply (proj1 Hrev) in Ha as Ha'.
  split.
  - intro Hs. apply in_map_iff. exists a. split; [|assumption].
    unfold application_view. f_equal.
    destruct (String.eqb_spec (Application.status a) "approved") as [E|E];
      [contradiction | reflexivity].
  - intro Hs.
    destruct (reachable_listing st Hrun) as [I1 I2].
    pose proof (inv_profiles st (reachable_invariant st Hrun)) as Hnd.
    pose proof (I1 a Ha Hs) as Hin. apply in_map_iff in Hin.
    destruct Hin as [p [Hu Hp]].
    destruct (filter_key_at_most_one Profile.user_id (Application.user_id a)
                (politician_profiles st) Hnd) as [E|[q E]].
    + assert (Hm : In p (filter (fun x => Profile.user_id x
                                          =? Application.user_id a)
                                (politician_profiles st))).
      { apply (proj2 (filter_In _ p (politician_profiles st))).
        split; [assumption | apply Z.eqb_eq; assumption]. }
      rewrite E in Hm. destruct Hm.
    + assert (Hq : In q (politician_profiles st)
                   /\ (Profile.user_id q =? Application.user_id a) = true).
      { apply (proj1 (filter_In (fun x => Profile.user_id x
                                          =? Application.user_id a)
                                q (politician_profiles st))).
        rewrite E. left. reflexivity. }
      destruct Hq as [Hq Kq]. apply Z.eqb_eq in Kq.
      exists q. unfold EsmSite.my_politician_profile. rewrite E.
      split; [reflexivity|]. split; [assumption|].
      apply in_map_iff. exists a. split; [|assumption].
      unfold application_view. f_equal. rewrite Hs, E. cbn.
      pose proof (I2 q Hq) as Hpos.
      destruct (Z.eqb_spec (Profile.id q) 0) as [Z0|Z0]; [lia | reflexivity].
Qed.

Lemma listing_links_profiles_witness :
  exists listing,
    EsmSite.politicians_all approved_store = Data 200 listing
    /\ List.length listing
       = List.length (politician_applications approved_store)
    /\ (Application.status (bob_application "approved")
        <> "approved" ->
        In (application_view
              (bob_application "approved") None)
           listing)
    /\ (Application.status (bob_application "approved")
        = "approved" ->
        exists p,
          EsmSite.my_politician_profile
            (Application.user_id
               (bob_application "approved"))
            approved_store
          = Data 200 p
          /\ Profile.user_id p
             = Application.user_id
                 (bob_application "approved")
          /\ In (application_view
                   (bob_application "approved")
                   (Some (Profile.id p)))
                listing).
Proof.
  apply (listing_links_profiles approved_store
           (bob_application "approved")).
  - exact approved_campaign_reachable.
  - vm_compute. left. reflexivity.
Defined.
